(** * XWiki connector: checkpointed sync, SOLR query construction, attachments

    A shallow embedding of the three modules of the XWiki connector

      - [onyx/connectors/xwiki/onyx_xwiki.py]  (module [OnyxXWiki])
      - [onyx/connectors/xwiki/utils.py]       (module [Utils])
      - [onyx/connectors/xwiki/connector.py]   (module [Connector])

    preceded by a prelude for the Python values and string operations the
    code relies on ([Py]) and for the effects of a network call ([NetM]),
    and followed by a concrete wiki to run the code on ([Examples]), the
    reference definitions the statements are written with ([Spec]), and
    the theory.

    Conventions.
    - Python [str] is [string]; one [ascii] is one code point, so the model
      covers the strings whose code points are below 256.
    - Python [int] is [Z]; [float] is the kernel's binary64 [float].
    - A call that may raise returns [Exc A]; every exception of the model is
      a subclass of Python's [Exception].
    - Code that talks to the wiki runs in the [Net] monad: the state is the
      log of requests issued so far and of the pauses the retry policy took;
      the wiki itself is a function from that history to the next reply.
    - Checkpoints are objects on a heap, passed by reference; the run of
      the connector threads the heap and the network state ([Conn]).
    - A generator is run to its end: its run gives the documents it
      yielded, in order, and the reference it returned or the exception it
      raised.
    - Values decoded from JSON are [Py.json]; where the code hands them on
      unchecked (the fields of a page), the model does too, and an
      operation on a value of the wrong type raises as Python does.
    - What the sources import from elsewhere (the HTTP session, [urllib],
      [datetime], the file-processing helpers, the configured thresholds)
      is a field of [World], [Deps] or [Clock]; the theorems hold for all
      of them. *)

From Stdlib Require Import ZArith QArith Qminmax Ascii String List Bool Lia.
From Stdlib Require Import PrimFloat FloatOps SpecFloat.
From stdpp Require Import base option list gmap strings.

Local Open Scope string_scope.
Local Open Scope Z_scope.

(* ===================================================================== *)
(** * Python prelude *)
(* ===================================================================== *)

Module Py.

(** ** Exceptions and results *)

Inductive exn_class :=
| IndexError
| AttributeError
| TypeError
| ValueError
| OverflowError
| ValidationError
| ConnectionError
| RuntimeError
| XWikiAuthenticationError
| XWikiUnexpectedResponse
| ConnectorMissingCredentialError.

(** An exception object: its class and what [str(exc)] prints. *)
Record exn := Exn { exn_cls : exn_class; exn_str : string }.

Inductive Exc (A : Type) :=
| Return (a : A)
| Raise (e : exn).
Arguments Return {A} a.
Arguments Raise {A} e.

Definition exc_bind {A B} (m : Exc A) (k : A -> Exc B) : Exc B :=
  match m with
  | Return a => k a
  | Raise e => Raise e
  end.

Definition exn_class_eqb (a b : exn_class) : bool :=
  match a, b with
  | IndexError, IndexError | AttributeError, AttributeError
  | TypeError, TypeError | ValueError, ValueError
  | OverflowError, OverflowError | ValidationError, ValidationError
  | ConnectionError, ConnectionError | RuntimeError, RuntimeError
  | XWikiAuthenticationError, XWikiAuthenticationError
  | XWikiUnexpectedResponse, XWikiUnexpectedResponse
  | ConnectorMissingCredentialError, ConnectorMissingCredentialError => true
  | _, _ => false
  end.

(** ** Strings *)

(** [s.startswith(p)] *)
Definition startswith (p s : string) : bool := String.prefix p s.

(** [s.endswith(p)] *)
Definition endswith (p s : string) : bool :=
  (String.length p <=? String.length s)%nat
  && String.eqb (substring (String.length s - String.length p) (String.length p) s) p.

(** [s[:-n]] for [n > 0] *)
Definition drop_last (n : nat) (s : string) : string :=
  substring 0 (String.length s - n) s.

(** [s[:n]] *)
Definition take (n : nat) (s : string) : string := substring 0 n s.

(** [sub in s] *)
Fixpoint contains (sub s : string) : bool :=
  String.prefix sub s
  || match s with
     | EmptyString => false
     | String _ s' => contains sub s'
     end.

(** [s.partition(sep)] for a one-character separator: the text before the
    first [sep], whether it was found, and the text after it. *)
Fixpoint partition (sep : ascii) (s : string) : string * bool * string :=
  match s with
  | EmptyString => (EmptyString, false, EmptyString)
  | String c s' =>
      if Ascii.eqb c sep then (EmptyString, true, s')
      else let '(h, found, t) := partition sep s' in (String c h, found, t)
  end.

(** [s.replace(old, new)] for a non-empty [old]: leftmost, non-overlapping
    occurrences.  [skip] counts the characters of a matched occurrence that
    are still to be passed over. *)
Fixpoint replace_go (old new : string) (skip : nat) (s : string) : string :=
  match s with
  | EmptyString => EmptyString
  | String c s' =>
      match skip with
      | S k => replace_go old new k s'
      | O =>
          if String.prefix old s
          then new +:+ replace_go old new (String.length old - 1) s'
          else String c (replace_go old new 0 s')
      end
  end.

Definition replace (old new s : string) : string := replace_go old new 0 s.

(** [s.lstrip(chars)] for a one-character set *)
Fixpoint lstrip (c : ascii) (s : string) : string :=
  match s with
  | String c' s' => if Ascii.eqb c' c then lstrip c s' else s
  | EmptyString => EmptyString
  end.

(** [s.rstrip(chars)] for a one-character set *)
Definition rstrip (c : ascii) (s : string) : string :=
  String.rev (lstrip c (String.rev s)).

(** [s.replace(old, new, 1)] for a non-empty [old] *)
Fixpoint replace_first (old new : string) (s : string) : string :=
  match s with
  | EmptyString => EmptyString
  | String c s' =>
      if String.prefix old s
      then new +:+ substring (String.length old) (String.length s) s
      else String c (replace_first old new s')
  end.

(** [c.isspace()] on the code points below 256. *)
Definition isspace (c : ascii) : bool :=
  let n := nat_of_ascii c in
  ((9 <=? n) && (n <=? 13) || (28 <=? n) && (n <=? 32)
   || (n =? 133) || (n =? 160))%nat.

(** [s.split()]: the maximal runs of non-space characters.  [cur] is the
    word being read, reversed. *)
Fixpoint split_go (cur : option string) (s : string) : list string :=
  match s with
  | EmptyString =>
      match cur with Some w => [String.rev w] | None => [] end
  | String c s' =>
      if isspace c
      then match cur with
           | Some w => String.rev w :: split_go None s'
           | None => split_go None s'
           end
      else split_go (Some (String c (default EmptyString cur))) s'
  end.

Definition split (s : string) : list string := split_go None s.

(** [c.lower()] on the code points below 256. *)
Definition lower_char (c : ascii) : ascii :=
  let n := nat_of_ascii c in
  if ((65 <=? n) && (n <=? 90)
      || (192 <=? n) && (n <=? 222) && negb (n =? 215))%nat
  then ascii_of_nat (n + 32) else c.

Fixpoint lower (s : string) : string :=
  match s with
  | EmptyString => EmptyString
  | String c s' => String (lower_char c) (lower s')
  end.

(** The one-character string of a double quote. *)
Definition dq : string := String "034"%char EmptyString.

(** The one-character string of a backslash. *)
Definition bs : string := String "092"%char EmptyString.

(** [bool(s)] *)
Definition nonempty (s : string) : bool :=
  match s with EmptyString => false | _ => true end.

(** Decimal rendering of an [int], as [str(n)] and f-strings do. *)
Definition digit (n : nat) : ascii := ascii_of_nat (48 + n).

Fixpoint dec_go (fuel : nat) (n : N) (acc : string) : string :=
  match fuel with
  | O => acc
  | S fuel' =>
      let acc' := String (digit (N.to_nat (n mod 10))) acc in
      if (n <? 10)%N then acc' else dec_go fuel' (n / 10)%N acc'
  end.

Definition str_of_N (n : N) : string := dec_go (S (N.to_nat (N.log2 n))) n "".

Definition str_of_Z (z : Z) : string :=
  if z <? 0 then "-" +:+ str_of_N (Z.to_N (- z)) else str_of_N (Z.to_N z).

(** ** JSON values, the [Any] of the decoded responses

    A dict is the list of its items in order, keys distinct.  The numbers
    are the integers; a number with a fraction or an exponent is outside
    the model. *)

#[local] Set Warnings "-register-all".

Inductive json :=
| JNull
| JBool (b : bool)
| JInt (n : Z)
| JStr (s : string)
| JList (l : list json)
| JDict (d : list (string * json)).

(** [bool(v)] *)
Definition truthy (v : json) : bool :=
  match v with
  | JNull => false
  | JBool b => b
  | JInt n => negb (n =? 0)
  | JStr s => nonempty s
  | JList l => match l with [] => false | _ => true end
  | JDict d => match d with [] => false | _ => true end
  end.

(** [a or b] *)
Definition por (a b : json) : json := if truthy a then a else b.

Fixpoint assoc (k : string) (d : list (string * json)) : option json :=
  match d with
  | [] => None
  | (k', v) :: d' => if String.eqb k k' then Some v else assoc k d'
  end.

(** [d.get(k)] on a dict *)
Definition dict_get (k : string) (d : list (string * json)) : json :=
  default JNull (assoc k d).

(** [k in d] on a dict *)
Definition dict_has (k : string) (d : list (string * json)) : bool :=
  match assoc k d with Some _ => true | None => false end.

(** [v.get(k)] on any value: only a dict has the method. *)
Definition get (k : string) (v : json) : Exc json :=
  match v with
  | JDict d => Return (dict_get k d)
  | _ => Raise (Exn AttributeError "object has no attribute 'get'")
  end.

(** [v == s] for a string literal [s] *)
Definition eq_str (v : json) (s : string) : bool :=
  match v with JStr s' => String.eqb s' s | _ => false end.

(** [v is None] *)
Definition is_none (v : json) : bool :=
  match v with JNull => true | _ => false end.

(** [str(v)].  The text of a list or a dict is Python's [repr] of it, which
    the model leaves to [repr_container]. *)
Definition str (repr_container : json -> string) (v : json) : string :=
  match v with
  | JNull => "None"
  | JBool true => "True"
  | JBool false => "False"
  | JInt n => str_of_Z n
  | JStr s => s
  | _ => repr_container v
  end.

(** [type(v).__name__] *)
Definition type_name (v : json) : string :=
  match v with
  | JNull => "NoneType"
  | JBool _ => "bool"
  | JInt _ => "int"
  | JStr _ => "str"
  | JList _ => "list"
  | JDict _ => "dict"
  end.

(** The value of an [int].  A [bool] is an [int] to Python, [True] being 1
    and [False] being 0. *)
Definition int_value (v : json) : option Z :=
  match v with
  | JInt n => Some n
  | JBool b => Some (if b then 1 else 0)
  | _ => None
  end.

(** [a > b] where [b] is an [int] (or a [bool]): the comparison of two
    numbers, and a [TypeError] for an [a] of any other type. *)
Definition py_gt (a b : json) : Exc bool :=
  match int_value a, int_value b with
  | Some x, Some y => Return (x >? y)
  | _, _ =>
      Raise (Exn TypeError
               ("'>' not supported between instances of '" +:+ type_name a
                +:+ "' and '" +:+ type_name b +:+ "'"))
  end.

(** ** Floats *)

(** [bool(x)]: only [0.0] and [-0.0] are false. *)
Definition float_truthy (x : float) : bool := negb (PrimFloat.eqb x 0%float).

(** [int(x)]: truncation toward zero; [ValueError] on NaN, [OverflowError]
    on an infinity. *)
Definition int_of_float (x : float) : Exc Z :=
  match Prim2SF x with
  | S754_zero _ => Return 0
  | S754_infinity _ =>
      Raise (Exn OverflowError "cannot convert float infinity to integer")
  | S754_nan => Raise (Exn ValueError "cannot convert float NaN to integer")
  | S754_finite s m e =>
      let mag := if 0 <=? e then Z.pos m * 2 ^ e else Z.pos m / 2 ^ (- e) in
      Return (if s then - mag else mag)
  end.

End Py.

Import Py.

Notation "'let?' x := m 'in' k" := (exc_bind m (fun x => k))
  (at level 10, x name, m at level 100, k at level 200, only parsing).
Notation "'let?' ' p := m 'in' k" :=
  (exc_bind m (fun x => match x with p => k end))
  (at level 10, p pattern, m at level 100, k at level 200, only parsing).


(* ===================================================================== *)
(** * The network monad *)
(* ===================================================================== *)

Module NetM.

(** One call of [requests.Session.request], as [_request] issues it. *)
Record Request := {
  req_auth : string * string;
  req_method : string;
  req_url : string;
  req_headers : option (gmap string string);
  req_params : option (list (string * json));
  req_data : option json;
  req_json : option json;
  req_timeout : Z;
  req_verify : bool
}.

(** What the client reads of a [requests.Response]; [json] is the outcome
    of [response.json()], which raises on a body that is not JSON. *)
Record Response := {
  status_code : Z;
  text : string;
  content : list Byte.byte;
  json : Exc Py.json
}.

(** The requests issued so far, oldest first, and the pauses (in seconds)
    the retry policy has taken. *)
Record NetState := {
  sent : list Request;
  slept : list Q
}.

Definition Net (A : Type) : Type := NetState -> Exc A * NetState.

Definition ret {A} (a : A) : Net A := fun st => (Return a, st).

Definition raise {A} (e : exn) : Net A := fun st => (Raise e, st).

Definition bind {A B} (m : Net A) (k : A -> Net B) : Net B :=
  fun st =>
    match m st with
    | (Return a, st') => k a st'
    | (Raise e, st') => (Raise e, st')
    end.

(** A pure computation that may raise, run inside [Net]. *)
Definition lift {A} (m : Exc A) : Net A := fun st => (m, st).

(** [try: m  except Exception as exc: ...]: [m] with its exception, if any,
    handed back as a value for the handler to look at. *)
Definition attempt {A} (m : Net A) : Net (Exc A) :=
  fun st => let '(r, st') := m st in (Return r, st').

(** [time.sleep(seconds)] *)
Definition sleep (seconds : Q) : Net unit :=
  fun st => (Return tt, {| sent := sent st; slept := slept st ++ [seconds] |}).

End NetM.

Import NetM.

Notation "'let!' x := m 'in' k" := (NetM.bind m (fun x => k))
  (at level 10, x name, m at level 100, k at level 200, only parsing).
Notation "'let!' ' p := m 'in' k" :=
  (NetM.bind m (fun x => match x with p => k end))
  (at level 10, p pattern, m at level 100, k at level 200, only parsing).

(* ===================================================================== *)
(** * onyx_xwiki.py: the client *)
(* ===================================================================== *)

Module OnyxXWiki.

Definition _DEFAULT_PAGE_SIZE : Z := 500.
Definition _TIMEOUT_SECONDS : Z := 30.

(** [class XWikiAttachment(BaseModel)] *)
Record XWikiAttachment := {
  name : string;
  size : option Z;
  mime_type : option string;
  download_path : string;
  version : option string;
  digest : option string
}.

(** [@dataclass(frozen=True) class XWikiPage].  A dataclass stores what it
    is given: the four fields that [_load_page_data] reads from the page
    data hold any JSON value, whatever their annotations say. *)
Record XWikiPage := {
  id : Py.json;
  full_name : Py.json;
  page_url : Py.json;
  modified_ms : Py.json;
  content : string;
  attachments : list XWikiAttachment
}.

(** [requests.Session] with its [auth] pair *)
Record Session := { auth : string * string }.

(** [class XWikiClient] *)
Record XWikiClient := {
  base_url : string;
  session : Session
}.

(** The parameters of a retry policy: [retry_builder(tries, delay, backoff,
    max_delay)], the delays in seconds. *)
Record RetryPolicy := {
  tries : nat;
  delay : Q;
  backoff : Q;
  max_delay : Q
}.

(** [urllib.parse.urlsplit(url)], the parts the client reads. *)
Record SplitResult := {
  scheme : string;
  netloc : string;
  path : string
}.

(** What the module takes from outside the repository's sources: the wiki
    at the other end of the HTTP session, and library calls. *)
Record World := {
  (** the reply (or the transport exception) of the wiki to a request, given
      the requests it has received before *)
  wiki_reply : list Request -> Request -> Exc Response;
  (** [urllib.parse.urljoin(base, url)] on two [str]; it raises a
      [ValueError] on some, such as a bracket without its match in the
      host *)
  urljoin : string -> string -> Exc string;
  (** [urllib.parse.urlsplit(url)] on a [str]; it raises as [urljoin]
      does *)
  urlsplit : string -> Exc SplitResult;
  (** [datetime.fromtimestamp(since_ms / 1000, tz=timezone.utc)
        .strftime(<ISO pattern>)] as a function of [since_ms]; it raises
      when the instant is outside the years [datetime] supports *)
  strftime_utc : Z -> Exc string;
  (** [format_document_soup(bs4.BeautifulSoup(html, <parser>))] *)
  html_to_text : string -> Exc string;
  (** [repr] of a list or dict, see [Py.str] *)
  repr_container : Py.json -> string;
  (** the policy of a bare [@retry_builder()] *)
  default_retry : RetryPolicy;
  (** [XWikiAttachment(name=, size=, mime_type=, download_path=, version=,
      digest=)]: pydantic validates the values and raises when one does
      not fit the field *)
  XWikiAttachment_init :
    string -> Py.json -> Py.json -> Py.json -> Py.json -> Py.json -> Exc XWikiAttachment
}.

(** ** Query construction *)

Section QueryBuilder.

Context (W : World).

Definition _build_modified_filter (since_ms : option Z) : Exc string :=
  match since_ms with
  | None => Return ""
  | Some ms =>
      let? since_iso := strftime_utc W ms in
      Return ("date:[" +:+ since_iso +:+ " TO *]")
  end.

(** [val.replace(backslash, two backslashes).replace(quote, backslash quote)] *)
Definition _esc (val : string) : string :=
  replace dq (bs +:+ dq) (replace bs (bs +:+ bs) val).

Definition _extract_space_from_page_reference (page_ref : string) : string :=
  if endswith ".WebHome" page_ref then drop_last 8 page_ref
  else if contains "." page_ref then page_ref
  else page_ref.

(** [words[:-1]] and [words[-1]]; the latter raises on an empty list. *)
Definition init_last (words : list string) : Exc (list string * string) :=
  match List.rev words with
  | [] => Raise (Exn IndexError "list index out of range")
  | w :: ws => Return (List.rev ws, w)
  end.

Definition _build_space_filter (space : string) (recursive : bool) : Exc string :=
  if recursive then
    if contains " " space then
      let words := split space in
      let? '(init, last) := init_last words in
      let required_terms := String.concat " " (map (fun word => "+" +:+ word) init) in
      let last_word_wildcard := "+" +:+ last +:+ "*" in
      Return ("space:(" +:+ required_terms +:+ " " +:+ last_word_wildcard +:+ ")")
    else
      Return ("space:(" +:+ space +:+ "*)")
  else
    Return ("space:" +:+ dq +:+ _esc space +:+ dq).

(** [bool(v)] for a [str | None] *)
Definition opt_truthy (v : option string) : bool :=
  match v with Some s => nonempty s | None => false end.

(** The body of [_build_solr_query] up to its last two lines: the list
    [queryTerms] and the dict [extra_params] it has built by then. *)
Definition query_terms (root_page tag : option string) (index_recursively : bool)
    (since_ms : option Z) : Exc (list string * gmap string string) :=
  let queryTerms := ["type:(" +:+ dq +:+ "DOCUMENT" +:+ dq +:+ ")"; "hidden:false"] in
  let extra_params : gmap string string := ∅ in
  let? '(queryTerms, extra_params) :=
    if opt_truthy root_page then
      let root_page := default EmptyString root_page in
      let '(wiki_prefix, separator, page_ref) := partition ":" root_page in
      let '(extra_params, space) :=
        if separator
        then (<[ "wiki" := wiki_prefix ]> extra_params,
              _extract_space_from_page_reference page_ref)
        else (extra_params, _extract_space_from_page_reference root_page) in
      let? term := _build_space_filter space index_recursively in
      Return ((queryTerms ++ [term])%list, extra_params)
    else if opt_truthy tag then
      let tag := default EmptyString tag in
      Return ((queryTerms
               ++ ["(property.XWiki.TagClass.tags:" +:+ dq +:+ _esc tag +:+ dq +:+ ")"])%list,
              extra_params)
    else Return (queryTerms, extra_params) in
  let? queryTerms :=
    match since_ms with
    | Some _ =>
        let? term := _build_modified_filter since_ms in
        Return (queryTerms ++ [term])%list
    | None => Return queryTerms
    end in
  Return (queryTerms, extra_params).

(** [" AND ".join([f"({t})" for t in queryTerms if t])] *)
Definition join_terms (queryTerms : list string) : string :=
  String.concat " AND "
    (map (fun t => "(" +:+ t +:+ ")") (List.filter nonempty queryTerms)).

Definition _build_solr_query (root_page tag : option string)
    (index_recursively : bool) (since_ms : option Z)
  : Exc (string * gmap string string) :=
  let? '(queryTerms, extra_params) :=
    query_terms root_page tag index_recursively since_ms in
  Return (join_terms queryTerms, extra_params).

End QueryBuilder.

(** ** The client *)

Definition _build_session (username password : string) : Session :=
  {| auth := (username, password) |}.

(** [XWikiClient.__init__] *)
Definition XWikiClient_init (base_url username password : string) : XWikiClient :=
  {| base_url := rstrip "/" base_url;
     session := _build_session username password |}.

(** [session.request(...)]: the wiki answers, and the request is on record. *)
Definition session_request (W : World) (req : Request) : Net Response :=
  fun st =>
    (wiki_reply W (sent st) req,
     {| sent := sent st ++ [req]; slept := slept st |}).

(** Modelled from the spec: the errors [retry_builder] does not retry.  The
    spec names one, the authentication failure, which surfaces at once. *)
Definition non_retryable (e : exn) : bool :=
  exn_class_eqb (exn_cls e) XWikiAuthenticationError.

(** Modelled from the spec: [retry_builder] of [onyx.utils.retry_wrapper],
    which is not among the sources.  The spec describes a bounded retry
    wrapper with a fixed retry count and exponential backoff with a capped
    maximum delay, applied per call, under which an authentication failure
    is non-retryable and surfaces immediately, and under which exhausting the
    retries surfaces the error at the call site.

    [retry_loop n pause] runs [call]; when it raises a retryable error and
    [n] further attempts are left, it pauses and tries again with the pause
    multiplied by [backoff], up to [max_delay]. *)
Fixpoint retry_loop {A} (attempts_left : nat) (pause backoff max_delay : Q)
    (call : Net A) : Net A :=
  fun st =>
    match call st with
    | (Return a, st') => (Return a, st')
    | (Raise e, st') =>
        match attempts_left with
        | O => (Raise e, st')
        | S n =>
            if non_retryable e then (Raise e, st')
            else
              (let! _ := sleep pause in
               retry_loop n (Qred (Qmin (pause * backoff) max_delay))
                 backoff max_delay call) st'
        end
    end.

(** Modelled from the spec: [@retry_builder(tries=, delay=, backoff=,
    max_delay=)] around [call]: [tries] attempts in all, the first pause
    [delay]. *)
Definition retry_builder {A} (policy : RetryPolicy) (call : Net A) : Net A :=
  retry_loop (tries policy - 1) (delay policy) (backoff policy)
    (max_delay policy) call.

Section Client.

Context (W : World).

(** The body of [_request], one attempt. *)
Definition _request_once (self : XWikiClient) (method url : string)
    (headers : option (gmap string string))
    (params : option (list (string * Py.json)))
    (allow_status : option (gset Z))
    (data json : option Py.json) : Net Response :=
  let! request_url :=
    lift (if startswith "http" url then Return url
          else urljoin W (base_url self +:+ "/") (lstrip "/" url)) in
  let allow : gset Z := default ∅ allow_status in
  let! response :=
    session_request W
      {| req_auth := auth (session self);
         req_method := method;
         req_url := request_url;
         req_headers := headers;
         req_params := params;
         req_data := data;
         req_json := json;
         req_timeout := _TIMEOUT_SECONDS;
         req_verify := true |} in
  if status_code response =? 401 then
    raise (Exn XWikiAuthenticationError
             ("Authentication failed calling " +:+ request_url))
  else if bool_decide (status_code response ∈ allow)
          || (200 <=? status_code response) && (status_code response <? 300)
  then ret response
  else
    raise (Exn XWikiUnexpectedResponse
             ("Unexpected status code " +:+ str_of_Z (status_code response)
              +:+ " for " +:+ method +:+ " " +:+ request_url +:+ ". "
              +:+ "Body: " +:+ take 500 (text response))).

(** [@retry_builder(tries=3, delay=1, backoff=2, max_delay=10)] *)
Definition _request_policy : RetryPolicy :=
  {| tries := 3; delay := 1; backoff := 2; max_delay := 10 |}.

Definition _request (self : XWikiClient) (method url : string)
    (headers : option (gmap string string))
    (params : option (list (string * Py.json)))
    (allow_status : option (gset Z))
    (data json : option Py.json) : Net Response :=
  retry_builder _request_policy
    (_request_once self method url headers params allow_status data json).

Definition _fetch_page_data (self : XWikiClient) (page_url : string) : Net Py.json :=
  retry_builder (default_retry W)
    (if negb (nonempty page_url) then ret (JDict [])
     else
       let! response :=
         _request self "GET" page_url
           (Some {[ "Accept" := "application/json" ]})
           (Some [("attachments", JStr "true")]) None None None in
       ret (match NetM.json response with
            | Return data => por data (JDict [])
            | Raise _ => JDict []
            end)).

Definition _list_attachments (data : Py.json) : Exc (list XWikiAttachment) :=
  match data with
  | JDict d =>
      match d, assoc "attachments" d with
      | _ :: _, Some (JList attachments_data) =>
          (fix loop (entries : list Py.json) : Exc (list XWikiAttachment) :=
             match entries with
             | [] => Return []
             | JDict entry :: rest =>
                 let name := dict_get "name" entry in
                 if negb (truthy name) then loop rest
                 else
                   let url := por (dict_get "xwikiAbsoluteUrl" entry)
                                  (dict_get "download" entry) in
                   let? attachment :=
                     XWikiAttachment_init W (str (repr_container W) name)
                       (dict_get "size" entry) (dict_get "mimeType" entry) url
                       (dict_get "version" entry) (dict_get "digest" entry) in
                   let? attachments := loop rest in
                   Return (attachment :: attachments)
             | _ :: rest => loop rest
             end) attachments_data
      | _, _ => Return []
      end
  | _ => Return []
  end.

Definition download_attachment (self : XWikiClient) (attachment : XWikiAttachment)
  : Net (list Byte.byte) :=
  retry_builder (default_retry W)
    (let! response :=
       _request self "GET" (download_path attachment) None None None None None in
     ret (NetM.content response)).

Definition attachment_download_url (self : XWikiClient) (attachment : XWikiAttachment)
  : Exc string :=
  if startswith "http" (download_path attachment)
  then Return (download_path attachment)
  else urljoin W (base_url self +:+ "/") (lstrip "/" (download_path attachment)).

(** What the first two lines of [resolve_page_content_url] do with a value
    that is no [str] (CPython 3.11): a list or a dict cannot be hashed for
    the cache of [urlsplit]; any other value that counts as true has no
    [decode] for [urlsplit] to call; and [None], [0] and [False] split into
    empty bytes, whose [replace] refuses the [str] arguments. *)
Definition split_no_str (v : Py.json) : exn :=
  match v with
  | JList _ | JDict _ =>
      Exn TypeError ("unhashable type: '" +:+ type_name v +:+ "'")
  | _ =>
      if truthy v
      then Exn AttributeError
             ("'" +:+ type_name v +:+ "' object has no attribute 'decode'")
      else Exn TypeError "a bytes-like object is required, not 'str'"
  end.

(** [view_url] is annotated [str]; the caller hands over whatever the page
    data held. *)
Definition resolve_page_content_url (view_url : Py.json) : Exc string :=
  match view_url with
  | JStr view_url =>
      let? parts := urlsplit W view_url in
      let new_path := replace "/bin/view/" "/bin/get/" (path parts) in
      let new_path :=
        if contains "/wiki/" new_path
        then replace_first "/view/" "/get/" (replace_first "/wiki/" "/wiki/" new_path)
        else new_path in
      let query := "xpage=plain&viewer=content&outputSyntax=html" in
      Return (scheme parts +:+ "://" +:+ netloc parts +:+ new_path +:+ "?" +:+ query)
  | _ => Raise (split_no_str view_url)
  end.

Definition _get_page_html (self : XWikiClient) (page_url full_name : Py.json)
  : Net string :=
  retry_builder (default_retry W)
    (let! get_url := lift (resolve_page_content_url page_url) in
     let! response :=
       _request self "GET" get_url (Some {[ "Accept" := "text/html" ]})
         None None None None in
     lift (html_to_text W (text response))).

(** The loop of [_load_page_data] over [links]: the [href] of the first
    link of the page relation that is not a translations link. *)
Fixpoint find_page_rest_url (links : list Py.json) : option string :=
  match links with
  | [] => None
  | JDict link :: rest =>
      let rel := dict_get "rel" link in
      let href := por (dict_get "href" link) (JStr "") in
      if eq_str rel "http://www.xwiki.org/rel/page"
         && negb (contains "/translations/" (str (repr_container W) href))
      then Some (str (repr_container W) href)
      else find_page_rest_url rest
  | _ :: rest => find_page_rest_url rest
  end.

(** [language not in (None, <empty string>, <the string null>)] *)
Definition language_is_translation (language : Py.json) : bool :=
  negb (is_none language || eq_str language "" || eq_str language "null").

(** [_load_page_data] from the statement after the language filter on. *)
Definition load_page_after_language_filter (self : XWikiClient)
    (document : list (string * Py.json)) : Net (option XWikiPage) :=
  let links :=
    por (por (dict_get "links" document) (dict_get "link" document)) (JDict []) in
  let links :=
    match links with
    | JDict d => if dict_has "link" d then dict_get "link" d else links
    | _ => links
    end in
  let links := match links with JDict _ => JList [links] | _ => links end in
  let links := match links with JList l => l | _ => [] end in
  match find_page_rest_url links with
  | None => ret None
  | Some page_rest_url =>
      if negb (nonempty page_rest_url) then ret None
      else
        let! pageData := _fetch_page_data self page_rest_url in
        if negb (truthy pageData) then ret None
        else
          let! page_id := lift (get "id" pageData) in
          let! page_url := lift (get "xwikiAbsoluteUrl" pageData) in
          let! modified_ms := lift (get "modified" pageData) in
          let! full_name := lift (get "fullName" pageData) in
          let! content := _get_page_html self page_url full_name in
          let! attachments_data := lift (get "attachments" pageData) in
          let! attachments := lift (_list_attachments attachments_data) in
          ret (Some {| id := page_id;
                       full_name := full_name;
                       page_url := page_url;
                       modified_ms := modified_ms;
                       content := content;
                       attachments := attachments |})
  end.

Definition _load_page_data (self : XWikiClient) (document : Py.json)
  : Net (option XWikiPage) :=
  match document with
  | JDict d =>
      let language := dict_get "language" d in
      if language_is_translation language then ret None
      else load_page_after_language_filter self d
  | _ => raise (Exn AttributeError "object has no attribute 'get'")
  end.

(** The loop of [query_pages] over [data_list]. *)
Fixpoint load_pages (self : XWikiClient) (data_list : list Py.json)
  : Net (list XWikiPage) :=
  match data_list with
  | [] => ret []
  | document :: rest =>
      let! ref := _load_page_data self document in
      let! refs := load_pages self rest in
      ret (match ref with Some page => page :: refs | None => refs end)
  end.

Definition query_pages (self : XWikiClient) (wiki : string)
    (root_page tag : option string) (index_recursively : bool)
    (since_ms : option Z) (start number : Z) : Net (list XWikiPage * Z) :=
  let! '(query, extra_params) :=
    lift (_build_solr_query W root_page tag index_recursively since_ms) in
  let parameters :=
    [("type", JStr "solr"); ("start", JInt start); ("number", JInt number);
     ("distinct", JStr "true"); ("orderField", JStr "date");
     ("order", JStr "asc"); ("q", JStr query)] in
  let wiki_to_use :=
    if nonempty wiki then Some wiki else extra_params !! "wiki" in
  let parameters :=
    if opt_truthy wiki_to_use
    then (parameters ++ [("wikis", JStr (default EmptyString wiki_to_use))])%list
    else parameters in
  let! response :=
    _request self "GET" "rest/wikis/query"
      (Some {[ "Accept" := "application/json" ]}) (Some parameters)
      None None None in
  let! data := lift (NetM.json response) in
  let data := por data (JDict []) in
  let sr := match data with JDict d => dict_get "searchResults" d | _ => JNull end in
  let data_list := match sr with JList l => l | _ => [] end in
  let! refs := load_pages self data_list in
  let raw_count := Z.of_nat (length data_list) in
  ret (refs, raw_count).

End Client.

(** ** Path encoding *)

Section Encoding.

(** [urllib.parse.quote(part, safe=<empty string>)] *)
Context (quote : string -> string).

Definition _encode_segments (segments : list string) : string :=
  String.concat "/" (map quote segments).

Definition _encode_name (value : string) : string := quote value.

Definition _encoded_space_path (spaces : list string) : string :=
  _encode_segments spaces.

Definition _encoded_page (page : string) : string := _encode_name page.

End Encoding.

End OnyxXWiki.

(* ===================================================================== *)
(** * utils.py: attachments *)
(* ===================================================================== *)

Module Utils.

Import OnyxXWiki.

(** What the module imports from outside the sources: the two thresholds
    of [onyx.configs.app_configs] and the file-processing helpers. *)
Record Deps := {
  (** [onyx.connectors.models.ImageSection], an opaque handle here *)
  ImageSection : Type;
  (** [CONFLUENCE_CONNECTOR_ATTACHMENT_SIZE_THRESHOLD] *)
  XWIKI_ATTACHMENT_SIZE_THRESHOLD : Z;
  (** [CONFLUENCE_CONNECTOR_ATTACHMENT_CHAR_COUNT_THRESHOLD] *)
  XWIKI_ATTACHMENT_CHAR_COUNT_THRESHOLD : Z;
  (** [is_valid_image_type(media_type)] *)
  is_valid_image_type : string -> bool;
  (** [is_accepted_file_ext(suffix, OnyxExtensionType.Plain | OnyxExtensionType.Document)] *)
  is_accepted_file_ext : string -> bool;
  (** [Path(name).suffix] *)
  path_suffix : string -> string;
  (** [extract_file_text(file=BytesIO(raw_bytes), file_name=name)] *)
  extract_file_text : list Byte.byte -> string -> Exc string;
  (** [store_image_and_create_section(image_data=, file_id=, display_name=,
      link=, media_type=, file_origin=FileOrigin.CONNECTOR)], its first
      component *)
  store_image_and_create_section :
    list Byte.byte -> string -> string -> string -> string -> Exc ImageSection
}.

Section Attachments.

Context (W : World) (D : Deps).

(** [class AttachmentProcessingResult(BaseModel)] *)
Record AttachmentProcessingResult := {
  text : option string;
  image_section : option (ImageSection D);
  error : option string
}.

(** [AttachmentProcessingResult(error=reason)] *)
Definition result_error (reason : string) : AttachmentProcessingResult :=
  {| text := None; image_section := None; error := Some reason |}.

(** [AttachmentProcessingResult(image_section=section)] *)
Definition result_image (section : ImageSection D) : AttachmentProcessingResult :=
  {| text := None; image_section := Some section; error := None |}.

(** [AttachmentProcessingResult(text=text)] *)
Definition result_text (text : option string) : AttachmentProcessingResult :=
  {| text := text; image_section := None; error := None |}.

Definition validate_attachment_filetype (attachment : XWikiAttachment) : bool :=
  let media_type := lower (default EmptyString (mime_type attachment)) in
  if startswith "image/" media_type then is_valid_image_type D media_type
  else
    let suffix := path_suffix D (name attachment) in
    if negb (nonempty suffix) then false
    else is_accepted_file_ext D suffix.

(** [page_ref.full_name] is whatever the page data held; only a [str] has
    the method [replace]. *)
Definition _make_storage_file_id (page_ref : XWikiPage) (attachment : XWikiAttachment)
  : Exc string :=
  match full_name page_ref with
  | JStr full_name =>
      let safe_page := replace "/" "_" (replace ":" "_" full_name) in
      let safe_name := replace "/" "_" (replace ":" "_" (name attachment)) in
      Return ("xwiki-" +:+ safe_page +:+ "-" +:+ safe_name)
  | other =>
      Raise (Exn AttributeError
               ("'" +:+ type_name other +:+ "' object has no attribute 'replace'"))
  end.

Definition process_attachment (client : XWikiClient) (page_ref : XWikiPage)
    (attachment : XWikiAttachment) (allow_images : bool)
  : Net AttachmentProcessingResult :=
  let media_type := default EmptyString (mime_type attachment) in
  if negb (validate_attachment_filetype attachment) then
    ret (result_error
           ("Unsupported file type: "
            +:+ (if nonempty media_type then media_type else name attachment)))
  else
    let! download_url := lift (attachment_download_url W client attachment) in
    let attachment_size := default 0 (size attachment) in
    let skipped : option AttachmentProcessingResult :=
      if startswith "image/" media_type then
        if negb allow_images
        then Some (result_error "Image downloading is not enabled")
        else None
      else
        if negb (attachment_size =? 0)
           && (attachment_size >? XWIKI_ATTACHMENT_SIZE_THRESHOLD D)
        then Some (result_error "Attachment exceeds size limit")
        else None in
    match skipped with
    | Some result => ret result
    | None =>
        let! downloaded := attempt (download_attachment W client attachment) in
        match downloaded with
        | Raise exc => ret (result_error (exn_str exc))
        | Return [] => ret (result_error "Attachment content empty")
        | Return raw_bytes =>
            if startswith "image/" media_type then
              match
                (let? file_id := _make_storage_file_id page_ref attachment in
                 store_image_and_create_section D raw_bytes file_id
                   (name attachment) download_url
                   (if nonempty media_type then media_type
                    else "application/octet-stream"))
              with
              | Return section => ret (result_image section)
              | Raise exc => ret (result_error (exn_str exc))
              end
            else
              match extract_file_text D raw_bytes (name attachment) with
              | Raise exc => ret (result_error (exn_str exc))
              | Return text =>
                  if Z.of_nat (String.length text)
                     >? XWIKI_ATTACHMENT_CHAR_COUNT_THRESHOLD D
                  then ret (result_error "Attachment text too long")
                  else ret (result_text (if nonempty text then Some text else None))
              end
        end
    end.

End Attachments.

Arguments text {D} _.
Arguments image_section {D} _.
Arguments error {D} _.

End Utils.

(* ===================================================================== *)
(** * connector.py: the checkpointed run *)
(* ===================================================================== *)

Module Connector.

Import OnyxXWiki Utils.

(** [class XWikiCheckpoint(ConnectorCheckpoint)]; [has_more] is the field of
    the base class. *)
Record XWikiCheckpoint := {
  has_more : bool;
  since_ms : option Z;
  offset : Z
}.

Definition set_has_more (v : bool) (c : XWikiCheckpoint) : XWikiCheckpoint :=
  {| has_more := v; since_ms := since_ms c; offset := offset c |}.

Definition set_since_ms (v : option Z) (c : XWikiCheckpoint) : XWikiCheckpoint :=
  {| has_more := has_more c; since_ms := v; offset := offset c |}.

Definition set_offset (v : Z) (c : XWikiCheckpoint) : XWikiCheckpoint :=
  {| has_more := has_more c; since_ms := since_ms c; offset := v |}.

(** [class XWikiConnector]; the fields [__init__] sets and the methods of
    this file read. *)
Record XWikiConnector := {
  _base_url : string;
  _wiki : string;
  _root_page : option string;
  _index_recursively : bool;
  _tag : option string;
  _batch_size : Z;
  _client : option XWikiClient;
  _allow_images : bool
}.

(** [XWikiConnector.__init__] *)
Definition XWikiConnector_init (base_url wiki : string) (root_page : option string)
    (index_recursively : bool) (tag : option string) (batch_size : Z)
  : XWikiConnector :=
  {| _base_url := base_url; _wiki := wiki; _root_page := root_page;
     _index_recursively := index_recursively; _tag := tag;
     _batch_size := batch_size; _client := None; _allow_images := false |}.

Definition set_allow_images (self : XWikiConnector) (allow_images : bool)
  : XWikiConnector :=
  {| _base_url := _base_url self; _wiki := _wiki self;
     _root_page := _root_page self;
     _index_recursively := _index_recursively self; _tag := _tag self;
     _batch_size := _batch_size self; _client := _client self;
     _allow_images := allow_images |}.

(** [load_credentials], given the two entries of the credentials dict. *)
Definition load_credentials (self : XWikiConnector) (username password : string)
  : XWikiConnector :=
  {| _base_url := _base_url self; _wiki := _wiki self;
     _root_page := _root_page self;
     _index_recursively := _index_recursively self; _tag := _tag self;
     _batch_size := _batch_size self;
     _client := Some (XWikiClient_init (_base_url self) username password);
     _allow_images := _allow_images self |}.

Definition build_dummy_checkpoint : XWikiCheckpoint :=
  {| has_more := true; since_ms := None; offset := 0 |}.

(** ** Checkpoint objects

    Checkpoints are mutable objects handed over by reference.  The heap
    holds them; a reference is an index into it, and a new object goes to
    the end. *)

Abbreviation ref := nat (only parsing).

Record ConnState := {
  heap : list XWikiCheckpoint;
  net : NetState
}.

Definition Conn (A : Type) : Type := ConnState -> Exc A * ConnState.

Definition cret {A} (a : A) : Conn A := fun s => (Return a, s).

Definition craise {A} (e : exn) : Conn A := fun s => (Raise e, s).

Definition cbind {A B} (m : Conn A) (k : A -> Conn B) : Conn B :=
  fun s =>
    match m s with
    | (Return a, s') => k a s'
    | (Raise e, s') => (Raise e, s')
    end.

(** A client call: it sees the network state and never the heap. *)
Definition lift_net {A} (m : Net A) : Conn A :=
  fun s =>
    let '(r, n') := m (net s) in (r, {| heap := heap s; net := n' |}).

(** A reference outside the heap has no counterpart in Python; the model
    stops there. *)
Definition dangling {A} : Conn A :=
  craise (Exn RuntimeError "reference to no object").

(** [copy.deepcopy(obj)]: a new object with the same field values. *)
Definition deepcopy (obj : ref) : Conn ref :=
  fun s =>
    match heap s !! obj with
    | Some c => (Return (length (heap s)), {| heap := heap s ++ [c]; net := net s |})
    | None => dangling s
    end.

(** Reading the fields of [obj]. *)
Definition read (obj : ref) : Conn XWikiCheckpoint :=
  fun s =>
    match heap s !! obj with
    | Some c => (Return c, s)
    | None => dangling s
    end.

(** An attribute assignment on [obj]. *)
Definition assign (obj : ref) (set : XWikiCheckpoint -> XWikiCheckpoint) : Conn unit :=
  fun s =>
    match heap s !! obj with
    | Some c => (Return tt, {| heap := <[obj := set c]> (heap s); net := net s |})
    | None => dangling s
    end.

Notation "'let*' x := m 'in' k" := (cbind m (fun x => k))
  (at level 10, x name, m at level 100, k at level 200, only parsing).
Notation "'let*' ' p := m 'in' k" :=
  (cbind m (fun x => match x with p => k end))
  (at level 10, p pattern, m at level 100, k at level 200, only parsing).

(** ** Documents *)

(** [onyx.configs.constants.DocumentSource], the member used here *)
Inductive DocumentSource := XWIKI.

(** What the file takes from [datetime]: the type of instants and
    [datetime.fromtimestamp(modified_ms / 1000, tz=timezone.utc)] as a
    function of an [int] [modified_ms]. *)
Record Clock := {
  datetime : Type;
  fromtimestamp_utc : Z -> Exc datetime
}.

Section Run.

Context (W : World) (D : Deps) (K : Clock).

(** [TextSection | ImageSection] of [onyx.connectors.models].  These models
    and [Document] are outside the sources; their constructors are taken to
    store their arguments.  The link of a text section is the page URL as
    the page holds it, or a download URL. *)
Inductive DocSection :=
| TextSection (text : string) (link : Py.json)
| ImageSectionOf (section : ImageSection D).

(** [onyx.connectors.models.Document], the fields set here *)
Record Document := {
  doc_id : Py.json;
  source : DocumentSource;
  title : Py.json;
  semantic_identifier : Py.json;
  sections : list DocSection;
  metadata : gmap string Py.json;
  doc_updated_at : datetime K
}.

(** The loop of [process_xwiki_page] over [page.attachments], inside its
    [try]: an exception ends the loop and leaves [sections] as it is. *)
Fixpoint append_attachment_sections (client : XWikiClient) (page : XWikiPage)
    (allow_images : bool) (attachments : list XWikiAttachment)
    (sections : list DocSection) : Net (list DocSection) :=
  match attachments with
  | [] => ret sections
  | attachment :: rest =>
      let! result := attempt (process_attachment W D client page attachment allow_images) in
      match result with
      | Raise exc => ret sections
      | Return result =>
          let with_text : Exc (list DocSection) :=
            if opt_truthy (Utils.text result) then
              let? download_url := attachment_download_url W client attachment in
              Return (sections
                      ++ [TextSection (default EmptyString (Utils.text result))
                            (JStr download_url)])%list
            else Return sections in
          match with_text with
          | Raise exc => ret sections
          | Return sections =>
              let sections :=
                match image_section result with
                | Some section => (sections ++ [ImageSectionOf section])%list
                | None => sections
                end in
              append_attachment_sections client page allow_images rest sections
          end
      end
  end.

(** [datetime.fromtimestamp(page.modified_ms / 1000, tz=timezone.utc)]: the
    division raises on a value that is no number. *)
Definition doc_updated (modified_ms : Py.json) : Exc (datetime K) :=
  match int_value modified_ms with
  | Some ms => fromtimestamp_utc K ms
  | None =>
      Raise (Exn TypeError
               ("unsupported operand type(s) for /: '" +:+ type_name modified_ms
                +:+ "' and 'int'"))
  end.

Definition process_xwiki_page (client : XWikiClient) (page : XWikiPage)
    (allow_images : bool) : Net Document :=
  let sections := [TextSection (content page) (page_url page)] in
  let! sections :=
    append_attachment_sections client page allow_images (attachments page) sections in
  let! updated := lift (doc_updated (modified_ms page)) in
  ret {| doc_id := id page;
         source := XWIKI;
         title := full_name page;
         semantic_identifier := full_name page;
         sections := sections;
         metadata := {[ "name" := full_name page ]};
         doc_updated_at := updated |}.

(** ** The batch *)

(** [if page.modified_ms and page.modified_ms > max_modified:
       max_modified = page.modified_ms].
    [max_modified] is an int, or a bool once a page has given [True]; the
    comparison raises on a [modified_ms] that counts as true and is no
    number. *)
Definition track_modified (max_modified : Py.json) (page : XWikiPage)
  : Exc Py.json :=
  if truthy (modified_ms page) then
    let? above := py_gt (modified_ms page) max_modified in
    Return (if above then modified_ms page else max_modified)
  else Return max_modified.

(** The [for page in pages] loop of [load_from_checkpoint], for a page
    processor [process], run as far as it gets: the documents yielded, in
    order, and the final [max_modified] or the exception that ended the
    loop.  The comparison of the modification time stands before the
    [try]; what [process] raises is caught. *)
Fixpoint for_pages (process : XWikiPage -> Net Document) (pages : list XWikiPage)
    (max_modified : Py.json) (st : NetState)
  : (list Document * Exc Py.json) * NetState :=
  match pages with
  | [] => (([], Return max_modified), st)
  | page :: rest =>
      match track_modified max_modified page with
      | Raise exc => (([], Raise exc), st)
      | Return max_modified =>
          let '(document, st) := process page st in
          let '((documents, tracked), st) :=
            for_pages process rest max_modified st in
          ((match document with
            | Return document => document :: documents
            | Raise exc => documents
            end, tracked), st)
      end
  end.

(** The statements of [load_from_checkpoint] between the test of the
    client and the loop: the copy of the checkpoint, its threshold seeded
    from [start], and the batch.  It gives the copy, the threshold and the
    batch. *)
Definition open_batch (self : XWikiConnector) (client : XWikiClient)
    (start : float) (checkpoint : ref)
  : Conn (ref * option Z * list XWikiPage * Z) :=
  let* cp := deepcopy checkpoint in
  let* c := read cp in
  let* _ :=
    match since_ms c with
    | None =>
        if float_truthy start then
          let* ms := lift_net (lift (int_of_float (start * 1000)%float)) in
          assign cp (set_since_ms (Some ms))
        else cret tt
    | Some _ => cret tt
    end in
  let* c := read cp in
  let* '(pages, raw_count) :=
    lift_net (query_pages W client (_wiki self) (_root_page self) (_tag self)
                (_index_recursively self) (since_ms c) (offset c)
                (_batch_size self)) in
  cret (cp, since_ms c, pages, raw_count).

(** The statements of [load_from_checkpoint] after the loop.  [since_ms]
    keeps the value of the number assigned to it: [True], which is the int
    1 to Python, is kept as 1. *)
Definition close_batch (self : XWikiConnector) (cp : ref) (raw_count : Z)
    (max_modified : Py.json) : Conn ref :=
  let* _ := assign cp (fun c => set_offset (offset c + raw_count) c) in
  let* _ := assign cp (set_has_more (raw_count >=? _batch_size self)) in
  let* c := read cp in
  let* _ :=
    if negb (has_more c) then
      let* _ := assign cp (set_offset 0) in
      let* positive := lift_net (lift (py_gt max_modified (JInt 0))) in
      if positive
      then assign cp (set_since_ms (int_value max_modified))
      else cret tt
    else cret tt in
  cret cp.

(** [load_from_checkpoint] run to the end of the generator, with the page
    processor as an argument: the documents it yielded, and the reference
    it returned or the exception it raised. *)
Definition load_from_checkpoint_with
    (process : XWikiClient -> XWikiPage -> bool -> Net Document)
    (self : XWikiConnector) (start end_ : float) (checkpoint : ref)
    (s : ConnState) : (list Document * Exc ref) * ConnState :=
  match _client self with
  | None => (([], Raise (Exn ConnectorMissingCredentialError "xwiki")), s)
  | Some client =>
      match open_batch self client start checkpoint s with
      | (Raise exc, s) => (([], Raise exc), s)
      | (Return (cp, since, pages, raw_count), s) =>
          let '((documents, tracked), n) :=
            for_pages (fun page => process client page (_allow_images self))
              pages (JInt (default 0 since)) (net s) in
          let s := {| heap := heap s; net := n |} in
          match tracked with
          | Raise exc => ((documents, Raise exc), s)
          | Return max_modified =>
              let '(returned, s) := close_batch self cp raw_count max_modified s in
              ((documents, returned), s)
          end
      end
  end.

Definition load_from_checkpoint (self : XWikiConnector) (start end_ : float)
    (checkpoint : ref) (s : ConnState) : (list Document * Exc ref) * ConnState :=
  load_from_checkpoint_with process_xwiki_page self start end_ checkpoint s.

End Run.

(** ** Validation of the settings *)

(** How [validate_connector_settings] ends: it returns, or raises one of
    the two errors of [onyx.connectors], each with its message. *)
Inductive SettingsOutcome :=
| SettingsValid
| MissingCredential (message : string)
| UnexpectedValidation (message : string).

(** [validate_connector_settings]: a search for one page, without a
    threshold, whose result is dropped. *)
Definition validate_connector_settings (W : World) (self : XWikiConnector)
  : NetState -> SettingsOutcome * NetState :=
  fun st =>
    match _client self with
    | None => (MissingCredential "xwiki", st)
    | Some client =>
        match query_pages W client (_wiki self) (_root_page self) (_tag self)
                (_index_recursively self) None 0 1 st with
        | (Return _, st') => (SettingsValid, st')
        | (Raise exc, st') =>
            (UnexpectedValidation
               ("Unexpected error while validating XWiki settings: "
                +:+ exn_str exc), st')
        end
    end.

End Connector.

(* ===================================================================== *)
(** * A concrete world for the examples *)
(* ===================================================================== *)

Module Examples.

Import OnyxXWiki Utils Connector.

(** Days since the epoch to a civil date (year, month, day) of the
    proleptic Gregorian calendar. *)
Definition civil_from_days (days : Z) : Z * Z * Z :=
  let z := days + 719468 in
  let era := z / 146097 in
  let doe := z - era * 146097 in
  let yoe := (doe - doe / 1460 + doe / 36524 - doe / 146096) / 365 in
  let doy := doe - (365 * yoe + yoe / 4 - yoe / 100) in
  let mp := (5 * doy + 2) / 153 in
  let d := doy - (153 * mp + 2) / 5 + 1 in
  let m := if mp <? 10 then mp + 3 else mp - 9 in
  (yoe + era * 400 + (if m <=? 2 then 1 else 0), m, d).

Definition pad2 (n : Z) : string :=
  if n <? 10 then "0" +:+ str_of_Z n else str_of_Z n.

Definition pad4 (n : Z) : string :=
  if n <? 10 then "000" +:+ str_of_Z n
  else if n <? 100 then "00" +:+ str_of_Z n
  else if n <? 1000 then "0" +:+ str_of_Z n
  else str_of_Z n.

(** The UTC rendering of an instant given in epoch milliseconds, for the
    years 1 to 9999. *)
Definition iso_utc (ms : Z) : Exc string :=
  let secs := ms / 1000 in
  if (secs <? -62135596800) || (253402300799 <? secs)
  then Raise (Exn ValueError "year is out of range")
  else
    let '(y, m, d) := civil_from_days (secs / 86400) in
    let r := secs mod 86400 in
    Return (pad4 y +:+ "-" +:+ pad2 m +:+ "-" +:+ pad2 d +:+ "T"
            +:+ pad2 (r / 3600) +:+ ":" +:+ pad2 (r mod 3600 / 60) +:+ ":"
            +:+ pad2 (r mod 60) +:+ "Z").

(** The part of [s] before the first occurrence of [sep], and the part from
    it on; all of [s] and nothing when [sep] does not occur. *)
Fixpoint break_at (sep : string) (s : string) : string * string :=
  match s with
  | EmptyString => (EmptyString, EmptyString)
  | String c s' =>
      if String.prefix sep s then (EmptyString, s)
      else let '(a, b) := break_at sep s' in (String c a, b)
  end.

(** Whether a host opens a bracket that the URL never closes, which
    [urllib] refuses. *)
Definition open_bracket (url : string) : bool :=
  contains "://[" url && negb (contains "]" url).

(** A URL split at its scheme separator and at the first slash after. *)
Definition split_url (url : string) : Exc SplitResult :=
  if open_bracket url then Raise (Exn ValueError "Invalid IPv6 URL")
  else
    let '(scheme, rest) := break_at "://" url in
    let rest := substring 3 (String.length rest) rest in
    let '(netloc, path) := break_at "/" rest in
    let '(path, _) := break_at "?" path in
    Return {| scheme := scheme; netloc := netloc; path := path |}.

(** A relative path joined to a base that ends with a slash. *)
Definition join_url (base url : string) : Exc string :=
  if open_bracket base || open_bracket url
  then Raise (Exn ValueError "Invalid IPv6 URL")
  else Return (base +:+ url).

Definition as_str (v : Py.json) : option string :=
  match v with JStr s => Some s | _ => None end.

Definition as_int (v : Py.json) : option Z :=
  match v with JInt n => Some n | _ => None end.

(** An attachment from its fields, when each fits its type. *)
Definition attachment_of (name : string) (size mime url version digest : Py.json)
  : Exc XWikiAttachment :=
  match url with
  | JStr download_path =>
      match size with
      | JNull | JInt _ =>
          Return {| name := name; size := as_int size; mime_type := as_str mime;
                    download_path := download_path; version := as_str version;
                    digest := as_str digest |}
      | _ => Raise (Exn ValidationError "size")
      end
  | _ => Raise (Exn ValidationError "download_path")
  end.

(** The world around a wiki that answers as [reply] says. *)
Definition world (reply : list Request -> Request -> Exc Response) : World :=
  {| wiki_reply := reply;
     urljoin := join_url;
     urlsplit := split_url;
     strftime_utc := iso_utc;
     html_to_text := fun html => Return html;
     repr_container := fun _ => "[...]";
     default_retry := {| tries := 20; delay := 1 # 10; backoff := 2; max_delay := 60 |};
     XWikiAttachment_init := attachment_of |}.

(** A response with the given status and body. *)
Definition response (status : Z) (body : string) (parsed : Exc Py.json) : Response :=
  {| status_code := status; NetM.text := body;
     NetM.content := list_byte_of_string body; NetM.json := parsed |}.

(** A wiki that answers every request with the same status. *)
Definition always (status : Z) : list Request -> Request -> Exc Response :=
  fun _ _ => Return (response status "nope" (Raise (Exn ValueError "not JSON"))).

Definition client : XWikiClient :=
  XWikiClient_init "https://wiki.example.org/" "alice" "secret".

(** A wiki that serves fixed replies by URL, and 404 elsewhere. *)
Fixpoint route (routes : list (string * Response)) (url : string) : Response :=
  match routes with
  | [] => response 404 "not found" (Raise (Exn ValueError "not JSON"))
  | (u, r) :: rest => if String.eqb u url then r else route rest url
  end.

Definition serve (routes : list (string * Response))
  : list Request -> Request -> Exc Response :=
  fun _ req => Return (route routes (req_url req)).

(** A reply with a JSON body. *)
Definition json_reply (v : Py.json) : Response :=
  response 200 "json" (Return v).

(** A reply with a body that is not JSON. *)
Definition body_reply (body : string) : Response :=
  response 200 body (Raise (Exn ValueError "not JSON")).

Definition query_url : string := "https://wiki.example.org/rest/wikis/query".
Definition home_rest : string :=
  "https://wiki.example.org/rest/wikis/xwiki/spaces/Main/pages/WebHome".
Definition home_view : string := "https://wiki.example.org/bin/view/Main/WebHome".
Definition home_get : string :=
  "https://wiki.example.org/bin/get/Main/WebHome?xpage=plain&viewer=content&outputSyntax=html".

(** A search hit for the home page with the given language marker. *)
Definition hit (language : Py.json) : Py.json :=
  JDict [("language", language);
         ("links", JList [JDict [("rel", JStr "http://www.xwiki.org/rel/page");
                                 ("href", JStr home_rest)]])].

(** The page data of the home page, modified at [modified]. *)
Definition home_data (modified : Py.json) (attachments : list Py.json) : Py.json :=
  JDict [("id", JStr "xwiki:Main.WebHome");
         ("xwikiAbsoluteUrl", JStr home_view);
         ("modified", modified);
         ("fullName", JStr "Main.WebHome");
         ("attachments", JDict [("attachments", JList attachments)])].

(** A wiki with the home page, whose search returns [hits] and whose page
    data give [modified] as the modification time. *)
Definition dated_wiki (hits : list Py.json) (modified : Py.json)
  : list Request -> Request -> Exc Response :=
  serve [(query_url, json_reply (JDict [("searchResults", JList hits)]));
         (home_rest, json_reply (home_data modified []));
         (home_get, body_reply "Welcome")].

(** The wiki with the home page modified at the millisecond [modified]. *)
Definition home_wiki (hits : list Py.json) (modified : Z)
  : list Request -> Request -> Exc Response :=
  dated_wiki hits (JInt modified).

(** The page the client builds for the home page. *)
Definition dated_page (modified : Py.json) : XWikiPage :=
  {| id := JStr "xwiki:Main.WebHome"; full_name := JStr "Main.WebHome";
     page_url := JStr home_view; modified_ms := modified;
     content := "Welcome"; attachments := [] |}.

Definition home_page (modified : Z) : XWikiPage := dated_page (JInt modified).

Definition idle : NetState := {| sent := []; slept := [] |}.

(** The suffix of a file name: the text from its last dot on, when the dot is
    neither the first nor the last character. *)
Definition suffix_of (name : string) : string :=
  let '(ext, rest) := break_at "." (String.rev name) in
  match ext, rest with
  | String _ _, String _ (String _ _) => "." +:+ String.rev ext
  | _, _ => EmptyString
  end.

(** The helpers of the attachment pipeline, around a text extractor. *)
Definition deps (extract : list Byte.byte -> string -> Exc string) : Deps :=
  {| ImageSection := string;
     XWIKI_ATTACHMENT_SIZE_THRESHOLD := 10485760;
     XWIKI_ATTACHMENT_CHAR_COUNT_THRESHOLD := 200000;
     is_valid_image_type := fun media_type =>
       existsb (String.eqb media_type) ["image/png"; "image/jpeg"; "image/gif"; "image/webp"];
     is_accepted_file_ext := fun suffix =>
       existsb (String.eqb suffix) [".txt"; ".md"; ".pdf"; ".docx"];
     path_suffix := suffix_of;
     extract_file_text := extract;
     store_image_and_create_section := fun _ file_id _ _ _ => Return file_id |}.

(** An extractor that reads the bytes as text. *)
Definition decode : list Byte.byte -> string -> Exc string :=
  fun raw _ => Return (string_of_list_byte raw).

(** An extractor for which the file holds no text. *)
Definition blank : list Byte.byte -> string -> Exc string :=
  fun _ _ => Return EmptyString.

(** A clock over epoch milliseconds, for the years 1 to 9999. *)
Definition clock : Clock :=
  {| datetime := Z;
     fromtimestamp_utc := fun ms =>
       if (ms / 1000 <? -62135596800) || (253402300799 <? ms / 1000)
       then Raise (Exn ValueError "year is out of range")
       else Return ms |}.

(** The connector of the examples: the whole wiki, batches of 500. *)
Definition connector : XWikiConnector :=
  load_credentials
    (XWikiConnector_init "https://wiki.example.org/" "xwiki" None true None 500)
    "alice" "secret".

(** A document without sections for a page, whatever its modification
    time. *)
Definition bare_document (page : XWikiPage) : Document (deps decode) clock :=
  Build_Document (deps decode) clock (id page) XWIKI (full_name page)
    (full_name page) [] ∅ (0 : Z).

(** A caller that holds one new checkpoint, at reference 0. *)
Definition fresh_run : ConnState :=
  {| heap := [build_dummy_checkpoint]; net := idle |}.

Definition attachment (name : string) (size : option Z) (mime : option string)
  : XWikiAttachment :=
  {| name := name; size := size; mime_type := mime;
     download_path := "https://wiki.example.org/bin/download/Main/WebHome/" +:+ name;
     version := None; digest := None |}.

(** A wiki that serves the one attachment [name] with the given body. *)
Definition file_wiki (name body : string) : list Request -> Request -> Exc Response :=
  serve [(download_path (attachment name None None), body_reply body)].

(** Percent-encoding of a text of ASCII characters: letters, digits and
    the four marks [-._~] stay, any other character gives a percent sign
    and two hexadecimal digits. *)
Definition hex_digit (n : nat) : ascii :=
  if (n <? 10)%nat then ascii_of_nat (48 + n) else ascii_of_nat (55 + n).

Definition unreserved (c : ascii) : bool :=
  let n := nat_of_ascii c in
  ((48 <=? n) && (n <=? 57) || (65 <=? n) && (n <=? 90)
   || (97 <=? n) && (n <=? 122)
   || (n =? 45) || (n =? 46) || (n =? 95) || (n =? 126))%nat.

Definition percent_char (c : ascii) : string :=
  if unreserved c then String c EmptyString
  else String "%" (String (hex_digit (nat_of_ascii c / 16))
                     (String (hex_digit (nat_of_ascii c mod 16)) EmptyString)).

Fixpoint percent_encode (s : string) : string :=
  match s with
  | EmptyString => EmptyString
  | String c s' => percent_char c +:+ percent_encode s'
  end.

End Examples.

(* ===================================================================== *)
(** * Reference definitions used by the statements *)
(* ===================================================================== *)

Module Spec.

Import OnyxXWiki Utils Connector.

(** The escaping the spec words describe, character by character: a
    backslash becomes two, a double quote gets a backslash in front, any
    other character stays. *)
Fixpoint escape_chars (s : string) : string :=
  match s with
  | EmptyString => EmptyString
  | String c s' =>
      (if Ascii.eqb c "092" then bs +:+ bs
       else if Ascii.eqb c "034" then bs +:+ dq
       else String c EmptyString) +:+ escape_chars s'
  end.

(** One character replaced throughout. *)
Fixpoint subst_char (c : ascii) (new : string) (s : string) : string :=
  match s with
  | EmptyString => EmptyString
  | String x s' =>
      (if Ascii.eqb x c then new else String x EmptyString) +:+ subst_char c new s'
  end.

(** The two base terms every query starts with. *)
Definition type_term : string := "type:(" +:+ dq +:+ "DOCUMENT" +:+ dq +:+ ")".
Definition hidden_term : string := "hidden:false".

(** A term of the query is a space filter when it addresses the [space]
    field, and a tag filter when it addresses the tag property. *)
Definition is_space_term (t : string) : bool := startswith "space:" t.
Definition is_tag_term (t : string) : bool :=
  startswith "(property.XWiki.TagClass.tags:" t.

Definition is_time_term (t : string) : bool := startswith "date:[" t.

Definition space_terms (ts : list string) : list string := List.filter is_space_term ts.
Definition tag_terms (ts : list string) : list string := List.filter is_tag_term ts.

(** The space filter for the space [Space]. *)
Definition space_filter_Space (recursive : bool) : string :=
  if recursive then "space:(Space*)" else "space:" +:+ dq +:+ "Space" +:+ dq.

(** The tag filter for the tag [tag]. *)
Definition tag_filter (tag : string) : string :=
  "(property.XWiki.TagClass.tags:" +:+ dq +:+ escape_chars tag +:+ dq +:+ ")".

(** The two base terms as the query string starts with them. *)
Definition base_query : string :=
  "(" +:+ type_term +:+ ") AND (" +:+ hidden_term +:+ ")".

(** The terms that follow the base terms in the query string, each in
    parentheses after an [AND]. *)
Fixpoint clauses (terms : list string) : string :=
  match terms with
  | [] => EmptyString
  | t :: rest => " AND (" +:+ t +:+ ")" +:+ clauses rest
  end.

(** The space [_build_solr_query] takes from a root page: the space of the
    reference after the first colon, or of the whole root page when it has
    no colon. *)
Definition root_space (root_page : string) : string :=
  let '(_, separator, page_ref) := partition ":" root_page in
  _extract_space_from_page_reference (if separator then page_ref else root_page).

(** The URL a request for [url] goes to: [url] itself when it starts with
    [http], else [url] joined to the base URL, where the join may raise. *)
Definition request_url (W : World) (self : XWikiClient) (url : string)
  : Exc string :=
  if startswith "http" url then Return url
  else urljoin W (base_url self +:+ "/") (lstrip "/" url).

(** The request [_request] hands to the session, for the URL
    [request_url] it goes to. *)
Definition request_of (self : XWikiClient) (method request_url : string)
    (headers : option (gmap string string))
    (params : option (list (string * Py.json)))
    (data json : option Py.json) : Request :=
  {| req_auth := auth (session self);
     req_method := method;
     req_url := request_url;
     req_headers := headers;
     req_params := params;
     req_data := data;
     req_json := json;
     req_timeout := 30;
     req_verify := true |}.

(** A status that is neither 401, nor allowed by the caller, nor a 2xx. *)
Definition unexpected_status (allow_status : option (gset Z)) (status : Z) : bool :=
  negb (status =? 401)
  && negb (bool_decide (status ∈ default (∅ : gset Z) allow_status))
  && negb ((200 <=? status) && (status <? 300)).

(** One for a field that is set, zero for [None]. *)
Definition is_set {A} (field : option A) : nat :=
  match field with Some _ => 1 | None => 0 end.

(** How many of the three fields of a result are set. *)
Definition populated {D : Deps} (r : AttachmentProcessingResult D) : nat :=
  (is_set (Utils.text r) + is_set (image_section r) + is_set (error r))%nat.

(** The language filter in the words of the spec, with the literal the
    code adds: a hit passes when its marker is absent, [None], empty, or
    the four-letter string [null]. *)
Definition marker_passes (marker : option Py.json) : bool :=
  match marker with
  | None | Some JNull => true
  | Some (JStr s) => String.eqb s "" || String.eqb s "null"
  | Some _ => false
  end.

(** A raw hit passes the language filter; a hit that is no dict does not
    get that far, the client raises on it. *)
Definition hit_passes (document : Py.json) : bool :=
  match document with
  | JDict d => marker_passes (assoc "language" d)
  | _ => true
  end.

(** The threshold a batch runs with: the one of the checkpoint, or, when
    the checkpoint has none and [start] is not zero, [int(start * 1000)]. *)
Definition effective_since (since_ms : option Z) (start : float) : Exc (option Z) :=
  match since_ms with
  | Some ms => Return (Some ms)
  | None =>
      if float_truthy start
      then let? ms := int_of_float (start * 1000)%float in Return (Some ms)
      else Return None
  end.

(** The modification time of a page as a number: the value of its
    [modified_ms], and 0 when that is no number. *)
Definition timestamp (page : XWikiPage) : Z :=
  default 0 (int_value (modified_ms page)).

(** A page whose [modified_ms] the loop of a run can take: a value that
    counts as false ([None], 0, an empty text, list or dict), or a
    number. *)
Definition comparable (page : XWikiPage) : bool :=
  negb (truthy (modified_ms page))
  || match int_value (modified_ms page) with Some _ => true | None => false end.

(** The pages of a batch before the first one that is not comparable: the
    pages the loop of a run gets to process. *)
Fixpoint reached (pages : list XWikiPage) : list XWikiPage :=
  match pages with
  | [] => []
  | page :: rest => if comparable page then page :: reached rest else []
  end.

(** [max_modified] after the loop has gone over [pages], or the exception
    of the first comparison that raised. *)
Fixpoint tracked (pages : list XWikiPage) (max_modified : Py.json) : Exc Py.json :=
  match pages with
  | [] => Return max_modified
  | page :: rest =>
      let? max_modified := track_modified max_modified page in
      tracked rest max_modified
  end.

(** The maximum of the threshold (zero when there is none) and the
    modification times of the pages. *)
Definition batch_max (since_ms : option Z) (pages : list XWikiPage) : Z :=
  fold_right Z.max (default 0 since_ms) (map timestamp pages).

(** The checkpoint after a batch of [raw_count] hits and [pages] pages that
    ran with the threshold [since_ms] from the offset [offset]. *)
Definition next_checkpoint (since_ms : option Z) (offset raw_count batch_size : Z)
    (pages : list XWikiPage) : XWikiCheckpoint :=
  if raw_count >=? batch_size then
    {| has_more := true; since_ms := since_ms; offset := offset + raw_count |}
  else
    {| has_more := false;
       since_ms := if batch_max since_ms pages >? 0
                   then Some (batch_max since_ms pages) else since_ms;
       offset := 0 |}.

(** The threshold the claim words for a short batch: the maximum of the
    incoming threshold and the [modified_ms] of the pages seen, and the
    incoming threshold when no page was seen. *)
Definition claimed_since (incoming : option Z) (pages : list XWikiPage) : option Z :=
  match pages with
  | [] => incoming
  | page :: rest =>
      Some (fold_right Z.max (default (timestamp page) incoming)
              (map timestamp (page :: rest)))
  end.

(** The batch-completion law as the claim first words it, for a batch of
    [raw_count] hits and [pages] pages that took the checkpoint [incoming]
    to the checkpoint [returned]. *)
Definition completion_law_as_worded (incoming : XWikiCheckpoint)
    (raw_count batch_size : Z) (pages : list XWikiPage)
    (returned : XWikiCheckpoint) : Prop :=
  has_more returned = (raw_count >=? batch_size)
  /\ (raw_count < batch_size ->
      offset returned = 0
      /\ since_ms returned = claimed_since (since_ms incoming) pages).

(** The outcome of the page processor on each page of a batch in turn. *)
Fixpoint page_outcomes {Doc : Type} (process : XWikiPage -> Net Doc)
    (pages : list XWikiPage) (st : NetState) : list (Exc Doc) :=
  match pages with
  | [] => []
  | page :: rest =>
      let '(outcome, st') := process page st in
      outcome :: page_outcomes process rest st'
  end.

(** The network after the page processor has run on each page of a batch
    in turn. *)
Fixpoint pages_state {Doc : Type} (process : XWikiPage -> Net Doc)
    (pages : list XWikiPage) (st : NetState) : NetState :=
  match pages with
  | [] => st
  | page :: rest => pages_state process rest (snd (process page st))
  end.

(** The documents among the outcomes, in order. *)
Fixpoint successes {Doc : Type} (outcomes : list (Exc Doc)) : list Doc :=
  match outcomes with
  | [] => []
  | Return document :: rest => document :: successes rest
  | Raise _ :: rest => successes rest
  end.

(** The fields of the checkpoint a run returned, or the exception it
    raised. *)
Definition returned_checkpoint {Doc : Type}
    (run : (list Doc * Exc ref) * ConnState) : Exc XWikiCheckpoint :=
  match run with
  | ((_, Return cp), s') =>
      match heap s' !! cp with
      | Some c => Return c
      | None => Raise (Exn RuntimeError "reference to no object")
      end
  | ((_, Raise e), _) => Raise e
  end.

(** What a run returned or raised. *)
Definition outcome {Doc : Type} (run : (list Doc * Exc ref) * ConnState)
  : Exc ref :=
  snd (fst run).

(** A computation that leaves at least one more request on record. *)
Definition sends_more {A} (m : Net A) : Prop :=
  forall st, (length (sent st) < length (sent (snd (m st))))%nat.

(** The network state after [n] more copies of [req] were sent and the
    pauses [pauses] taken. *)
Definition after (st : NetState) (req : Request) (n : nat) (pauses : list Q)
  : NetState :=
  {| sent := sent st ++ repeat req n; slept := slept st ++ pauses |}.

(** ** Reference definitions for the further properties *)

(** A string that can stand between double quotes: read from the left, a
    backslash takes the next character with it, and no double quote stands
    on its own. *)
Fixpoint well_escaped (s : string) : bool :=
  match s with
  | EmptyString => true
  | String c rest =>
      if Ascii.eqb c "092" then
        match rest with
        | EmptyString => false
        | String _ rest' => well_escaped rest'
        end
      else if Ascii.eqb c "034" then false
      else well_escaped rest
  end.

(** The reading of an escaped string: a backslash is dropped and the
    character after it kept. *)
Fixpoint unescape (s : string) : string :=
  match s with
  | EmptyString => EmptyString
  | String c rest =>
      if Ascii.eqb c "092" then
        match rest with
        | EmptyString => EmptyString
        | String c' rest' => String c' (unescape rest')
        end
      else String c (unescape rest)
  end.

(** A string of whitespace only. *)
Fixpoint blank (s : string) : bool :=
  match s with
  | EmptyString => true
  | String c rest => isspace c && blank rest
  end.

(** The relation of the link that leads to the page itself. *)
Definition page_rel : string := "http://www.xwiki.org/rel/page".

(** The [href] of a link as [_load_page_data] reads it. *)
Definition link_href (W : World) (link : list (string * Py.json)) : string :=
  str (repr_container W) (por (dict_get "href" link) (JStr EmptyString)).

(** A link of the page relation whose target is no translation. *)
Definition usable_link (W : World) (link : list (string * Py.json)) : bool :=
  eq_str (dict_get "rel" link) page_rel
  && negb (contains "/translations/" (link_href W link)).

(** A JSON object, a Python dict. *)
Definition is_dict (v : Py.json) : bool :=
  match v with JDict _ => true | _ => false end.

(** A computation that only adds to the record of requests. *)
Definition keeps_log {A} (m : Net A) : Prop :=
  forall st, exists more, sent (snd (m st)) = (sent st ++ more)%list.

(** The [wikis] parameter of a search: the wiki of the connector when it
    has one, else the wiki prefix of the root page, when it has one. *)
Definition wikis_parameter (wiki : string) (prefix : option string)
  : list (string * Py.json) :=
  if nonempty wiki then [("wikis", JStr wiki)]
  else match prefix with
       | Some w => if nonempty w then [("wikis", JStr w)] else []
       | None => []
       end.

(** The parameters of the search request for [query]. *)
Definition search_parameters (query : string) (start number : Z)
    (wiki : string) (prefix : option string) : list (string * Py.json) :=
  ([("type", JStr "solr"); ("start", JInt start); ("number", JInt number);
    ("distinct", JStr "true"); ("orderField", JStr "date");
    ("order", JStr "asc"); ("q", JStr query)]
   ++ wikis_parameter wiki prefix)%list.

(** The list under [attachments] of a page's data, when it has one. *)
Definition attachment_entries (data : Py.json) : option (list Py.json) :=
  match data with
  | JDict d =>
      match assoc "attachments" d with
      | Some (JList entries) => Some entries
      | _ => None
      end
  | _ => None
  end.

(** An entry that is a dict with a name that counts as true. *)
Definition named_entry (entry : Py.json) : bool :=
  match entry with
  | JDict entry => truthy (dict_get "name" entry)
  | _ => false
  end.

(** The query of a content-only URL. *)
Definition content_query : string := "xpage=plain&viewer=content&outputSyntax=html".

(** The text with every colon and every slash turned into an underscore. *)
Definition sanitized (s : string) : string :=
  subst_char "/" "_" (subst_char ":" "_" s).

(** Where an image section in a result of [process_attachment] comes from:
    the image store, for the downloaded bytes of an attachment with a valid
    image type, under its storage key and download URL. *)
Definition image_provenance (W : World) (D : Deps) (client : XWikiClient)
    (page_ref : XWikiPage) (attachment : XWikiAttachment) (st : NetState)
    (section : ImageSection D) : Prop :=
  exists (media_type download_url file_id : string) (raw_bytes : list Byte.byte),
    mime_type attachment = Some media_type
    /\ startswith "image/" media_type = true
    /\ is_valid_image_type D (lower media_type) = true
    /\ attachment_download_url W client attachment = Return download_url
    /\ _make_storage_file_id page_ref attachment = Return file_id
    /\ raw_bytes <> []
    /\ fst (download_attachment W client attachment st) = Return raw_bytes
    /\ store_image_and_create_section D raw_bytes file_id (name attachment)
         download_url media_type = Return section.

(** Where a text in a result of [process_attachment] comes from: the
    extractor, for the downloaded bytes of a supported document within the
    size and character thresholds. *)
Definition text_provenance (W : World) (D : Deps) (client : XWikiClient)
    (attachment : XWikiAttachment) (st : NetState) (text : string) : Prop :=
  Z.of_nat (String.length text) <= XWIKI_ATTACHMENT_CHAR_COUNT_THRESHOLD D
  /\ validate_attachment_filetype D attachment = true
  /\ startswith "image/" (default EmptyString (mime_type attachment)) = false
  /\ (default 0 (size attachment) = 0
      \/ default 0 (size attachment) <= XWIKI_ATTACHMENT_SIZE_THRESHOLD D)
  /\ (exists download_url,
        attachment_download_url W client attachment = Return download_url)
  /\ exists raw_bytes : list Byte.byte,
       raw_bytes <> []
       /\ fst (download_attachment W client attachment st) = Return raw_bytes
       /\ extract_file_text D raw_bytes (name attachment) = Return text.

(** A section that [process_xwiki_page] adds for the attachment
    [attachment] of [page].  It is a text section: the text, not empty and
    within the character threshold, that the extractor gave for the bytes
    of a download of the attachment, whose file type is supported and whose
    media type does not start with [image/], with the download URL as the
    link.  Or it is an image section, which takes [allow_images]: the
    section that the image store gave for the bytes of a download of the
    attachment, whose media type starts with [image/] and is a valid image
    type, under the storage key of page and attachment, with the download
    URL and the media type. *)
Definition section_of_attachment {D} (W : World) (client : XWikiClient)
    (allow_images : bool) (page : XWikiPage) (attachment : XWikiAttachment)
    (section : DocSection D) : Prop :=
  match section with
  | TextSection _ text link =>
      text <> EmptyString
      /\ Z.of_nat (String.length text) <= XWIKI_ATTACHMENT_CHAR_COUNT_THRESHOLD D
      /\ validate_attachment_filetype D attachment = true
      /\ startswith "image/" (default EmptyString (mime_type attachment)) = false
      /\ (exists download_url,
            attachment_download_url W client attachment = Return download_url
            /\ link = JStr download_url)
      /\ exists (st : NetState) (raw_bytes : list Byte.byte),
           raw_bytes <> []
           /\ fst (download_attachment W client attachment st) = Return raw_bytes
           /\ extract_file_text D raw_bytes (name attachment) = Return text
  | ImageSectionOf _ image =>
      allow_images = true
      /\ exists (media_type download_url file_id : string) (st : NetState)
                (raw_bytes : list Byte.byte),
           mime_type attachment = Some media_type
           /\ startswith "image/" media_type = true
           /\ is_valid_image_type D (lower media_type) = true
           /\ attachment_download_url W client attachment = Return download_url
           /\ _make_storage_file_id page attachment = Return file_id
           /\ raw_bytes <> []
           /\ fst (download_attachment W client attachment st) = Return raw_bytes
           /\ store_image_and_create_section D raw_bytes file_id
                (name attachment) download_url media_type = Return image
  end.

(** A section that comes from one of the attachments of [page]. *)
Definition attachment_section {D} (W : World) (client : XWikiClient)
    (allow_images : bool) (page : XWikiPage) (section : DocSection D) : Prop :=
  exists attachment,
    In attachment (attachments page)
    /\ section_of_attachment W client allow_images page attachment section.

(** A document of [page]: its id and title, the text of the page as the
    first section, and after it sections of the attachments only. *)
Definition page_document {D K} (W : World) (client : XWikiClient)
    (allow_images : bool) (page : XWikiPage) (document : Document D K) : Prop :=
  exists extra : list (DocSection D),
    doc_id D K document = id page
    /\ title D K document = full_name page
    /\ sections D K document
       = TextSection D (content page) (page_url page) :: extra
    /\ Forall (attachment_section W client allow_images page) extra.

(** A page whose modification time is the timestamp of an instant. *)
Definition convertible (K : Clock) (page : XWikiPage) : bool :=
  match doc_updated K (modified_ms page) with
  | Return _ => true
  | Raise _ => false
  end.

(** The documents a run yielded, before it returned or raised. *)
Definition yielded {Doc : Type} (run : (list Doc * Exc ref) * ConnState)
  : list Doc :=
  fst (fst run).

(** The text of [n] copies of [c]. *)
Fixpoint repeat_char (c : ascii) (n : nat) : string :=
  match n with
  | O => EmptyString
  | S n' => String c (repeat_char c n')
  end.

(** What a call of [_request] can end with: a reply whose status is not
    401 and is allowed or a 2xx; or the error with which the join of the
    URL failed; or one of the two errors of the client or an error of the
    session, for the request at the joined URL. *)
Definition request_result (W : World) (self : XWikiClient) (method url : string)
    (headers : option (gmap string string))
    (params : option (list (string * Py.json)))
    (allow_status : option (gset Z)) (data json : option Py.json)
    (outcome : Exc Response) : Prop :=
  match outcome with
  | Return response =>
      status_code response <> 401
      /\ (status_code response ∈ default (∅ : gset Z) allow_status
          \/ 200 <= status_code response < 300)
  | Raise e =>
      request_url W self url = Raise e
      \/ exists target : string,
           request_url W self url = Return target
           /\ (exn_cls e = XWikiAuthenticationError
               \/ exn_cls e = XWikiUnexpectedResponse
               \/ exists log : list Request,
                    wiki_reply W log
                      (request_of self method target headers params data json)
                    = Raise e)
  end.

(** The parts of a text between the occurrences of [sep]. *)
Fixpoint split_on (sep : ascii) (s : string) : list string :=
  match s with
  | EmptyString => [EmptyString]
  | String c s' =>
      if Ascii.eqb c sep then EmptyString :: split_on sep s'
      else match split_on sep s' with
           | h :: t => String c h :: t
           | [] => [String c EmptyString]
           end
  end.

(** A computation that sends [req], once or more, and nothing else. *)
Definition asks {A} (req : Request) (m : Net A) : Prop :=
  forall st, exists (k : nat) (pauses : list Q),
    (1 <= k)%nat /\ snd (m st) = after st req k pauses.

(** A section that is no image. *)
Definition no_image {D} (section : DocSection D) : Prop :=
  match section with
  | TextSection _ _ _ => True
  | ImageSectionOf _ _ => False
  end.

(** A computation that sends nothing. *)
Definition silent {A} (m : Net A) : Prop :=
  forall st, sent (snd (m st)) = sent st.

End Spec.

(* ===================================================================== *)
(** * Theory *)
(* ===================================================================== *)

Import OnyxXWiki Utils Connector Spec.

#[local] Arguments String.append !_ _ / : simpl nomatch.

(** ** Strings *)

Lemma append_nil_r (s : string) : s +:+ EmptyString = s.
Proof. induction s as [|c s IH]; simpl; [reflexivity | now rewrite IH]. Qed.

Lemma append_assoc (a b c : string) : (a +:+ b) +:+ c = a +:+ (b +:+ c).
Proof. induction a as [|x a IH]; simpl; [reflexivity | now rewrite IH]. Qed.

Lemma length_append (a b : string) :
  String.length (a +:+ b) = (String.length a + String.length b)%nat.
Proof. induction a as [|x a IH]; simpl; [reflexivity | now rewrite IH]. Qed.

Lemma substring_all (p : string) : substring 0 (String.length p) p = p.
Proof. induction p as [|c p IH]; simpl; [reflexivity | now rewrite IH]. Qed.

Lemma substring_skip (s p : string) (m : nat) :
  substring (String.length s) m (s +:+ p) = substring 0 m p.
Proof. induction s as [|c s IH]; simpl; [reflexivity | exact IH]. Qed.

Lemma substring_head (s p : string) :
  substring 0 (String.length s) (s +:+ p) = s.
Proof.
  induction s as [|c s IH]; simpl.
  - destruct p; reflexivity.
  - now rewrite IH.
Qed.

Lemma endswith_append (s p : string) : endswith p (s +:+ p) = true.
Proof.
  unfold endswith. rewrite length_append.
  replace (String.length s + String.length p - String.length p)%nat
    with (String.length s) by lia.
  rewrite substring_skip, substring_all, String.eqb_refl.
  rewrite andb_true_r. apply Nat.leb_le. lia.
Qed.

Lemma drop_last_append (s p : string) : drop_last (String.length p) (s +:+ p) = s.
Proof.
  unfold drop_last. rewrite length_append.
  replace (String.length s + String.length p - String.length p)%nat
    with (String.length s) by lia.
  apply substring_head.
Qed.

Lemma prefix_char (c x : ascii) (s : string) :
  String.prefix (String c EmptyString) (String x s) = Ascii.eqb x c.
Proof.
  simpl. destruct (ascii_dec c x) as [->|Hne].
  - rewrite Ascii.eqb_refl. destruct s; reflexivity.
  - symmetry. apply Ascii.eqb_neq. congruence.
Qed.

(** Replacing a one-character pattern is a character-wise substitution. *)
Lemma replace_char (c : ascii) (new s : string) :
  replace (String c EmptyString) new s = subst_char c new s.
Proof.
  unfold replace. induction s as [|x s IH]; [reflexivity|].
  cbn [replace_go subst_char]. rewrite prefix_char.
  destruct (Ascii.eqb x c); cbn [String.length Nat.sub]; rewrite IH; reflexivity.
Qed.

Lemma subst_char_append (c : ascii) (new a b : string) :
  subst_char c new (a +:+ b) = subst_char c new a +:+ subst_char c new b.
Proof.
  induction a as [|x a IH]; simpl; [reflexivity|].
  rewrite IH. now rewrite append_assoc.
Qed.

(** [_esc] is the character-wise escaping of the spec. *)
Lemma esc_escape_chars (val : string) : _esc val = escape_chars val.
Proof.
  unfold _esc, dq, bs. rewrite !replace_char.
  induction val as [|c val IH]; [reflexivity|].
  cbn [subst_char escape_chars]. rewrite subst_char_append, IH.
  destruct (Ascii.eqb c "092") eqn:Hb.
  - reflexivity.
  - cbn [subst_char]. rewrite append_nil_r.
    destruct (Ascii.eqb c "034") eqn:Hq; reflexivity.
Qed.

(** ** Query construction *)

(** C7. Space filter shape: for the space [My Space] the recursive filter
    requires the word [+My] and puts the wildcard on the last word,
    [+Space*]; the non-recursive filter is the exact quoted term; and for
    every space the non-recursive filter quotes the space with each
    backslash and double quote escaped. *)
Theorem space_filter_shape :
  _build_space_filter "My Space" true = Return "space:(+My +Space*)"
  /\ _build_space_filter "My Space" false
     = Return ("space:" +:+ dq +:+ "My Space" +:+ dq)
  /\ (forall space : string,
        _build_space_filter space false
        = Return ("space:" +:+ dq +:+ escape_chars space +:+ dq)).
Proof.
  split; [reflexivity|]. split; [reflexivity|].
  intros space. unfold _build_space_filter. now rewrite esc_escape_chars.
Qed.

Lemma extract_space_webhome (s : string) :
  _extract_space_from_page_reference (s +:+ ".WebHome") = s.
Proof.
  unfold _extract_space_from_page_reference.
  rewrite endswith_append. exact (drop_last_append s ".WebHome").
Qed.

Lemma extract_space_cases (page_ref : string) :
  _extract_space_from_page_reference page_ref
  = if endswith ".WebHome" page_ref then drop_last 8 page_ref else page_ref.
Proof.
  unfold _extract_space_from_page_reference.
  destruct (endswith ".WebHome" page_ref); [reflexivity|].
  destruct (contains "." page_ref); reflexivity.
Qed.

(** C8. Root-scope parsing: with the root page [wikiA:Space.WebHome] the
    wiki [wikiA] goes to the extra parameters and the filter is the one of
    the space [Space]; with [Space.WebHome] no wiki is extracted and the
    space is [Space] again.  A trailing [.WebHome] is stripped from any
    page reference, and every other reference is the space as it stands. *)
Theorem root_scope_parsing :
  (forall (W : World) (tag : option string) (recursive : bool) (since_ms : option Z),
      _build_solr_query W (Some "wikiA:Space.WebHome") tag recursive since_ms
      = (let? term := _build_modified_filter W since_ms in
         Return (join_terms [type_term; hidden_term; space_filter_Space recursive; term],
                 {[ "wiki" := "wikiA" ]})))
  /\ (forall (W : World) (tag : option string) (recursive : bool) (since_ms : option Z),
      _build_solr_query W (Some "Space.WebHome") tag recursive since_ms
      = (let? term := _build_modified_filter W since_ms in
         Return (join_terms [type_term; hidden_term; space_filter_Space recursive; term],
                 ∅)))
  /\ (forall s : string, _extract_space_from_page_reference (s +:+ ".WebHome") = s)
  /\ (forall page_ref : string,
        _extract_space_from_page_reference page_ref
        = if endswith ".WebHome" page_ref then drop_last 8 page_ref else page_ref).
Proof.
  repeat split.
  - intros W tag [|] [ms|]; unfold _build_solr_query, query_terms; simpl;
      try destruct (strftime_utc W ms); reflexivity.
  - intros W tag [|] [ms|]; unfold _build_solr_query, query_terms; simpl;
      try destruct (strftime_utc W ms); reflexivity.
  - apply extract_space_webhome.
  - apply extract_space_cases.
Qed.

Lemma space_filter_returns (space : string) (recursive : bool) (t : string) :
  _build_space_filter space recursive = Return t ->
  is_space_term t = true /\ is_tag_term t = false /\ is_time_term t = false.
Proof.
  unfold _build_space_filter. intros H.
  destruct recursive.
  - destruct (contains " " space).
    + destruct (init_last (split space)) as [[init last]|e]; simpl in H; [|discriminate].
      injection H as <-. repeat split; reflexivity.
    + injection H as <-. repeat split; reflexivity.
  - injection H as <-. repeat split; reflexivity.
Qed.

Lemma space_filter_raises (space : string) (recursive : bool) (e : exn) :
  _build_space_filter space recursive = Raise e ->
  recursive = true /\ exn_cls e = IndexError.
Proof.
  unfold _build_space_filter, init_last. intros H.
  destruct recursive; [|discriminate].
  destruct (contains " " space); [|discriminate].
  destruct (List.rev (split space)); simpl in H; [|discriminate].
  injection H as <-. split; reflexivity.
Qed.

Lemma is_time_term_date (x : string) :
  is_time_term
    (String "d" (String "a" (String "t" (String "e" (String ":" (String "[" x))))))
  = true.
Proof. unfold is_time_term, startswith. simpl. destruct x; reflexivity. Qed.

Lemma modified_filter_returns (W : World) (ms : Z) (t : string) :
  _build_modified_filter W (Some ms) = Return t ->
  is_space_term t = false /\ is_tag_term t = false /\ is_time_term t = true
  /\ nonempty t = true.
Proof.
  unfold _build_modified_filter. intros H.
  destruct (strftime_utc W ms) as [iso|e]; simpl in H; [|discriminate].
  injection H as <-. repeat split; try reflexivity.
  apply is_time_term_date.
Qed.

Lemma space_term_nonempty (t : string) :
  is_space_term t = true -> nonempty t = true.
Proof. destruct t; [discriminate | reflexivity]. Qed.

Lemma concat_cons2 (sep a b : string) (l : list string) :
  String.concat sep (a :: b :: l) = a +:+ sep +:+ String.concat sep (b :: l).
Proof. reflexivity. Qed.

Lemma concat_and_clauses (head : string) (rest : list string) :
  Forall (fun t => nonempty t = true) rest ->
  String.concat " AND "
    (head :: map (fun t => "(" +:+ t +:+ ")") (List.filter nonempty rest))
  = head +:+ clauses rest.
Proof.
  intros Hrest. revert head.
  induction Hrest as [|t rest Ht _ IH]; intros head.
  - cbn. now rewrite append_nil_r.
  - cbn [List.filter]. rewrite Ht. cbn [map clauses].
    rewrite concat_cons2, IH. cbn. now rewrite !append_assoc.
Qed.

(** No term is dropped by the join: the query string is the base terms
    followed by the clauses of the other terms. *)
Lemma join_terms_clauses (rest : list string) :
  Forall (fun t => nonempty t = true) rest ->
  join_terms (type_term :: hidden_term :: rest) = base_query +:+ clauses rest.
Proof.
  intros Hrest. unfold join_terms.
  change (List.filter nonempty (type_term :: hidden_term :: rest))
    with (type_term :: hidden_term :: List.filter nonempty rest).
  cbn [map]. rewrite concat_cons2, (concat_and_clauses _ rest Hrest).
  reflexivity.
Qed.

(** The terms of a query: the two base terms, then the scope, then the
    time filter. *)
Lemma query_terms_shape (W : World) (root_page tag : option string)
    (index_recursively : bool) (since_ms : option Z) :
  match query_terms W root_page tag index_recursively since_ms with
  | Return (terms, extra_params) =>
      exists scope time : list string,
        terms = ([type_term; hidden_term] ++ scope ++ time)%list
        /\ Forall (fun t => nonempty t = true) (scope ++ time)
        /\ (if opt_truthy root_page then
              exists filter,
                _build_space_filter (root_space (default EmptyString root_page))
                  index_recursively = Return filter
                /\ scope = [filter]
            else if opt_truthy tag
            then scope = [tag_filter (default EmptyString tag)]
            else scope = [])
        /\ match since_ms with
           | Some ms =>
               exists iso,
                 strftime_utc W ms = Return iso
                 /\ time = ["date:[" +:+ iso +:+ " TO *]"]
           | None => time = []
           end
  | Raise e => True
  end.
Proof.
  unfold query_terms, root_space.
  destruct (opt_truthy root_page) eqn:Hroot.
  - destruct (partition ":" (default EmptyString root_page))
      as [[wiki_prefix separator] page_ref].
    destruct separator;
      (destruct (_build_space_filter _ index_recursively) as [term|e] eqn:Hf;
       cbn [exc_bind]; [|exact I];
       destruct (space_filter_returns _ _ _ Hf) as (Hs & _ & _);
       apply space_term_nonempty in Hs;
       destruct since_ms as [ms|]; cbn [exc_bind _build_modified_filter];
       [ destruct (strftime_utc W ms) as [iso|e] eqn:Hiso; cbn [exc_bind];
         [|exact I];
         exists [term], ["date:[" +:+ iso +:+ " TO *]"];
         split; [reflexivity|]; split; [repeat constructor; exact Hs|];
         split; [exists term; auto|]; exists iso; auto
       | exists [term], [];
         split; [reflexivity|]; split; [repeat constructor; exact Hs|];
         split; [exists term; auto | reflexivity] ]).
  - destruct (opt_truthy tag) eqn:Htag; cbn [exc_bind].
    + destruct since_ms as [ms|]; cbn [exc_bind _build_modified_filter].
      * destruct (strftime_utc W ms) as [iso|e] eqn:Hiso; cbn [exc_bind];
          [|exact I].
        exists [tag_filter (default EmptyString tag)],
               ["date:[" +:+ iso +:+ " TO *]"].
        unfold tag_filter. rewrite <- esc_escape_chars.
        split; [reflexivity|]. split; [repeat constructor|].
        split; [reflexivity|]. exists iso. auto.
      * exists [tag_filter (default EmptyString tag)], [].
        unfold tag_filter. rewrite <- esc_escape_chars.
        split; [reflexivity|]. split; [repeat constructor|].
        split; reflexivity.
    + destruct since_ms as [ms|]; cbn [exc_bind _build_modified_filter].
      * destruct (strftime_utc W ms) as [iso|e] eqn:Hiso; cbn [exc_bind];
          [|exact I].
        exists [], ["date:[" +:+ iso +:+ " TO *]"].
        split; [reflexivity|]. split; [repeat constructor|].
        split; [reflexivity|]. exists iso. auto.
      * exists [], []. split; [reflexivity|]. split; [constructor|].
        split; reflexivity.
Qed.

(** The terms of a query never hold a space filter and a tag filter
    together, and the builder raises only where a recursive space filter
    finds no word in the space or the threshold cannot be rendered. *)
Lemma query_terms_exclusive (W : World) (root_page tag : option string)
    (index_recursively : bool) (since_ms : option Z) :
  match query_terms W root_page tag index_recursively since_ms with
  | Return (terms, extra_params) =>
      _build_solr_query W root_page tag index_recursively since_ms
      = Return (join_terms terms, extra_params)
      /\ firstn 2 terms = [type_term; hidden_term]
      /\ (space_terms terms = [] \/ tag_terms terms = [])
      /\ (if opt_truthy root_page
          then length (space_terms terms) = 1%nat /\ tag_terms terms = []
          else if opt_truthy tag
          then space_terms terms = []
               /\ tag_terms terms = [tag_filter (default EmptyString tag)]
          else List.filter (fun t => negb (is_time_term t)) terms
               = [type_term; hidden_term])
  | Raise e =>
      _build_solr_query W root_page tag index_recursively since_ms = Raise e
      /\ ((opt_truthy root_page = true /\ index_recursively = true
           /\ exn_cls e = IndexError)
          \/ (exists ms, since_ms = Some ms /\ strftime_utc W ms = Raise e))
  end.
Proof.
  unfold _build_solr_query, query_terms.
  destruct (opt_truthy root_page) eqn:Hroot.
  - destruct (partition ":" (default EmptyString root_page))
      as [[wiki_prefix separator] page_ref].
    destruct separator;
      (destruct (_build_space_filter _ index_recursively) as [term|e] eqn:Hf; simpl;
       [ destruct (space_filter_returns _ _ _ Hf) as (Hs & Ht & Hd);
         destruct since_ms as [ms|]; simpl;
         [ destruct (strftime_utc W ms) as [iso|e] eqn:Hiso; simpl;
           [ unfold space_terms, tag_terms; simpl; rewrite Hs, Ht;
             repeat split; auto
           | split; [reflexivity|]; right; exists ms; auto ]
         | unfold space_terms, tag_terms; simpl; rewrite Hs, Ht;
           repeat split; auto ]
       | destruct (space_filter_raises _ _ _ Hf) as [-> He];
         split; [reflexivity|]; left; auto ]).
  - destruct (opt_truthy tag) eqn:Htag; simpl;
      (destruct since_ms as [ms|]; simpl;
       [ destruct (strftime_utc W ms) as [iso|e] eqn:Hiso; simpl;
         [ unfold space_terms, tag_terms, tag_filter; simpl;
           rewrite <- ?esc_escape_chars, ?is_time_term_date; repeat split; auto
         | split; [reflexivity|]; right; exists ms; auto ]
       | unfold space_terms, tag_terms, tag_filter; simpl;
         rewrite <- ?esc_escape_chars; repeat split; auto ]).
Qed.

(** C6 (as amended). Scope exclusivity, of the terms the builder joins.
    Whatever the root page, tag, recursion flag and time threshold are, the
    terms are the type and hidden terms, then the scope, then the time
    filter when there is a threshold; no term is dropped by the join, so
    the query string is the two base terms followed by one [AND] clause
    for each further term.  With a root page the scope is the one filter
    of its space, a space filter and no tag filter, and the query is the
    same for every tag; with a tag only the scope is the tag filter, the
    tag quoted and escaped; with neither the scope is empty.  So the terms
    never hold a space filter and a tag filter together.  The builder
    raises only where a recursive space filter finds no word in the space,
    or where the time threshold cannot be rendered. *)
Theorem solr_query_scope_exclusive (W : World) (root_page tag : option string)
    (index_recursively : bool) (since_ms : option Z) :
  match query_terms W root_page tag index_recursively since_ms with
  | Return (terms, extra_params) =>
      (exists scope time : list string,
          terms = ([type_term; hidden_term] ++ scope ++ time)%list
          /\ _build_solr_query W root_page tag index_recursively since_ms
             = Return (base_query +:+ clauses (scope ++ time), extra_params)
          /\ (if opt_truthy root_page then
                exists filter,
                  _build_space_filter (root_space (default EmptyString root_page))
                    index_recursively = Return filter
                  /\ scope = [filter]
                  /\ is_space_term filter = true
                  /\ is_tag_term filter = false
              else if opt_truthy tag
              then scope = [tag_filter (default EmptyString tag)]
              else scope = [])
          /\ match since_ms with
             | Some ms =>
                 exists iso,
                   strftime_utc W ms = Return iso
                   /\ time = ["date:[" +:+ iso +:+ " TO *]"]
             | None => time = []
             end)
      /\ (space_terms terms = [] \/ tag_terms terms = [])
      /\ (if opt_truthy root_page
          then length (space_terms terms) = 1%nat /\ tag_terms terms = []
          else if opt_truthy tag
          then space_terms terms = []
               /\ tag_terms terms = [tag_filter (default EmptyString tag)]
          else List.filter (fun t => negb (is_time_term t)) terms
               = [type_term; hidden_term])
      /\ (opt_truthy root_page = true ->
          forall other_tag : option string,
            _build_solr_query W root_page other_tag index_recursively since_ms
            = _build_solr_query W root_page tag index_recursively since_ms)
  | Raise e =>
      _build_solr_query W root_page tag index_recursively since_ms = Raise e
      /\ ((opt_truthy root_page = true /\ index_recursively = true
           /\ exn_cls e = IndexError)
          \/ (exists ms, since_ms = Some ms /\ strftime_utc W ms = Raise e))
  end.
Proof.
  pose proof (query_terms_shape W root_page tag index_recursively since_ms)
    as Hshape.
  pose proof (query_terms_exclusive W root_page tag index_recursively since_ms)
    as Hterms.
  destruct (query_terms W root_page tag index_recursively since_ms)
    as [[terms extra_params]|e]; [|exact Hterms].
  destruct Hshape as (scope & time & -> & Hfull & Hscope & Htime).
  destruct Hterms as (Hquery & _ & Hone & Hcases).
  split; [|split; [exact Hone|split; [exact Hcases|]]].
  - exists scope, time. split; [reflexivity|]. split.
    { rewrite Hquery. f_equal. f_equal. now apply join_terms_clauses. }
    split; [|exact Htime].
    destruct (opt_truthy root_page); [|exact Hscope].
    destruct Hscope as (filter & Hf & ->). exists filter.
    destruct (space_filter_returns _ _ _ Hf) as (Hs & Ht & _). auto.
  - intros Hroot other_tag. unfold _build_solr_query, query_terms.
    now rewrite Hroot.
Qed.

(** The claim as first worded, read of the query string, fails on a
    recursive root page whose space holds the text of a tag filter: the
    space goes into the query as it stands, so the string holds a space
    filter and the tag filter for [news] together. *)
Lemma solr_query_scope_as_worded_fails :
  ~ (forall (W : World) (root_page tag : option string) (index_recursively : bool)
            (since_ms : option Z) (query : string)
            (extra_params : gmap string string),
        _build_solr_query W root_page tag index_recursively since_ms
        = Return (query, extra_params) ->
        ~ (contains "space:" query = true
           /\ exists tag_value, contains (tag_filter tag_value) query = true)).
Proof.
  intros H.
  apply (H (Examples.world (Examples.always 200))
           (Some ("xwiki:Docs) OR " +:+ tag_filter "news" +:+ " OR (Docs"))
           None true None
           ("(type:(" +:+ dq +:+ "DOCUMENT" +:+ dq +:+ ")) AND (hidden:false)"
            +:+ " AND (space:(+Docs) +OR +" +:+ tag_filter "news"
            +:+ " +OR +(Docs*))")
           {[ "wiki" := "xwiki" ]} eq_refl).
  split; [reflexivity|]. exists "news". reflexivity.
Qed.

(** The query for a space of a named wiki, changed since the start of 2024;
    the tag is ignored next to the root page. *)
Example query_for_space :
  _build_solr_query (Examples.world (Examples.always 200))
    (Some "xwiki:Sandbox.WebHome") (Some "news") true (Some 1704067200000)
  = Return ("(type:(" +:+ dq +:+ "DOCUMENT" +:+ dq +:+ ")) AND (hidden:false)"
            +:+ " AND (space:(Sandbox*)) AND (date:[2024-01-01T00:00:00Z TO *])",
            {[ "wiki" := "xwiki" ]}).
Proof. reflexivity. Qed.

(** The query for a tag alone. *)
Example query_for_tag :
  _build_solr_query (Examples.world (Examples.always 200))
    None (Some "news") true None
  = Return ("(type:(" +:+ dq +:+ "DOCUMENT" +:+ dq +:+ ")) AND (hidden:false)"
            +:+ " AND ((property.XWiki.TagClass.tags:" +:+ dq +:+ "news" +:+ dq +:+ "))",
            ∅).
Proof. reflexivity. Qed.

(** The wiki-wide query. *)
Example query_wiki_wide :
  _build_solr_query (Examples.world (Examples.always 200)) None None false None
  = Return ("(type:(" +:+ dq +:+ "DOCUMENT" +:+ dq +:+ ")) AND (hidden:false)", ∅).
Proof. reflexivity. Qed.

(** A root page whose space is blank: the recursive filter finds no last
    word. *)
Example query_blank_space :
  _build_solr_query (Examples.world (Examples.always 200))
    (Some " .WebHome") None true None
  = Raise (Exn IndexError "list index out of range").
Proof. reflexivity. Qed.

(** A space of three words, and a space with a quote and a backslash. *)
Example space_filter_words :
  _build_space_filter "Team  Alpha Docs" true = Return "space:(+Team +Alpha +Docs*)"
  /\ _build_space_filter ("a" +:+ dq +:+ "b" +:+ bs +:+ "c") false
     = Return ("space:" +:+ dq +:+ "a" +:+ bs +:+ dq +:+ "b" +:+ bs +:+ bs +:+ "c" +:+ dq).
Proof. split; reflexivity. Qed.

(** ** Requests and the retry policy *)

Section Request.

Context (W : World) (self : XWikiClient) (method url : string)
  (headers : option (gmap string string))
  (params : option (list (string * Py.json)))
  (allow_status : option (gset Z))
  (data json : option Py.json).

(** The URL of the request, where the join gives one. *)
Context (target : string) (Hurl : request_url W self url = Return target).

Let req : Request := request_of self method target headers params data json.
Let once : Net Response :=
  _request_once W self method url headers params allow_status data json.

Lemma request_once_run (st : NetState) :
  once st
  = match wiki_reply W (sent st) req with
    | Raise e => (Raise e, after st req 1 [])
    | Return response =>
        (if status_code response =? 401 then
           Raise (Exn XWikiAuthenticationError
                    ("Authentication failed calling " +:+ req_url req))
         else if unexpected_status allow_status (status_code response) then
           Raise (Exn XWikiUnexpectedResponse
                    ("Unexpected status code " +:+ str_of_Z (status_code response)
                     +:+ " for " +:+ method +:+ " " +:+ req_url req +:+ ". "
                     +:+ "Body: " +:+ take 500 (NetM.text response)))
         else Return response,
         after st req 1 [])
    end.
Proof.
  unfold once, _request_once. unfold NetM.bind at 1, lift at 1.
  change (if startswith "http" url then Return url
          else urljoin W (base_url self +:+ "/") (lstrip "/" url))
    with (request_url W self url).
  rewrite Hurl. unfold NetM.bind, session_request, after.
  set (r := Build_Request _ _ _ _ _ _ _ _ _).
  assert (E : r = req) by reflexivity. clearbody r. subst r.
  cbn [sent slept repeat]. rewrite app_nil_r.
  destruct (wiki_reply W (sent st) req) as [response|e]; [|reflexivity].
  unfold unexpected_status.
  destruct (status_code response =? 401); [reflexivity|].
  cbn [negb andb].
  destruct (bool_decide _); [reflexivity|].
  destruct ((200 <=? status_code response) && (status_code response <? 300));
    reflexivity.
Qed.

Lemma retry_loop_step {A} (n : nat) (pause b m : Q) (call : Net A) (st : NetState) :
  retry_loop (S n) pause b m call st
  = match call st with
    | (Return a, st') => (Return a, st')
    | (Raise e, st') =>
        if non_retryable e then (Raise e, st')
        else retry_loop n (Qred (Qmin (pause * b) m)) b m call
               {| sent := sent st'; slept := slept st' ++ [pause] |}
    end.
Proof. cbn [retry_loop]. destruct (call st) as [[a|e] st']; reflexivity. Qed.

Lemma retry_loop_last {A} (pause b m : Q) (call : Net A) (st : NetState) :
  retry_loop 0 pause b m call st = call st.
Proof. cbn [retry_loop]. destruct (call st) as [[a|e] st']; reflexivity. Qed.

Lemma after_after (st : NetState) (n k : nat) (p q : list Q) :
  after (after st req n p) req k q = after st req (n + k) (p ++ q).
Proof.
  unfold after. cbn [sent slept]. rewrite repeat_app, !app_assoc. reflexivity.
Qed.

Lemma after_pause (st : NetState) (n : nat) (p : list Q) (pause : Q) :
  {| sent := sent (after st req n p); slept := slept (after st req n p) ++ [pause] |}
  = after st req n (p ++ [pause]).
Proof. unfold after. cbn [sent slept]. now rewrite app_assoc. Qed.

(** Every call issues the same request between one and [n + 1] times, with
    one pause between two attempts. *)
Lemma retry_loop_bounded (n : nat) (pause b m : Q) (st : NetState) :
  exists (k : nat) (pauses : list Q),
    (1 <= k <= S n)%nat /\ length pauses = (k - 1)%nat
    /\ snd (retry_loop n pause b m once st) = after st req k pauses.
Proof.
  revert pause st. induction n as [|n IH]; intros pause st.
  - exists 1%nat, []. rewrite retry_loop_last, request_once_run.
    split; [lia|]. split; [reflexivity|].
    destruct (wiki_reply W (sent st) req); reflexivity.
  - rewrite retry_loop_step, request_once_run.
    assert (Hstop : exists (k : nat) (pauses : list Q),
               (1 <= k <= S (S n))%nat /\ length pauses = (k - 1)%nat
               /\ after st req 1 [] = after st req k pauses).
    { exists 1%nat, []. repeat split; lia. }
    assert (Hgo : exists (k : nat) (pauses : list Q),
               (1 <= k <= S (S n))%nat /\ length pauses = (k - 1)%nat
               /\ snd (retry_loop n (Qred (Qmin (pause * b) m)) b m once
                         {| sent := sent (after st req 1 []);
                            slept := slept (after st req 1 []) ++ [pause] |})
                  = after st req k pauses).
    { rewrite after_pause.
      destruct (IH (Qred (Qmin (pause * b) m)) (after st req 1 ([] ++ [pause])%list))
        as (k & pauses & Hk & Hlen & Hrun).
      exists (1 + k)%nat, (([] ++ [pause]) ++ pauses)%list.
      rewrite Hrun, after_after. split; [lia|]. split; [|reflexivity].
      rewrite length_app. cbn. lia. }
    destruct (wiki_reply W (sent st) req) as [response|e].
    + destruct (status_code response =? 401); [exact Hstop|].
      destruct (unexpected_status allow_status (status_code response));
        [exact Hgo | exact Hstop].
    + destruct (non_retryable e); [exact Hstop | exact Hgo].
Qed.

End Request.

(** A call that raises the same error in whatever state, and sends
    nothing, raises that error under the retry loop too, and sends
    nothing. *)
Lemma retry_loop_fails {A} (e : exn) (call : Net A) (n : nat) (pause b m : Q) :
  (forall st, fst (call st) = Raise e /\ sent (snd (call st)) = sent st) ->
  forall st,
    fst (retry_loop n pause b m call st) = Raise e
    /\ sent (snd (retry_loop n pause b m call st)) = sent st.
Proof.
  intros Hcall. revert pause. induction n as [|n IH]; intros pause st.
  - rewrite retry_loop_last. apply Hcall.
  - rewrite retry_loop_step. destruct (Hcall st) as [Hraise Hsent].
    destruct (call st) as [[a|e'] st']; cbn [fst snd] in *;
      [discriminate Hraise|].
    injection Hraise as ->.
    destruct (non_retryable e); [auto|].
    destruct (IH (Qred (Qmin (pause * b) m))
                {| sent := sent st'; slept := (slept st' ++ [pause])%list |})
      as [IHraise IHsent].
    split; [exact IHraise|]. rewrite IHsent. exact Hsent.
Qed.

Lemma request_once_unjoined (W : World) (self : XWikiClient) (method url : string)
    (headers : option (gmap string string))
    (params : option (list (string * Py.json)))
    (allow_status : option (gset Z)) (data json : option Py.json) (e : exn) :
  request_url W self url = Raise e ->
  forall st,
    _request_once W self method url headers params allow_status data json st
    = (Raise e, st).
Proof.
  intros Hurl st. unfold _request_once, NetM.bind at 1, lift at 1.
  change (if startswith "http" url then Return url
          else urljoin W (base_url self +:+ "/") (lstrip "/" url))
    with (request_url W self url).
  now rewrite Hurl.
Qed.

(** How a call of [_request] goes: where the URL can be formed it sends its
    request between one and three times, and where the join raises it
    sends nothing and raises the error of the join. *)
Lemma request_run (W : World) (self : XWikiClient) (method url : string)
    (headers : option (gmap string string))
    (params : option (list (string * Py.json)))
    (allow_status : option (gset Z)) (data json : option Py.json)
    (st : NetState) :
  match request_url W self url with
  | Return target =>
      exists (k : nat) (pauses : list Q),
        (1 <= k <= 3)%nat /\ length pauses = (k - 1)%nat
        /\ snd (_request W self method url headers params allow_status data json st)
           = after st (request_of self method target headers params data json)
               k pauses
  | Raise e =>
      fst (_request W self method url headers params allow_status data json st)
      = Raise e
      /\ sent (snd (_request W self method url headers params allow_status
                      data json st)) = sent st
  end.
Proof.
  destruct (request_url W self url) as [target|e] eqn:Hurl.
  - apply (retry_loop_bounded W self method url headers params allow_status
             data json target Hurl).
  - unfold _request, retry_builder. apply retry_loop_fails.
    intros st'. now rewrite (request_once_unjoined W self method url headers
                               params allow_status data json e Hurl).
Qed.

(** C3. Authentication against retry.  Where the URL of the request can be
    formed: a 401 reply makes [_request] raise the authentication error at
    once, one request sent and no pause taken; the same holds at whatever
    attempt of the retry loop the 401 arrives: no further attempt follows.
    A reply with any other status that is neither allowed nor a 2xx is
    retried: when it is followed by a good reply the call returns that
    reply after one pause, and when the three attempts of the policy all
    meet such a reply, the call raises the unexpected-response error of
    the last one, after three requests and pauses of one and two seconds.
    Whatever the wiki answers, a call sends its request at least once and
    at most three times.  Where the join of the URL raises, no request is
    issued at all and the call raises the error of the join. *)
Theorem request_retry_policy (W : World) (self : XWikiClient) (method url : string)
    (headers : option (gmap string string))
    (params : option (list (string * Py.json)))
    (allow_status : option (gset Z)) (data json : option Py.json) :
  match request_url W self url with
  | Return target =>
      let req := request_of self method target headers params data json in
      let once :=
        _request_once W self method url headers params allow_status data json in
      (forall (st : NetState) (response : Response),
          wiki_reply W (sent st) req = Return response ->
          status_code response = 401 ->
          _request W self method url headers params allow_status data json st
          = (Raise (Exn XWikiAuthenticationError
                      ("Authentication failed calling " +:+ req_url req)),
             after st req 1 []))
      /\ (forall (attempts_left : nat) (pause : Q) (st : NetState)
                 (response : Response),
          wiki_reply W (sent st) req = Return response ->
          status_code response = 401 ->
          retry_loop attempts_left pause (backoff _request_policy)
            (max_delay _request_policy) once st
          = (Raise (Exn XWikiAuthenticationError
                      ("Authentication failed calling " +:+ req_url req)),
             after st req 1 []))
      /\ (forall (st : NetState) (r1 r2 : Response),
          wiki_reply W (sent st) req = Return r1 ->
          wiki_reply W (sent st ++ [req]) req = Return r2 ->
          unexpected_status allow_status (status_code r1) = true ->
          unexpected_status allow_status (status_code r2) = false ->
          status_code r2 <> 401 ->
          _request W self method url headers params allow_status data json st
          = (Return r2, after st req 2 [1]%Q))
      /\ (forall (st : NetState) (r1 r2 r3 : Response),
          wiki_reply W (sent st) req = Return r1 ->
          wiki_reply W (sent st ++ [req]) req = Return r2 ->
          wiki_reply W (sent st ++ [req; req]) req = Return r3 ->
          unexpected_status allow_status (status_code r1) = true ->
          unexpected_status allow_status (status_code r2) = true ->
          unexpected_status allow_status (status_code r3) = true ->
          _request W self method url headers params allow_status data json st
          = (Raise (Exn XWikiUnexpectedResponse
                      ("Unexpected status code " +:+ str_of_Z (status_code r3)
                       +:+ " for " +:+ method +:+ " " +:+ req_url req +:+ ". "
                       +:+ "Body: " +:+ take 500 (NetM.text r3))),
             after st req 3 [1; 2]%Q))
      /\ (forall st : NetState,
          exists (k : nat) (pauses : list Q),
            (1 <= k <= 3)%nat /\ length pauses = (k - 1)%nat
            /\ snd (_request W self method url headers params allow_status
                      data json st)
               = after st req k pauses)
  | Raise e =>
      forall st : NetState,
        fst (_request W self method url headers params allow_status data json st)
        = Raise e
        /\ sent (snd (_request W self method url headers params allow_status
                        data json st)) = sent st
  end.
Proof.
  destruct (request_url W self url) as [target|e] eqn:Hurl.
  2:{ intros st. unfold _request, retry_builder. apply retry_loop_fails.
      intros st'. now rewrite (request_once_unjoined W self method url headers
                                 params allow_status data json e Hurl). }
  intros req once.
  pose proof (request_once_run W self method url headers params allow_status
                data json target Hurl) as Honce.
  fold req once in Honce.
  pose proof (after_pause self method headers params data json target) as Hpause.
  pose proof (after_after self method headers params data json target) as Hafter.
  fold req in Hpause, Hafter.
  assert (Auth : forall (n : nat) (pause b m : Q) (st : NetState) (response : Response),
             wiki_reply W (sent st) req = Return response ->
             status_code response = 401 ->
             retry_loop n pause b m once st
             = (Raise (Exn XWikiAuthenticationError
                         ("Authentication failed calling " +:+ req_url req)),
                after st req 1 [])).
  { intros [|n] pause b m st response Hreply H401.
    - rewrite retry_loop_last, Honce, Hreply, H401. reflexivity.
    - rewrite retry_loop_step, Honce, Hreply, H401. reflexivity. }
  assert (N : forall r, unexpected_status allow_status (status_code r) = true ->
                        (status_code r =? 401) = false).
  { intros r U. unfold unexpected_status in U.
    destruct (status_code r =? 401); [discriminate | reflexivity]. }
  unfold _request, retry_builder, _request_policy. cbn [tries delay backoff max_delay].
  change (3 - 1)%nat with 2%nat. fold once.
  split; [|split; [|split; [|split]]].
  - intros st response. apply Auth.
  - intros n pause st response. apply Auth.
  - intros st r1 r2 H1 H2 U1 U2 N2.
    rewrite retry_loop_step, Honce, H1, (N _ U1), U1.
    cbn [non_retryable exn_cls exn_class_eqb].
    rewrite Hpause, retry_loop_step, Honce.
    cbn [after sent repeat]. rewrite H2, U2.
    replace (status_code r2 =? 401) with false
      by (symmetry; now apply Z.eqb_neq).
    fold (after st req 1 ([] ++ [1%Q])%list).
    rewrite Hafter. reflexivity.
  - intros st r1 r2 r3 H1 H2 H3 U1 U2 U3.
    rewrite retry_loop_step, Honce, H1, (N _ U1), U1.
    cbn [non_retryable exn_cls exn_class_eqb].
    rewrite Hpause, retry_loop_step, Honce.
    cbn [after sent repeat]. rewrite H2, (N _ U2), U2.
    cbn [non_retryable exn_cls exn_class_eqb].
    fold (after st req 1 ([] ++ [1%Q])%list).
    rewrite Hafter, Hpause, retry_loop_last, Honce.
    cbn [after sent repeat Nat.add]. rewrite H3, (N _ U3), U3.
    fold (after st req 2 ((([] ++ [1%Q]) ++ []) ++ [Qred (Qmin (1 * 2) 10)])%list).
    rewrite Hafter. reflexivity.
  - intros st.
    apply (retry_loop_bounded W self method url headers params allow_status
             data json target Hurl).
Qed.

Lemma request_retry_policy_witness :
  _request (Examples.world (Examples.always 401)) Examples.client
    "GET" "rest/wikis/query" None None None None None Examples.idle
  = (Raise (Exn XWikiAuthenticationError
              "Authentication failed calling https://wiki.example.org/rest/wikis/query"),
     after Examples.idle
       (request_of Examples.client "GET" Examples.query_url None None None None)
       1 [])
  /\ _request (Examples.world (Examples.always 500)) Examples.client
       "GET" "rest/wikis/query" None None None None None Examples.idle
     = (Raise (Exn XWikiUnexpectedResponse
                 "Unexpected status code 500 for GET https://wiki.example.org/rest/wikis/query. Body: nope"),
        after Examples.idle
          (request_of Examples.client "GET" Examples.query_url None None None None)
          3 [1; 2]%Q).
Proof.
  split.
  - apply (proj1 (request_retry_policy (Examples.world (Examples.always 401))
                    Examples.client "GET" "rest/wikis/query" None None None None None)
             Examples.idle
             (Examples.response 401 "nope" (Raise (Exn ValueError "not JSON"))));
      reflexivity.
  - apply (proj1 (proj2 (proj2 (proj2
             (request_retry_policy (Examples.world (Examples.always 500))
                Examples.client "GET" "rest/wikis/query"
                None None None None None))))
             Examples.idle
             (Examples.response 500 "nope" (Raise (Exn ValueError "not JSON")))
             (Examples.response 500 "nope" (Raise (Exn ValueError "not JSON")))
             (Examples.response 500 "nope" (Raise (Exn ValueError "not JSON"))));
      reflexivity.
Defined.

(** ** The language filter *)

Lemma language_filter_marker (d : list (string * Py.json)) :
  language_is_translation (dict_get "language" d)
  = negb (marker_passes (assoc "language" d)).
Proof.
  unfold language_is_translation, dict_get, marker_passes.
  destruct (assoc "language" d) as [[| | |s| |]|]; reflexivity.
Qed.

Lemma load_page_data_dropped (W : World) (self : XWikiClient)
    (d : list (string * Py.json)) (st : NetState) :
  marker_passes (assoc "language" d) = false ->
  _load_page_data W self (JDict d) st = (Return None, st).
Proof.
  intros H. unfold _load_page_data. now rewrite language_filter_marker, H.
Qed.

Lemma load_page_data_kept (W : World) (self : XWikiClient)
    (d : list (string * Py.json)) (st : NetState) :
  marker_passes (assoc "language" d) = true ->
  _load_page_data W self (JDict d) st = load_page_after_language_filter W self d st.
Proof.
  intros H. unfold _load_page_data. now rewrite language_filter_marker, H.
Qed.

(** The hits that the language filter drops add neither a page nor a
    request to the batch. *)
Lemma load_pages_filter (W : World) (self : XWikiClient) (hits : list Py.json)
    (st : NetState) :
  load_pages W self hits st = load_pages W self (List.filter hit_passes hits) st.
Proof.
  revert st. induction hits as [|h hits IH]; intros st; [reflexivity|].
  cbn [List.filter]. destruct (hit_passes h) eqn:Hh.
  - cbn [load_pages]. unfold NetM.bind.
    destruct (_load_page_data W self h st) as [[ref|e] st']; [|reflexivity].
    now rewrite IH.
  - destruct h as [| | | | |d]; try discriminate.
    cbn [load_pages]. unfold NetM.bind.
    rewrite (load_page_data_dropped W self d st Hh), <- IH.
    destruct (load_pages W self hits st) as [[refs|e] st']; reflexivity.
Qed.

(** C4 (as amended). Translation deduplication: a hit whose language marker
    is present and is neither [None], nor empty, nor the string [null]
    yields no page record, and nothing is fetched for it; a hit whose
    marker is absent, [None], empty or the string [null] goes on to the
    resolution of its page link; and the pages of a batch are those of
    the hits that pass, so a dropped hit never reaches a document. *)
Theorem translation_filter :
  (forall (W : World) (self : XWikiClient) (d : list (string * Py.json))
          (st : NetState),
      marker_passes (assoc "language" d) = false ->
      _load_page_data W self (JDict d) st = (Return None, st))
  /\ (forall (W : World) (self : XWikiClient) (d : list (string * Py.json))
             (st : NetState),
         marker_passes (assoc "language" d) = true ->
         _load_page_data W self (JDict d) st
         = load_page_after_language_filter W self d st)
  /\ (forall (W : World) (self : XWikiClient) (hits : list Py.json)
             (st : NetState),
         load_pages W self hits st
         = load_pages W self (List.filter hit_passes hits) st).
Proof.
  split; [exact load_page_data_dropped|].
  split; [exact load_page_data_kept | exact load_pages_filter].
Qed.

(** The claim as first worded fails on the marker [null]: it is not empty,
    and the hit is kept. *)
Lemma translation_filter_null_marker :
  ~ (forall (W : World) (self : XWikiClient) (language : string)
            (links : Py.json) (st : NetState),
        nonempty language = true ->
        fst (_load_page_data W self
               (JDict [("language", JStr language); ("links", links)]) st)
        = Return None).
Proof.
  intros H.
  specialize (H (Examples.world (Examples.home_wiki [] 1704067200000))
                Examples.client "null"
                (JList [JDict [("rel", JStr "http://www.xwiki.org/rel/page");
                               ("href", JStr Examples.home_rest)]])
                Examples.idle eq_refl).
  vm_compute in H. discriminate H.
Qed.

Lemma translation_filter_witness :
  _load_page_data (Examples.world (Examples.home_wiki [] 1704067200000))
    Examples.client (Examples.hit (JStr "fr")) Examples.idle
  = (Return None, Examples.idle)
  /\ fst (_load_page_data (Examples.world (Examples.home_wiki [] 1704067200000))
            Examples.client (Examples.hit (JStr EmptyString)) Examples.idle)
     = Return (Some (Examples.home_page 1704067200000)).
Proof.
  split.
  - apply (proj1 translation_filter). reflexivity.
  - unfold Examples.hit.
    rewrite (proj1 (proj2 translation_filter)) by reflexivity.
    vm_compute. reflexivity.
Defined.

(** ** Attachments *)

(** A media type that starts with [image/] does so in lower case too. *)
Lemma image_prefix_lower (media_type : string) :
  startswith "image/" media_type = true ->
  startswith "image/" (lower media_type) = true.
Proof.
  unfold startswith. intros Himg.
  destruct media_type as [|c1 [|c2 [|c3 [|c4 [|c5 [|c6 m]]]]]];
    cbn [String.prefix] in Himg;
    repeat match type of Himg with
           | context [ascii_dec ?a ?b] =>
               destruct (ascii_dec a b) as [<-|]; cbn [String.prefix] in Himg
           end;
    try discriminate Himg.
  destruct m; reflexivity.
Qed.

Section AttachmentTheory.

Context (W : World) (D : Deps).

(** The ways [process_attachment] ends, with what led there: it raises
    where the file type is supported and the download URL cannot be
    formed, and nowhere else; a result is an error, an image section or an
    extracted text. *)
Lemma process_attachment_cases (client : XWikiClient) (page_ref : XWikiPage)
    (attachment : XWikiAttachment) (allow_images : bool) (st : NetState) :
  (exists e,
      validate_attachment_filetype D attachment = true
      /\ attachment_download_url W client attachment = Raise e
      /\ process_attachment W D client page_ref attachment allow_images st
         = (Raise e, st))
  \/ exists (result : AttachmentProcessingResult D) (st' : NetState),
       process_attachment W D client page_ref attachment allow_images st
       = (Return result, st')
       /\ (validate_attachment_filetype D attachment = false
           \/ exists download_url,
                attachment_download_url W client attachment = Return download_url)
       /\ ((exists reason, result = result_error D reason)
           \/ (exists section,
                 result = result_image D section
                 /\ allow_images = true
                 /\ image_provenance W D client page_ref attachment st section)
           \/ (exists text,
                 result = result_text D (if nonempty text then Some text else None)
                 /\ text_provenance W D client attachment st text)).
Proof.
  destruct (validate_attachment_filetype D attachment) eqn:Hvalid.
  2:{ right. unfold process_attachment. rewrite Hvalid. cbn [negb].
      eexists _, _. split; [reflexivity|]. split; [now left|]. left. eauto. }
  destruct (attachment_download_url W client attachment) as [download_url|e]
    eqn:Hurl.
  2:{ left. exists e. unfold process_attachment. rewrite Hvalid, Hurl. auto. }
  right.
  assert (Hjoined : true = false
                    \/ exists u, Return download_url = @Return string u)
    by (right; eauto).
  unfold process_attachment. rewrite Hvalid, Hurl. cbn [negb].
  unfold NetM.bind at 1, lift at 1.
  destruct (startswith "image/" (default EmptyString (mime_type attachment)))
    eqn:Himg.
  - destruct allow_images; cbn [negb];
      [|eexists _, _; split; [reflexivity|]; split; [exact Hjoined|]; left; eauto].
    unfold NetM.bind, attempt.
    destruct (download_attachment W client attachment st) as [[raw|e] st'] eqn:Hget;
      [|eexists _, _; split; [reflexivity|]; split; [exact Hjoined|]; left; eauto].
    destruct raw as [|b raw];
      [eexists _, _; split; [reflexivity|]; split; [exact Hjoined|]; left; eauto|].
    destruct (_make_storage_file_id page_ref attachment) as [file_id|e] eqn:Hkey;
      cbn [exc_bind];
      [|eexists _, _; split; [reflexivity|]; split; [exact Hjoined|]; left; eauto].
    destruct (store_image_and_create_section D _ _ _ _ _) as [section|e] eqn:Hstore;
      [|eexists _, _; split; [reflexivity|]; split; [exact Hjoined|]; left; eauto].
    eexists _, _. split; [reflexivity|]. split; [exact Hjoined|].
    right; left. exists section. split; [reflexivity|]. split; [reflexivity|].
    destruct (mime_type attachment) as [media_type|] eqn:Hmime;
      [|discriminate Himg].
    cbn [default from_option Datatypes.id] in Himg, Hstore.
    exists media_type, download_url, file_id, (b :: raw).
    split; [exact Hmime|]. split; [exact Himg|]. split.
    { unfold validate_attachment_filetype in Hvalid. rewrite Hmime in Hvalid.
      cbn [default from_option Datatypes.id] in Hvalid.
      now rewrite (image_prefix_lower _ Himg) in Hvalid. }
    split; [exact Hurl|]. split; [exact Hkey|]. split; [discriminate|].
    split; [now rewrite Hget|].
    destruct media_type; [discriminate Himg | exact Hstore].
  - destruct (negb (default 0 (size attachment) =? 0)
              && (default 0 (size attachment) >? XWIKI_ATTACHMENT_SIZE_THRESHOLD D))
      eqn:Hgate;
      [eexists _, _; split; [reflexivity|]; split; [exact Hjoined|]; left; eauto|].
    unfold NetM.bind, attempt.
    destruct (download_attachment W client attachment st) as [[raw|e] st'] eqn:Hget;
      [|eexists _, _; split; [reflexivity|]; split; [exact Hjoined|]; left; eauto].
    destruct raw as [|b raw];
      [eexists _, _; split; [reflexivity|]; split; [exact Hjoined|]; left; eauto|].
    destruct (extract_file_text D (b :: raw) (name attachment)) as [text|e] eqn:Hx;
      [|eexists _, _; split; [reflexivity|]; split; [exact Hjoined|]; left; eauto].
    destruct (Z.of_nat (String.length text)
              >? XWIKI_ATTACHMENT_CHAR_COUNT_THRESHOLD D) eqn:Hlong;
      [eexists _, _; split; [reflexivity|]; split; [exact Hjoined|]; left; eauto|].
    eexists _, _. split; [reflexivity|]. split; [exact Hjoined|].
    right; right. exists text. split; [reflexivity|].
    split; [rewrite Z.gtb_ltb in Hlong; now apply Z.ltb_ge in Hlong|].
    split; [exact Hvalid|]. split; [exact Himg|]. split.
    { apply andb_false_iff in Hgate as [H0|Hbig].
      - left. apply negb_false_iff in H0. now apply Z.eqb_eq in H0.
      - right. rewrite Z.gtb_ltb in Hbig. now apply Z.ltb_ge in Hbig. }
    split; [eauto|].
    exists (b :: raw). split; [discriminate|].
    split; [now rewrite Hget | exact Hx].
Qed.

(** C2 (as amended). A call of [process_attachment] raises where the file
    type is supported and the download URL cannot be formed, with the
    error of the join and the network as it was; every other call returns
    a result with at most one of its three fields set: exactly one, unless
    the text extracted from a downloaded document is empty, in which case
    the result is the text outcome with [text = None] and no field is
    set. *)
Theorem attachment_result_fields (client : XWikiClient) (page_ref : XWikiPage)
    (attachment : XWikiAttachment) (allow_images : bool) (st : NetState) :
  match validate_attachment_filetype D attachment,
        attachment_download_url W client attachment with
  | true, Raise e =>
      process_attachment W D client page_ref attachment allow_images st
      = (Raise e, st)
  | _, _ =>
      exists result : AttachmentProcessingResult D,
        fst (process_attachment W D client page_ref attachment allow_images st)
        = Return result
        /\ (populated result <= 1)%nat
        /\ (populated result = 1%nat
            \/ (result = result_text D None
                /\ exists raw_bytes,
                    raw_bytes <> []
                    /\ extract_file_text D raw_bytes (name attachment)
                       = Return EmptyString))
  end.
Proof.
  assert (Hreturned :
            forall result st',
              process_attachment W D client page_ref attachment allow_images st
              = (Return result, st') ->
              (exists reason, result = result_error D reason)
              \/ (exists section,
                    result = result_image D section
                    /\ allow_images = true
                    /\ image_provenance W D client page_ref attachment st section)
              \/ (exists text,
                    result = result_text D (if nonempty text then Some text else None)
                    /\ text_provenance W D client attachment st text) ->
              exists result : AttachmentProcessingResult D,
                fst (process_attachment W D client page_ref attachment
                       allow_images st) = Return result
                /\ (populated result <= 1)%nat
                /\ (populated result = 1%nat
                    \/ (result = result_text D None
                        /\ exists raw_bytes,
                            raw_bytes <> []
                            /\ extract_file_text D raw_bytes (name attachment)
                               = Return EmptyString))).
  { intros result st' Hrun Hcases. exists result. rewrite Hrun.
    split; [reflexivity|].
    destruct Hcases as [[reason ->] | [(section & -> & _)
                                      | (text & -> & _ & _ & _ & _ & _ & Hraw)]].
    - split; [|left]; reflexivity.
    - split; [|left]; reflexivity.
    - destruct text as [|c text]; cbn [nonempty].
      + split; [cbn; lia|]. right. split; [reflexivity|].
        destruct Hraw as (raw & Hne & _ & Hx). exists raw. auto.
      + split; [|left]; reflexivity. }
  destruct (process_attachment_cases client page_ref attachment allow_images st)
    as [(e & Hvalid & Hurl & Hrun)
       | (result & st' & Hrun & Hjoined & Hcases)].
  - now rewrite Hvalid, Hurl.
  - destruct Hjoined as [Hvalid | [download_url Hurl]].
    + rewrite Hvalid. now apply (Hreturned result st').
    + rewrite Hurl.
      destruct (validate_attachment_filetype D attachment);
        now apply (Hreturned result st').
Qed.

Lemma retry_loop_sends {A} (n : nat) (pause b m : Q) (call : Net A) :
  sends_more call -> sends_more (retry_loop n pause b m call).
Proof.
  intros Hcall. revert pause. induction n as [|n IH]; intros pause st.
  - rewrite retry_loop_last. apply Hcall.
  - rewrite retry_loop_step. specialize (Hcall st).
    destruct (call st) as [[a|e] st']; cbn [snd] in *; [exact Hcall|].
    destruct (non_retryable e); [exact Hcall|].
    etransitivity; [exact Hcall|].
    apply (IH _ {| sent := sent st'; slept := (slept st' ++ [pause])%list |}).
Qed.

(** A request whose URL can be formed reaches the wiki. *)
Lemma request_sends (self : XWikiClient) (method url : string)
    (headers : option (gmap string string))
    (params : option (list (string * Py.json)))
    (allow_status : option (gset Z)) (data json : option Py.json)
    (target : string) :
  request_url W self url = Return target ->
  sends_more (_request W self method url headers params allow_status data json).
Proof.
  intros Hurl st. unfold _request, retry_builder.
  destruct (retry_loop_bounded W self method url headers params allow_status
              data json target Hurl (tries _request_policy - 1)
              (delay _request_policy) (backoff _request_policy)
              (max_delay _request_policy) st)
    as (k & pauses & Hk & _ & ->).
  unfold after. cbn [sent]. rewrite length_app, repeat_length. lia.
Qed.

(** Every call of [download_attachment] for an attachment whose download
    URL can be formed reaches the wiki. *)
Lemma download_attachment_sends (client : XWikiClient) (attachment : XWikiAttachment)
    (download_url : string) :
  attachment_download_url W client attachment = Return download_url ->
  sends_more (download_attachment W client attachment).
Proof.
  intros Hurl. unfold download_attachment, retry_builder. apply retry_loop_sends.
  intros st. unfold NetM.bind.
  pose proof (request_sends client "GET" (download_path attachment)
                None None None None None download_url Hurl st) as H.
  destruct (_request W client "GET" (download_path attachment)
              None None None None None st) as [[response|e] st']; exact H.
Qed.

(** A call that returns before the download leaves the network as it was;
    any other call leaves it as the download does. *)
Lemma process_attachment_download (client : XWikiClient) (page_ref : XWikiPage)
    (attachment : XWikiAttachment) (allow_images : bool) (st : NetState) :
  let media_type := default EmptyString (mime_type attachment) in
  let declared := default 0 (size attachment) in
  if negb (validate_attachment_filetype D attachment)
     || match attachment_download_url W client attachment with
        | Return _ => false
        | Raise _ => true
        end
     || (if startswith "image/" media_type then negb allow_images
         else negb (declared =? 0) && (declared >? XWIKI_ATTACHMENT_SIZE_THRESHOLD D))
  then snd (process_attachment W D client page_ref attachment allow_images st) = st
  else snd (process_attachment W D client page_ref attachment allow_images st)
       = snd (download_attachment W client attachment st).
Proof.
  intros media_type declared.
  destruct (validate_attachment_filetype D attachment) eqn:Hvalid; cbn [negb orb];
    [|unfold process_attachment; now rewrite Hvalid].
  destruct (attachment_download_url W client attachment) as [download_url|e]
    eqn:Hurl;
    [|unfold process_attachment; now rewrite Hvalid, Hurl].
  destruct (startswith "image/" media_type) eqn:Himg.
  - destruct allow_images; cbn [negb]; unfold process_attachment;
      rewrite Hvalid, Hurl; fold media_type; rewrite Himg; [|reflexivity].
    unfold NetM.bind, lift, attempt. cbn [negb].
    destruct (download_attachment W client attachment st) as [[raw|e] st'];
      [|reflexivity].
    destruct raw as [|b raw]; [reflexivity|].
    destruct (exc_bind _ _); reflexivity.
  - destruct (negb (declared =? 0) && (declared >? XWIKI_ATTACHMENT_SIZE_THRESHOLD D))
      eqn:Hgate; unfold process_attachment; rewrite Hvalid, Hurl;
      fold media_type declared; rewrite Himg, Hgate; [reflexivity|].
    unfold NetM.bind, lift, attempt. cbn [negb].
    destruct (download_attachment W client attachment st) as [[raw|e] st'];
      [|reflexivity].
    destruct raw as [|b raw]; [reflexivity|].
    destruct (extract_file_text D _ _) as [text|e]; [|reflexivity].
    destruct (Z.of_nat (String.length text) >? _); reflexivity.
Qed.

(** C5 (as amended). Attachment policy gates.  With [allow_images = false],
    an attachment whose media type starts with [image/] is not downloaded:
    the network is as before, and the call gives an error outcome, or
    raises where the file type is supported and the download URL cannot be
    formed.  The same holds, whatever [allow_images] is, of an attachment
    whose media type does not start with [image/] in any case of the
    letters and whose declared size exceeds the threshold, a byte count
    taken non-negative.  Every call of [download_attachment] for a URL that
    can be formed leaves a request on record, so in both cases the
    download call was not made.  And with [allow_images = false] no
    result at all, whatever the media type, has an image payload. *)
Theorem attachment_policy_gates :
  (forall (client : XWikiClient) (page_ref : XWikiPage)
          (attachment : XWikiAttachment) (st : NetState),
      startswith "image/" (default EmptyString (mime_type attachment)) = true ->
      match validate_attachment_filetype D attachment,
            attachment_download_url W client attachment with
      | true, Raise e =>
          process_attachment W D client page_ref attachment false st = (Raise e, st)
      | _, _ =>
          exists reason,
            process_attachment W D client page_ref attachment false st
            = (Return (result_error D reason), st)
      end)
  /\ (forall (client : XWikiClient) (page_ref : XWikiPage)
             (attachment : XWikiAttachment) (allow_images : bool)
             (st : NetState) (declared : Z),
         0 <= XWIKI_ATTACHMENT_SIZE_THRESHOLD D ->
         startswith "image/" (lower (default EmptyString (mime_type attachment)))
         = false ->
         size attachment = Some declared ->
         XWIKI_ATTACHMENT_SIZE_THRESHOLD D < declared ->
         match validate_attachment_filetype D attachment,
               attachment_download_url W client attachment with
         | true, Raise e =>
             process_attachment W D client page_ref attachment allow_images st
             = (Raise e, st)
         | _, _ =>
             exists reason,
               process_attachment W D client page_ref attachment allow_images st
               = (Return (result_error D reason), st)
         end)
  /\ (forall (client : XWikiClient) (attachment : XWikiAttachment)
             (download_url : string) (st : NetState),
         attachment_download_url W client attachment = Return download_url ->
         (length (sent st)
          < length (sent (snd (download_attachment W client attachment st))))%nat)
  /\ (forall (client : XWikiClient) (page_ref : XWikiPage)
             (attachment : XWikiAttachment) (st : NetState)
             (result : AttachmentProcessingResult D),
         fst (process_attachment W D client page_ref attachment false st)
         = Return result ->
         image_section result = None).
Proof.
  split; [|split; [|split]].
  - intros client page_ref attachment st Himg. unfold process_attachment.
    destruct (validate_attachment_filetype D attachment); cbn [negb].
    2:{ destruct (attachment_download_url W client attachment);
          eexists; reflexivity. }
    unfold NetM.bind at 1, lift at 1.
    destruct (attachment_download_url W client attachment) as [download_url|e];
      [|reflexivity].
    rewrite Himg. cbn [negb]. eexists; reflexivity.
  - intros client page_ref attachment allow_images st declared HT Himg Hsize Hbig.
    assert (Hraw : startswith "image/" (default EmptyString (mime_type attachment))
                   = false).
    { destruct (startswith "image/" (default EmptyString (mime_type attachment)))
        eqn:H; [|reflexivity].
      now rewrite (image_prefix_lower _ H) in Himg. }
    unfold process_attachment.
    destruct (validate_attachment_filetype D attachment); cbn [negb].
    2:{ destruct (attachment_download_url W client attachment);
          eexists; reflexivity. }
    unfold NetM.bind at 1, lift at 1.
    destruct (attachment_download_url W client attachment) as [download_url|e];
      [|reflexivity].
    rewrite Hraw, Hsize. change (default 0 (Some declared)) with declared.
    replace (declared =? 0) with false by (symmetry; apply Z.eqb_neq; lia).
    replace (declared >? XWIKI_ATTACHMENT_SIZE_THRESHOLD D) with true
      by (symmetry; apply Z.gtb_lt; lia).
    cbn [negb andb]. eexists; reflexivity.
  - intros client attachment download_url st Hurl.
    exact (download_attachment_sends client attachment download_url Hurl st).
  - intros client page_ref attachment st result Hrun.
    destruct (process_attachment_cases client page_ref attachment false st)
      as [(e & _ & _ & Hraise) | (result' & st' & Hrun' & _ & Hcases)].
    + rewrite Hraise in Hrun. discriminate Hrun.
    + rewrite Hrun' in Hrun. injection Hrun as <-.
      destruct Hcases as [[reason ->] | [(section & _ & Hallow & _) | (text & -> & _)]];
        [reflexivity | discriminate Hallow | reflexivity].
Qed.

End AttachmentTheory.

(** The claim as first worded fails on a document without text, such as a
    scanned PDF: the download succeeds, the extracted text is empty, and no
    field of the result is set. *)
Lemma attachment_result_none_set :
  ~ (forall (W : World) (D : Deps) (client : XWikiClient) (page_ref : XWikiPage)
            (attachment : XWikiAttachment) (allow_images : bool)
            (st : NetState) (result : AttachmentProcessingResult D),
        fst (process_attachment W D client page_ref attachment allow_images st)
        = Return result ->
        populated result = 1%nat).
Proof.
  intros H.
  specialize (H (Examples.world (Examples.file_wiki "scan.pdf" "%PDF-1.7"))
                (Examples.deps Examples.blank) Examples.client
                (Examples.home_page 1704067200000)
                (Examples.attachment "scan.pdf" (Some 8) (Some "application/pdf"))
                false Examples.idle
                (result_text (Examples.deps Examples.blank) None) eq_refl).
  discriminate H.
Qed.

(** The claim as first worded fails in two places.  An attachment of the
    media type [IMAGE/PNG], a valid image type once in lower case, is
    handled as a document: with images off it is downloaded and gives a
    text outcome.  And an image whose download path has a host that opens
    a bracket without closing it gets no outcome at all: the call
    raises. *)
Lemma attachment_policy_gates_as_worded_fails :
  ~ (forall (W : World) (D : Deps) (client : XWikiClient) (page_ref : XWikiPage)
            (attachment : XWikiAttachment) (st : NetState),
        validate_attachment_filetype D attachment = true ->
        startswith "image/" (lower (default EmptyString (mime_type attachment)))
        = true ->
        exists reason st',
          process_attachment W D client page_ref attachment false st
          = (Return (result_error D reason), st'))
  /\ ~ (forall (W : World) (D : Deps) (client : XWikiClient) (page_ref : XWikiPage)
               (attachment : XWikiAttachment) (st : NetState),
           validate_attachment_filetype D attachment = true ->
           startswith "image/" (default EmptyString (mime_type attachment)) = true ->
           exists reason st',
             process_attachment W D client page_ref attachment false st
             = (Return (result_error D reason), st')).
Proof.
  split; intros H.
  - destruct (H (Examples.world (Examples.file_wiki "logo.png" "data"))
                (Examples.deps Examples.decode) Examples.client
                (Examples.home_page 1704067200000)
                (Examples.attachment "logo.png" (Some 4) (Some "IMAGE/PNG"))
                Examples.idle eq_refl eq_refl) as (reason & st' & Hrun).
    vm_compute in Hrun. discriminate Hrun.
  - destruct (H (Examples.world (Examples.file_wiki "logo.png" "data"))
                (Examples.deps Examples.decode) Examples.client
                (Examples.home_page 1704067200000)
                {| name := "logo.png"; size := Some 4; mime_type := Some "image/png";
                   download_path := "ftp://[bad"; version := None; digest := None |}
                Examples.idle eq_refl eq_refl) as (reason & st' & Hrun).
    vm_compute in Hrun. discriminate Hrun.
Qed.

Lemma attachment_policy_gates_witness :
  (exists reason,
      process_attachment (Examples.world (Examples.file_wiki "notes.txt" "text"))
        (Examples.deps Examples.decode) Examples.client
        (Examples.home_page 1704067200000)
        (Examples.attachment "logo.png" (Some 2048) (Some "image/png"))
        false Examples.idle
      = (Return (result_error (Examples.deps Examples.decode) reason), Examples.idle))
  /\ (exists reason,
        process_attachment (Examples.world (Examples.file_wiki "notes.txt" "text"))
          (Examples.deps Examples.decode) Examples.client
          (Examples.home_page 1704067200000)
          (Examples.attachment "notes.txt" (Some 10485761) (Some "text/plain"))
          true Examples.idle
        = (Return (result_error (Examples.deps Examples.decode) reason), Examples.idle)).
Proof.
  split.
  - apply (proj1 (attachment_policy_gates
                    (Examples.world (Examples.file_wiki "notes.txt" "text"))
                    (Examples.deps Examples.decode))
             Examples.client (Examples.home_page 1704067200000)
             (Examples.attachment "logo.png" (Some 2048) (Some "image/png"))
             Examples.idle).
    reflexivity.
  - apply (proj1 (proj2 (attachment_policy_gates
                           (Examples.world (Examples.file_wiki "notes.txt" "text"))
                           (Examples.deps Examples.decode)))
             Examples.client (Examples.home_page 1704067200000)
             (Examples.attachment "notes.txt" (Some 10485761) (Some "text/plain"))
             true Examples.idle 10485761).
    + cbn. lia.
    + reflexivity.
    + reflexivity.
    + cbn. lia.
Defined.

(** ** The checkpointed run *)

Section RunTheory.

Context (W : World) (D : Deps) (K : Clock).

Lemma truthy_number (v : Py.json) (z : Z) :
  int_value v = Some z -> truthy v = negb (z =? 0).
Proof.
  destruct v as [|[]|n| | |]; cbn; intros H; try discriminate H;
    injection H as <-; reflexivity.
Qed.

(** On a comparable page the loop keeps a number: the modification time of
    the page when it is not zero and above the number so far. *)
Lemma track_modified_number (v : Py.json) (t : Z) (page : XWikiPage) :
  comparable page = true ->
  int_value v = Some t ->
  exists v',
    track_modified v page = Return v'
    /\ int_value v'
       = Some (if negb (timestamp page =? 0) && (timestamp page >? t)
               then timestamp page else t).
Proof.
  unfold track_modified, comparable, timestamp. intros Hc Hv.
  destruct (int_value (modified_ms page)) as [x|] eqn:Hx;
    cbn [default from_option Datatypes.id].
  - rewrite (truthy_number _ _ Hx).
    destruct (x =? 0) eqn:H0; cbn [negb andb]; [eauto|].
    unfold py_gt. rewrite Hx, Hv. cbn [exc_bind].
    destruct (x >? t); eauto.
  - rewrite orb_false_r in Hc. apply negb_true_iff in Hc. rewrite Hc.
    cbn [Z.eqb negb andb]. eauto.
Qed.

(** On any other page the comparison raises. *)
Lemma track_modified_stuck (v : Py.json) (t : Z) (page : XWikiPage) :
  comparable page = false ->
  int_value v = Some t ->
  track_modified v page
  = Raise (Exn TypeError
             ("'>' not supported between instances of '"
              +:+ type_name (modified_ms page) +:+ "' and '"
              +:+ type_name v +:+ "'")).
Proof.
  unfold comparable. intros Hc Hv.
  apply orb_false_iff in Hc as [Ht Hn]. apply negb_false_iff in Ht.
  unfold track_modified, py_gt. rewrite Ht.
  destruct (int_value (modified_ms page)); [discriminate Hn | reflexivity].
Qed.

Lemma tracked_number (pages : list XWikiPage) (v : Py.json) (t m : Z) :
  forallb comparable pages = true ->
  int_value v = Some t ->
  t <= m /\ (0 < m -> t = m) ->
  exists v' t',
    tracked pages v = Return v'
    /\ int_value v' = Some t'
    /\ t' <= fold_left Z.max (map timestamp pages) m
    /\ (0 < fold_left Z.max (map timestamp pages) m
        -> t' = fold_left Z.max (map timestamp pages) m).
Proof.
  revert v t m. induction pages as [|page pages IH]; intros v t m Hall Hv Hm.
  - exists v, t. cbn [tracked map fold_left]. tauto.
  - cbn [forallb] in Hall. apply andb_true_iff in Hall as [Hc Hall].
    destruct (track_modified_number v t page Hc Hv) as (v' & Hstep & Hv').
    cbn [tracked map fold_left]. rewrite Hstep. cbn [exc_bind].
    apply (IH v' _ (Z.max m (timestamp page)) Hall Hv').
    destruct (timestamp page =? 0) eqn:H0; cbn [negb andb].
    + apply Z.eqb_eq in H0. lia.
    + apply Z.eqb_neq in H0.
      destruct (timestamp page >? t) eqn:Hgt.
      * apply Z.gtb_lt in Hgt. lia.
      * rewrite Z.gtb_ltb in Hgt. apply Z.ltb_ge in Hgt. lia.
Qed.

(** Over comparable pages the loop ends with a number, which decides the
    new threshold as the plain maximum does. *)
Lemma tracked_batch_max (since_ms : option Z) (pages : list XWikiPage) :
  forallb comparable pages = true ->
  exists v t,
    tracked pages (JInt (default 0 since_ms)) = Return v
    /\ int_value v = Some t
    /\ (if t >? 0 then Some t else since_ms)
       = (if batch_max since_ms pages >? 0
          then Some (batch_max since_ms pages) else since_ms).
Proof.
  intros Hall.
  destruct (tracked_number pages (JInt (default 0 since_ms)) (default 0 since_ms)
              (default 0 since_ms) Hall eq_refl)
    as (v & t & Htr & Hv & Hle & Heq); [lia|].
  exists v, t. split; [exact Htr|]. split; [exact Hv|].
  unfold batch_max.
  rewrite <- (fold_symmetric Z.max Z.max_assoc (default 0 since_ms)
                (fun y => Z.max_comm _ y)).
  destruct (fold_left Z.max (map timestamp pages) (default 0 since_ms) >? 0) eqn:Hm.
  - apply Z.gtb_lt in Hm. rewrite (Heq Hm), (proj2 (Z.gtb_lt _ _) Hm). reflexivity.
  - rewrite Z.gtb_ltb in Hm. apply Z.ltb_ge in Hm.
    replace (t >? 0) with false; [reflexivity|].
    symmetry. rewrite Z.gtb_ltb. apply Z.ltb_ge. lia.
Qed.

(** A page that is not comparable ends the loop with a [TypeError]. *)
Lemma tracked_stuck (pages : list XWikiPage) (v : Py.json) (t : Z) :
  forallb comparable pages = false ->
  int_value v = Some t ->
  exists e, tracked pages v = Raise e /\ exn_cls e = TypeError.
Proof.
  revert v t. induction pages as [|page pages IH]; intros v t Hall Hv;
    [discriminate Hall|].
  cbn [forallb] in Hall. cbn [tracked].
  destruct (comparable page) eqn:Hc; cbn [andb] in Hall.
  - destruct (track_modified_number v t page Hc Hv) as (v' & -> & Hv').
    cbn [exc_bind]. exact (IH v' _ Hall Hv').
  - rewrite (track_modified_stuck v t page Hc Hv). cbn [exc_bind]. eauto.
Qed.

Lemma reached_all (pages : list XWikiPage) :
  forallb comparable pages = true -> reached pages = pages.
Proof.
  induction pages as [|page pages IH]; [reflexivity|].
  cbn [forallb reached]. intros H. apply andb_true_iff in H as [-> H].
  now rewrite (IH H).
Qed.

Lemma page_outcomes_length {Doc : Type} (process : XWikiPage -> Net Doc)
    (pages : list XWikiPage) (st : NetState) :
  length (page_outcomes process pages st) = length pages.
Proof.
  revert st. induction pages as [|page pages IH]; intros st; [reflexivity|].
  cbn [page_outcomes]. destruct (process page st) as [outcome st'].
  cbn [length]. now rewrite IH.
Qed.

(** The loop runs the processor once on each page it reaches, in order,
    keeps the documents of the pages where it succeeded, and ends as the
    comparisons of the modification times do. *)
Lemma for_pages_run (process : XWikiPage -> Net (Document D K))
    (pages : list XWikiPage) (v : Py.json) (t : Z) (st : NetState) :
  int_value v = Some t ->
  for_pages D K process pages v st
  = ((successes (page_outcomes process (reached pages) st), tracked pages v),
     pages_state process (reached pages) st).
Proof.
  revert v t st.
  induction pages as [|page pages IH]; intros v t st Hv; [reflexivity|].
  cbn [for_pages reached tracked].
  destruct (comparable page) eqn:Hc.
  - destruct (track_modified_number v t page Hc Hv) as (v' & -> & Hv').
    cbn [exc_bind page_outcomes pages_state].
    destruct (process page st) as [outcome st']. cbn [snd].
    rewrite (IH v' _ st' Hv'). destruct outcome; reflexivity.
  - rewrite (track_modified_stuck v t page Hc Hv). reflexivity.
Qed.

Lemma cbind_run {A B} (m : Conn A) (k : A -> Conn B) (s : ConnState) :
  cbind m k s
  = match m s with
    | (Return a, s') => k a s'
    | (Raise e, s') => (Raise e, s')
    end.
Proof. reflexivity. Qed.

Lemma read_new (h : list XWikiCheckpoint) (c : XWikiCheckpoint) (n : NetState) :
  read (length h) {| heap := h ++ [c]; net := n |}
  = (Return c, {| heap := h ++ [c]; net := n |}).
Proof.
  unfold read. cbn [heap].
  now rewrite (list_lookup_middle h [] c (length h) eq_refl).
Qed.

Lemma insert_new (h : list XWikiCheckpoint) (c c' : XWikiCheckpoint) :
  <[length h := c']> (h ++ [c])%list = (h ++ [c'])%list.
Proof.
  pose proof (insert_app_r h [c] 0 c') as H. rewrite Nat.add_0_r in H. exact H.
Qed.

Lemma assign_new (h : list XWikiCheckpoint) (c : XWikiCheckpoint) (n : NetState)
    (set : XWikiCheckpoint -> XWikiCheckpoint) :
  assign (length h) set {| heap := h ++ [c]; net := n |}
  = (Return tt, {| heap := h ++ [set c]; net := n |}).
Proof.
  unfold assign. cbn [heap net].
  now rewrite (list_lookup_middle h [] c (length h) eq_refl), insert_new.
Qed.

Lemma seed_run (h : list XWikiCheckpoint) (c0 : XWikiCheckpoint) (n : NetState)
    (start : float) :
  (match since_ms c0 with
   | None =>
       if float_truthy start then
         let* ms := lift_net (lift (int_of_float (start * 1000)%float)) in
         assign (length h) (set_since_ms (Some ms))
       else cret tt
   | Some _ => cret tt
   end) {| heap := h ++ [c0]; net := n |}
  = match effective_since (since_ms c0) start with
    | Return since =>
        (Return tt, {| heap := h ++ [set_since_ms since c0]; net := n |})
    | Raise e => (Raise e, {| heap := h ++ [c0]; net := n |})
    end.
Proof.
  unfold effective_since. destruct c0 as [hm [ms|] off]; cbn [since_ms].
  - reflexivity.
  - destruct (float_truthy start); [|reflexivity].
    rewrite cbind_run. unfold lift_net, lift. cbn [net heap].
    destruct (int_of_float (start * 1000)%float) as [ms|e]; [|reflexivity].
    cbn [exc_bind]. now rewrite assign_new.
Qed.

(** The statements before the loop, step by step. *)
Lemma open_batch_run (self : XWikiConnector) (client : XWikiClient)
    (start : float) (checkpoint : ref) (s : ConnState) :
  open_batch W self client start checkpoint s
  = match heap s !! checkpoint with
    | None => (Raise (Exn RuntimeError "reference to no object"), s)
    | Some c0 =>
        match effective_since (since_ms c0) start with
        | Raise e => (Raise e, {| heap := heap s ++ [c0]; net := net s |})
        | Return since =>
            match query_pages W client (_wiki self) (_root_page self) (_tag self)
                    (_index_recursively self) since (offset c0)
                    (_batch_size self) (net s) with
            | (Raise e, n1) =>
                (Raise e, {| heap := heap s ++ [set_since_ms since c0]; net := n1 |})
            | (Return (pages, raw_count), n1) =>
                (Return (length (heap s), since, pages, raw_count),
                 {| heap := heap s ++ [set_since_ms since c0]; net := n1 |})
            end
        end
    end.
Proof.
  unfold open_batch.
  rewrite cbind_run. unfold deepcopy at 1.
  destruct (heap s !! checkpoint) as [c0|]; [|reflexivity].
  rewrite cbind_run, read_new, cbind_run, seed_run.
  destruct (effective_since (since_ms c0) start) as [since|e]; [|reflexivity].
  rewrite cbind_run, read_new, cbind_run.
  unfold lift_net at 1. cbn [net heap since_ms offset set_since_ms].
  destruct (query_pages W client (_wiki self) (_root_page self) (_tag self)
              (_index_recursively self) since (offset c0) (_batch_size self) (net s))
    as [[[pages raw_count]|e] n1]; reflexivity.
Qed.

(** The statements after the loop, for a number [max_modified]. *)
Lemma close_batch_run (self : XWikiConnector) (h : list XWikiCheckpoint)
    (c : XWikiCheckpoint) (raw_count : Z) (v : Py.json) (t : Z) (n : NetState) :
  int_value v = Some t ->
  close_batch self (length h) raw_count v {| heap := h ++ [c]; net := n |}
  = (Return (length h),
     {| heap := h ++ [if raw_count >=? _batch_size self then
                        {| has_more := true; since_ms := since_ms c;
                           offset := offset c + raw_count |}
                      else
                        {| has_more := false;
                           since_ms := if t >? 0 then Some t else since_ms c;
                           offset := 0 |}];
        net := n |}).
Proof.
  intros Hv. unfold close_batch.
  rewrite cbind_run, assign_new, cbind_run, assign_new, cbind_run, read_new.
  cbn [has_more set_has_more set_offset offset since_ms].
  destruct (raw_count >=? _batch_size self); cbn [negb].
  - rewrite cbind_run. reflexivity.
  - rewrite cbind_run, cbind_run, assign_new, cbind_run.
    unfold lift_net, lift, py_gt. rewrite Hv.
    cbn [int_value net heap has_more set_has_more set_offset offset since_ms].
    destruct (t >? 0).
    + rewrite assign_new. reflexivity.
    + reflexivity.
Qed.

(** The run of [load_from_checkpoint], step by step. *)
Lemma load_run (process : XWikiClient -> XWikiPage -> bool -> Net (Document D K))
    (self : XWikiConnector) (start end_ : float) (checkpoint : ref) (s : ConnState) :
  load_from_checkpoint_with W D K process self start end_ checkpoint s
  = match _client self with
    | None => (([], Raise (Exn ConnectorMissingCredentialError "xwiki")), s)
    | Some client =>
        match heap s !! checkpoint with
        | None => (([], Raise (Exn RuntimeError "reference to no object")), s)
        | Some c0 =>
            match effective_since (since_ms c0) start with
            | Raise e => (([], Raise e), {| heap := heap s ++ [c0]; net := net s |})
            | Return since =>
                match query_pages W client (_wiki self) (_root_page self) (_tag self)
                        (_index_recursively self) since (offset c0)
                        (_batch_size self) (net s) with
                | (Raise e, n1) =>
                    (([], Raise e),
                     {| heap := heap s ++ [set_since_ms since c0]; net := n1 |})
                | (Return (pages, raw_count), n1) =>
                    let process_page page := process client page (_allow_images self) in
                    ((successes (page_outcomes process_page (reached pages) n1),
                      match tracked pages (JInt (default 0 since)) with
                      | Return _ => Return (length (heap s))
                      | Raise e => Raise e
                      end),
                     {| heap := heap s
                                ++ [if forallb comparable pages
                                    then next_checkpoint since (offset c0) raw_count
                                           (_batch_size self) pages
                                    else set_since_ms since c0];
                        net := pages_state process_page (reached pages) n1 |})
                end
            end
        end
    end.
Proof.
  unfold load_from_checkpoint_with.
  destruct (_client self) as [client|]; [|reflexivity].
  rewrite open_batch_run.
  destruct (heap s !! checkpoint) as [c0|]; [|reflexivity].
  destruct (effective_since (since_ms c0) start) as [since|e]; [|reflexivity].
  destruct (query_pages W client (_wiki self) (_root_page self) (_tag self)
              (_index_recursively self) since (offset c0) (_batch_size self) (net s))
    as [[[pages raw_count]|e] n1]; [|reflexivity].
  cbn [net heap]. cbv zeta.
  rewrite (for_pages_run (fun page => process client page (_allow_images self))
             pages (JInt (default 0 since)) (default 0 since) n1 eq_refl).
  destruct (forallb comparable pages) eqn:Hall.
  - destruct (tracked_batch_max since pages Hall) as (v & t & -> & Hv & Hmax).
    rewrite (close_batch_run self (heap s) _ raw_count v t _ Hv).
    unfold next_checkpoint. cbn [since_ms offset set_since_ms].
    rewrite Hmax. reflexivity.
  - destruct (tracked_stuck pages (JInt (default 0 since)) (default 0 since)
                Hall eq_refl) as (e & -> & _).
    reflexivity.
Qed.

Lemma returned_new {Doc : Type} (docs : list Doc) (h : list XWikiCheckpoint)
    (c : XWikiCheckpoint) (n : NetState) :
  returned_checkpoint ((docs, Return (length h)), {| heap := h ++ [c]; net := n |})
  = Return c.
Proof.
  unfold returned_checkpoint. cbn [heap].
  now rewrite (list_lookup_middle h [] c (length h) eq_refl).
Qed.

(** C1 (as amended). Cursor transition, for a call that gets its batch.
    The threshold of the batch is the incoming [since_ms], or
    [int(start * 1000)] when the incoming one is [None] and [start] is not
    zero.  When the [modified_ms] of every page of the batch is a number or
    counts as false, the call returns a checkpoint with
    [has_more = (raw_count >= batch_size)]: after a full batch the offset is
    the incoming offset plus the raw hit count and [since_ms] is the
    threshold of the batch; after a short batch the offset is 0, and
    [since_ms] is the maximum of the threshold of the batch (0 for [None])
    and the [modified_ms] of the pages seen when that maximum is positive,
    and the threshold of the batch otherwise.  When some page has a
    [modified_ms] that counts as true and is no number, the call raises a
    [TypeError] and returns no checkpoint. *)
Theorem cursor_transition (self : XWikiConnector) (start end_ : float)
    (checkpoint : ref) (s : ConnState) (client : XWikiClient)
    (incoming : XWikiCheckpoint) (since : option Z) (pages : list XWikiPage)
    (raw_count : Z) (n1 : NetState) :
  _client self = Some client ->
  heap s !! checkpoint = Some incoming ->
  effective_since (since_ms incoming) start = Return since ->
  query_pages W client (_wiki self) (_root_page self) (_tag self)
    (_index_recursively self) since (offset incoming) (_batch_size self) (net s)
  = (Return (pages, raw_count), n1) ->
  if forallb comparable pages then
    returned_checkpoint (load_from_checkpoint W D K self start end_ checkpoint s)
    = Return
        (if raw_count >=? _batch_size self then
           {| has_more := true; since_ms := since;
              offset := offset incoming + raw_count |}
         else
           {| has_more := false;
              since_ms := if batch_max since pages >? 0
                          then Some (batch_max since pages) else since;
              offset := 0 |})
  else
    exists e,
      exn_cls e = TypeError
      /\ outcome (load_from_checkpoint W D K self start end_ checkpoint s) = Raise e.
Proof.
  intros Hclient Hcp Hsince Hquery.
  unfold load_from_checkpoint.
  rewrite load_run, Hclient, Hcp, Hsince, Hquery. cbv zeta.
  destruct (forallb comparable pages) eqn:Hall.
  - destruct (tracked_batch_max since pages Hall) as (v & t & -> & _).
    rewrite returned_new. reflexivity.
  - destruct (tracked_stuck pages (JInt (default 0 since)) (default 0 since)
                Hall eq_refl) as (e & -> & Hcls).
    exists e. split; [exact Hcls | reflexivity].
Qed.

(** With positive modification times the new threshold of a short batch is
    the maximum the claim words, taken from the threshold of the batch. *)
Lemma short_batch_claimed_since (since : option Z) (offset raw_count batch_size : Z)
    (pages : list XWikiPage) :
  Forall (fun page => 0 < timestamp page) pages ->
  raw_count < batch_size ->
  since_ms (next_checkpoint since offset raw_count batch_size pages)
  = claimed_since since pages.
Proof.
  intros Hpos Hshort. unfold next_checkpoint.
  replace (raw_count >=? batch_size) with false
    by (symmetry; rewrite Z.geb_leb; apply Z.leb_gt; lia).
  cbn [since_ms]. unfold batch_max, claimed_since.
  destruct pages as [|page pages].
  - cbn [map fold_right]. destruct since as [ms|]; cbn [from_option Datatypes.id]; [|reflexivity].
    destruct (ms >? 0); reflexivity.
  - inversion Hpos as [|? ? Hpage Hrest]; subst.
    assert (Hmax : forall base, 0 < fold_right Z.max base (map timestamp (page :: pages))).
    { intros base. cbn [map fold_right]. lia. }
    rewrite (proj2 (Z.gtb_lt _ _) (Hmax _)). f_equal.
    destruct since as [ms|]; [reflexivity|]. cbn [from_option Datatypes.id].
    cbn [map fold_right].
    assert (Hbase : forall a b,
               0 <= b -> b <= a ->
               Z.max a (fold_right Z.max 0 (map timestamp pages))
               = Z.max a (fold_right Z.max b (map timestamp pages))).
    { clear. intros a b Hb Hab. induction pages as [|p ps IH]; cbn [map fold_right]; lia. }
    apply Hbase; lia.
Qed.

(** C9. Per-page failure isolation, for a call that gets its batch.  The
    loop of [load_from_checkpoint] runs [process_xwiki_page] once on each
    page it reaches, in order, each on the network as the page before left
    it; what the call yields is the documents of the pages where that
    succeeded, so a page where it raised is skipped and the pages after it
    are processed.  What the call returns or raises, and the fields of the
    checkpoint returned, are the same for every page processor put in the
    place of [process_xwiki_page], one that succeeds on every page
    included.  The pages reached are all the pages of the batch, and the
    call returns a checkpoint, when every [modified_ms] is a number or
    counts as false; the comparison of a [modified_ms] of another kind
    stands before the [try] and ends the call, whatever the processor
    does. *)
Theorem page_failure_isolation (self : XWikiConnector) (start end_ : float)
    (checkpoint : ref) (s : ConnState) (client : XWikiClient)
    (incoming : XWikiCheckpoint) (since : option Z) (pages : list XWikiPage)
    (raw_count : Z) (n1 : NetState) :
  _client self = Some client ->
  heap s !! checkpoint = Some incoming ->
  effective_since (since_ms incoming) start = Return since ->
  query_pages W client (_wiki self) (_root_page self) (_tag self)
    (_index_recursively self) since (offset incoming) (_batch_size self) (net s)
  = (Return (pages, raw_count), n1) ->
  let process_page page :=
    process_xwiki_page W D K client page (_allow_images self) in
  let run := load_from_checkpoint W D K self start end_ checkpoint s in
  yielded run = successes (page_outcomes process_page (reached pages) n1)
  /\ length (page_outcomes process_page (reached pages) n1)
     = length (reached pages)
  /\ net (snd run) = pages_state process_page (reached pages) n1
  /\ (forall process : XWikiClient -> XWikiPage -> bool -> Net (Document D K),
         outcome (load_from_checkpoint_with W D K process self start end_
                    checkpoint s)
         = outcome run
         /\ returned_checkpoint
              (load_from_checkpoint_with W D K process self start end_
                 checkpoint s)
            = returned_checkpoint run)
  /\ (forallb comparable pages = true ->
      reached pages = pages
      /\ returned_checkpoint run
         = Return (next_checkpoint since (offset incoming) raw_count
                     (_batch_size self) pages)).
Proof.
  intros Hclient Hcp Hsince Hquery process_page run.
  assert (Hrun : forall process,
             load_from_checkpoint_with W D K process self start end_ checkpoint s
             = ((successes
                   (page_outcomes
                      (fun page => process client page (_allow_images self))
                      (reached pages) n1),
                 match tracked pages (JInt (default 0 since)) with
                 | Return _ => Return (length (heap s))
                 | Raise e => Raise e
                 end),
                {| heap := heap s
                           ++ [if forallb comparable pages
                               then next_checkpoint since (offset incoming)
                                      raw_count (_batch_size self) pages
                               else set_since_ms since incoming];
                   net := pages_state
                            (fun page => process client page (_allow_images self))
                            (reached pages) n1 |})).
  { intros process. now rewrite load_run, Hclient, Hcp, Hsince, Hquery. }
  subst run. unfold load_from_checkpoint.
  split; [now rewrite Hrun|]. split; [apply page_outcomes_length|].
  split; [now rewrite Hrun|]. split.
  - intros process. rewrite !Hrun. split; [reflexivity|].
    destruct (tracked pages (JInt (default 0 since))); [|reflexivity].
    now rewrite !returned_new.
  - intros Hall. split; [now apply reached_all|].
    rewrite Hrun, Hall.
    destruct (tracked_batch_max since pages Hall) as (v & t & -> & _).
    apply returned_new.
Qed.

(** C10. The caller's checkpoint is never mutated: every object that was
    on the heap before the call, the checkpoint passed in among them, has the
    same fields after it, whether the call returns or raises; and the
    reference returned denotes an object that did not exist before the
    call, so it is not the caller's. *)
Theorem caller_checkpoint_untouched (self : XWikiConnector) (start end_ : float)
    (checkpoint : ref) (s : ConnState) :
  (forall (obj : ref) (c : XWikiCheckpoint),
      heap s !! obj = Some c ->
      heap (snd (load_from_checkpoint W D K self start end_ checkpoint s)) !! obj
      = Some c)
  /\ (forall (docs : list (Document D K)) (cp : ref),
         fst (load_from_checkpoint W D K self start end_ checkpoint s)
         = (docs, Return cp) ->
         heap s !! cp = None
         /\ is_Some (heap (snd (load_from_checkpoint W D K self start end_
                                  checkpoint s)) !! cp)
         /\ cp <> checkpoint).
Proof.
  unfold load_from_checkpoint. rewrite load_run.
  destruct (_client self) as [client|].
  2:{ split; [auto | discriminate]. }
  destruct (heap s !! checkpoint) as [c0|] eqn:Hcp.
  2:{ split; [auto | discriminate]. }
  destruct (effective_since (since_ms c0) start) as [since|e].
  2:{ split; [|discriminate]. intros obj c H. cbn [snd heap].
      now apply lookup_app_l_Some. }
  destruct (query_pages W client (_wiki self) (_root_page self) (_tag self)
              (_index_recursively self) since (offset c0) (_batch_size self) (net s))
    as [[[pages raw_count]|e] n1].
  2:{ split; [|discriminate]. intros obj c H. cbn [snd heap].
      now apply lookup_app_l_Some. }
  cbv zeta. cbn [fst snd heap]. split.
  - intros obj c H. now apply lookup_app_l_Some.
  - intros docs cp H.
    destruct (tracked pages (JInt (default 0 since))); [|discriminate H].
    injection H as _ <-. split; [|split].
    + apply lookup_ge_None. lia.
    + rewrite (list_lookup_middle (heap s) [] _ (length (heap s)) eq_refl). eauto.
    + apply lookup_lt_Some in Hcp. lia.
Qed.

End RunTheory.

Lemma cursor_transition_witness :
  returned_checkpoint
    (load_from_checkpoint
       (Examples.world
          (Examples.home_wiki [Examples.hit (JStr EmptyString);
                               Examples.hit (JStr "fr")] 1704067200000))
       (Examples.deps Examples.decode) Examples.clock Examples.connector
       5%float 0%float 0%nat Examples.fresh_run)
  = Return {| has_more := false; since_ms := Some 1704067200000; offset := 0 |}.
Proof.
  apply (cursor_transition
           (Examples.world
              (Examples.home_wiki [Examples.hit (JStr EmptyString);
                                   Examples.hit (JStr "fr")] 1704067200000))
           (Examples.deps Examples.decode) Examples.clock Examples.connector
           5%float 0%float 0%nat Examples.fresh_run Examples.client
           build_dummy_checkpoint (Some 5000)
           [Examples.home_page 1704067200000] 2
           (snd (query_pages
                   (Examples.world
                      (Examples.home_wiki [Examples.hit (JStr EmptyString);
                                           Examples.hit (JStr "fr")] 1704067200000))
                   Examples.client "xwiki" None None true (Some 5000) 0 500
                   Examples.idle))).
  - reflexivity.
  - reflexivity.
  - reflexivity.
  - vm_compute. reflexivity.
Defined.

(** The claim as first worded fails in three places.  A first run with a
    start time and an empty batch: no page is seen, and the threshold goes
    from [None] to the start time.  A page modified at the epoch: the
    maximum the claim words is 0, and the threshold stays [None].  A page
    whose modification time came as a text: the call raises and returns no
    checkpoint at all. *)
Lemma cursor_transition_as_worded_fails :
  (fst (query_pages (Examples.world (Examples.home_wiki [] 0)) Examples.client
          "xwiki" None None true (Some 5000) 0 500 Examples.idle)
   = Return ([], 0)
   /\ returned_checkpoint
        (load_from_checkpoint (Examples.world (Examples.home_wiki [] 0))
           (Examples.deps Examples.decode) Examples.clock Examples.connector
           5%float 0%float 0%nat Examples.fresh_run)
      = Return {| has_more := false; since_ms := Some 5000; offset := 0 |}
   /\ ~ completion_law_as_worded build_dummy_checkpoint 0 500 []
          {| has_more := false; since_ms := Some 5000; offset := 0 |})
  /\ (fst (query_pages
             (Examples.world (Examples.home_wiki [Examples.hit JNull] 0))
             Examples.client "xwiki" None None true None 0 500 Examples.idle)
      = Return ([Examples.home_page 0], 1)
      /\ returned_checkpoint
           (load_from_checkpoint
              (Examples.world (Examples.home_wiki [Examples.hit JNull] 0))
              (Examples.deps Examples.decode) Examples.clock Examples.connector
              0%float 0%float 0%nat Examples.fresh_run)
         = Return {| has_more := false; since_ms := None; offset := 0 |}
      /\ ~ completion_law_as_worded build_dummy_checkpoint 1 500
             [Examples.home_page 0]
             {| has_more := false; since_ms := None; offset := 0 |})
  /\ (fst (query_pages
             (Examples.world
                (Examples.dated_wiki [Examples.hit JNull] (JStr "2024-01-01")))
             Examples.client "xwiki" None None true None 0 500 Examples.idle)
      = Return ([Examples.dated_page (JStr "2024-01-01")], 1)
      /\ returned_checkpoint
           (load_from_checkpoint
              (Examples.world
                 (Examples.dated_wiki [Examples.hit JNull] (JStr "2024-01-01")))
              (Examples.deps Examples.decode) Examples.clock Examples.connector
              0%float 0%float 0%nat Examples.fresh_run)
         = Raise (Exn TypeError
                    "'>' not supported between instances of 'str' and 'int'")
      /\ ~ exists returned,
             returned_checkpoint
               (load_from_checkpoint
                  (Examples.world
                     (Examples.dated_wiki [Examples.hit JNull] (JStr "2024-01-01")))
                  (Examples.deps Examples.decode) Examples.clock Examples.connector
                  0%float 0%float 0%nat Examples.fresh_run)
             = Return returned
             /\ completion_law_as_worded build_dummy_checkpoint 1 500
                  [Examples.dated_page (JStr "2024-01-01")] returned).
Proof.
  split; [|split].
  - split; [vm_compute; reflexivity|]. split; [vm_compute; reflexivity|].
    intros [_ H]. destruct H as [_ H]; [lia | discriminate H].
  - split; [vm_compute; reflexivity|]. split; [vm_compute; reflexivity|].
    intros [_ H]. destruct H as [_ H]; [lia | discriminate H].
  - split; [vm_compute; reflexivity|]. split; [vm_compute; reflexivity|].
    intros (returned & H & _). vm_compute in H. discriminate H.
Qed.

Lemma page_failure_isolation_witness :
  yielded
    (load_from_checkpoint
       (Examples.world (Examples.home_wiki [Examples.hit JNull] 999999999999999999))
       (Examples.deps Examples.decode) Examples.clock Examples.connector
       0%float 0%float 0%nat Examples.fresh_run)
  = []
  /\ returned_checkpoint
       (load_from_checkpoint_with
          (Examples.world (Examples.home_wiki [Examples.hit JNull] 999999999999999999))
          (Examples.deps Examples.decode) Examples.clock
          (fun _ page _ => ret (Examples.bare_document page))
          Examples.connector 0%float 0%float 0%nat Examples.fresh_run)
     = returned_checkpoint
         (load_from_checkpoint
            (Examples.world
               (Examples.home_wiki [Examples.hit JNull] 999999999999999999))
            (Examples.deps Examples.decode) Examples.clock Examples.connector
            0%float 0%float 0%nat Examples.fresh_run).
Proof.
  destruct (page_failure_isolation
              (Examples.world
                 (Examples.home_wiki [Examples.hit JNull] 999999999999999999))
              (Examples.deps Examples.decode) Examples.clock Examples.connector
              0%float 0%float 0%nat Examples.fresh_run Examples.client
              build_dummy_checkpoint None
              [Examples.home_page 999999999999999999] 1
              (snd (query_pages
                      (Examples.world
                         (Examples.home_wiki [Examples.hit JNull]
                            999999999999999999))
                      Examples.client "xwiki" None None true None 0 500
                      Examples.idle)))
    as (Hyield & _ & _ & Hsame & _).
  - reflexivity.
  - reflexivity.
  - reflexivity.
  - vm_compute. reflexivity.
  - split.
    + etransitivity; [exact Hyield | reflexivity].
    + exact (proj2 (Hsame (fun _ page _ => ret (Examples.bare_document page)))).
Defined.

Lemma caller_checkpoint_untouched_witness :
  heap (snd (load_from_checkpoint
               (Examples.world (Examples.home_wiki [Examples.hit JNull] 1704067200000))
               (Examples.deps Examples.decode) Examples.clock Examples.connector
               5%float 0%float 0%nat Examples.fresh_run)) !! 0%nat
  = Some build_dummy_checkpoint.
Proof.
  apply (proj1 (caller_checkpoint_untouched
                  (Examples.world (Examples.home_wiki [Examples.hit JNull] 1704067200000))
                  (Examples.deps Examples.decode) Examples.clock Examples.connector
                  5%float 0%float 0%nat Examples.fresh_run)).
  reflexivity.
Defined.

(** A batch of one page whose modification time no [datetime] can hold:
    the document cannot be built, the page is skipped, and the checkpoint
    is the one of a run in which the page gave a document. *)
Example failed_page_same_checkpoint :
  fst (load_from_checkpoint
         (Examples.world (Examples.home_wiki [Examples.hit JNull] 999999999999999999))
         (Examples.deps Examples.decode) Examples.clock Examples.connector
         0%float 0%float 0%nat Examples.fresh_run)
  = ([], Return 1%nat)
  /\ returned_checkpoint
       (load_from_checkpoint
          (Examples.world (Examples.home_wiki [Examples.hit JNull] 999999999999999999))
          (Examples.deps Examples.decode) Examples.clock Examples.connector
          0%float 0%float 0%nat Examples.fresh_run)
     = Return {| has_more := false; since_ms := Some 999999999999999999; offset := 0 |}
  /\ returned_checkpoint
       (load_from_checkpoint_with
          (Examples.world (Examples.home_wiki [Examples.hit JNull] 999999999999999999))
          (Examples.deps Examples.decode) Examples.clock
          (fun _ page _ => ret (Examples.bare_document page))
          Examples.connector 0%float 0%float 0%nat Examples.fresh_run)
     = Return {| has_more := false; since_ms := Some 999999999999999999; offset := 0 |}.
Proof. repeat split; vm_compute; reflexivity. Qed.

(** A full batch: the offset advances and the threshold stays. *)
Example full_batch_advances :
  returned_checkpoint
    (load_from_checkpoint
       (Examples.world
          (Examples.home_wiki [Examples.hit JNull; Examples.hit (JStr "fr")]
             1704067200000))
       (Examples.deps Examples.decode) Examples.clock
       (load_credentials
          (XWikiConnector_init "https://wiki.example.org/" "xwiki" None true None 2)
          "alice" "secret")
       0%float 0%float 0%nat Examples.fresh_run)
  = Return {| has_more := true; since_ms := None; offset := 2 |}.
Proof. vm_compute. reflexivity. Qed.

(* ===================================================================== *)
(** * Further properties of the code *)
(* ===================================================================== *)

(** ** Escaping and the space filter *)

Lemma unescape_escape_chars (s : string) : unescape (escape_chars s) = s.
Proof.
  induction s as [|c s IH]; [reflexivity|].
  cbn [escape_chars].
  destruct (Ascii.eqb c "092") eqn:Hb.
  - apply Ascii.eqb_eq in Hb. subst c. cbn. now rewrite IH.
  - destruct (Ascii.eqb c "034") eqn:Hq.
    + apply Ascii.eqb_eq in Hq. subst c. cbn. now rewrite IH.
    + cbn [String.append unescape]. rewrite Hb, IH. reflexivity.
Qed.

Lemma well_escaped_escape_chars (s : string) : well_escaped (escape_chars s) = true.
Proof.
  induction s as [|c s IH]; [reflexivity|].
  cbn [escape_chars].
  destruct (Ascii.eqb c "092") eqn:Hb; [exact IH|].
  destruct (Ascii.eqb c "034") eqn:Hq; [exact IH|].
  cbn [String.append well_escaped]. now rewrite Hb, Hq.
Qed.

(** X1. [_esc] makes a term safe to quote and loses nothing: in its output
    every double quote and every backslash of the input is behind a
    backslash, so no quote ends the quoted term early, the original is
    read back by dropping the escaping backslashes, and two different
    values never escape to the same text. *)
Theorem esc_safe_and_injective :
  (forall val : string, well_escaped (_esc val) = true)
  /\ (forall val : string, unescape (_esc val) = val)
  /\ (forall a b : string, _esc a = _esc b -> a = b).
Proof.
  split; [|split].
  - intros val. rewrite esc_escape_chars. apply well_escaped_escape_chars.
  - intros val. rewrite esc_escape_chars. apply unescape_escape_chars.
  - intros a b H.
    rewrite <- (unescape_escape_chars a), <- (unescape_escape_chars b).
    rewrite <- !esc_escape_chars. now rewrite H.
Qed.

Lemma split_go_nil (cur : option string) (s : string) :
  split_go cur s = [] <-> cur = None /\ blank s = true.
Proof.
  revert cur. induction s as [|c s IH]; intros cur; cbn [split_go blank].
  - destruct cur; split; [discriminate | intros [H _]; discriminate H | auto | auto].
  - destruct (isspace c); cbn [andb].
    + destruct cur as [w|].
      * split; [discriminate | intros [H _]; discriminate H].
      * apply IH.
    + rewrite IH. split; intros [H1 H2]; discriminate.
Qed.

Lemma init_last_raises (words : list string) (e : exn) :
  init_last words = Raise e ->
  words = [] /\ e = Exn IndexError "list index out of range".
Proof.
  unfold init_last. destruct (List.rev words) as [|w ws] eqn:Hrev; [|discriminate].
  intros H. injection H as <-. split; [|reflexivity].
  apply (f_equal (@List.rev string)) in Hrev. now rewrite rev_involutive in Hrev.
Qed.

(** X2. The outcome of [_build_space_filter].  It raises, [IndexError], in
    one case only: a recursive filter on a space that holds a blank and
    nothing but whitespace, for which [split] finds no word.  In every
    other case it returns a term on the [space] field. *)
Theorem space_filter_outcome (space : string) (recursive : bool) :
  match _build_space_filter space recursive with
  | Raise e =>
      e = Exn IndexError "list index out of range"
      /\ recursive = true /\ contains " " space = true /\ blank space = true
  | Return term =>
      is_space_term term = true
      /\ recursive && contains " " space && blank space = false
  end.
Proof.
  destruct (_build_space_filter space recursive) as [term|e] eqn:Hrun.
  - split; [apply (space_filter_returns _ _ _ Hrun)|].
    unfold _build_space_filter in Hrun.
    destruct recursive; [|reflexivity].
    destruct (contains " " space); [|reflexivity].
    cbn [andb]. destruct (blank space) eqn:Hblank; [|reflexivity].
    assert (Hnil : split space = []) by (apply split_go_nil; auto).
    rewrite Hnil in Hrun. discriminate Hrun.
  - unfold _build_space_filter in Hrun.
    destruct recursive; [|discriminate].
    destruct (contains " " space); [|discriminate].
    destruct (init_last (split space)) as [[init last]|e'] eqn:Hw;
      cbn [exc_bind] in Hrun; [discriminate|].
    injection Hrun as ->.
    destruct (init_last_raises _ _ Hw) as [Hnil ->].
    repeat split. now apply (split_go_nil None space).
Qed.

(** ** Characters in strings *)

Lemma contains_char_nil (c : ascii) : contains (String c EmptyString) EmptyString = false.
Proof. reflexivity. Qed.

Lemma contains_char_cons (c x : ascii) (s : string) :
  contains (String c EmptyString) (String x s)
  = Ascii.eqb x c || contains (String c EmptyString) s.
Proof. cbn [contains]. now rewrite prefix_char. Qed.

Lemma contains_char_append (c : ascii) (a b : string) :
  contains (String c EmptyString) (a +:+ b)
  = contains (String c EmptyString) a || contains (String c EmptyString) b.
Proof.
  induction a as [|x a IH].
  - now rewrite contains_char_nil.
  - cbn [String.append]. rewrite !contains_char_cons, IH. now rewrite orb_assoc.
Qed.

Lemma partition_found (sep : ascii) (head tail : string) :
  contains (String sep EmptyString) head = false ->
  partition sep (head +:+ String sep tail) = (head, true, tail).
Proof.
  induction head as [|c head IH]; intros H.
  - cbn. now rewrite Ascii.eqb_refl.
  - rewrite contains_char_cons in H. apply orb_false_iff in H as [Hc Hrest].
    cbn [String.append partition]. rewrite Hc, (IH Hrest). reflexivity.
Qed.

Lemma partition_absent (sep : ascii) (s : string) :
  contains (String sep EmptyString) s = false ->
  partition sep s = (s, false, EmptyString).
Proof.
  induction s as [|c s IH]; intros H; [reflexivity|].
  rewrite contains_char_cons in H. apply orb_false_iff in H as [Hc Hrest].
  cbn [partition]. rewrite Hc, (IH Hrest). reflexivity.
Qed.

(** ** The scope of a query *)

(** X3. Only the first colon of the root page separates the wiki from the
    page reference.  For a root page made of a wiki name without colon, a
    colon, and any reference, [_build_solr_query] puts the wiki name in the
    extra parameters and filters on the space of the reference, colons in
    the reference included; the tag plays no part. *)
Theorem root_page_wiki_prefix (W : World) (wiki_name page_ref : string)
    (tag : option string) (recursive : bool) (since_ms : option Z) :
  contains ":" wiki_name = false ->
  _build_solr_query W (Some (wiki_name +:+ ":" +:+ page_ref)) tag recursive since_ms
  = (let? filter :=
       _build_space_filter (_extract_space_from_page_reference page_ref) recursive in
     let? term := _build_modified_filter W since_ms in
     Return (join_terms [type_term; hidden_term; filter; term],
             {[ "wiki" := wiki_name ]})).
Proof.
  intros Hwiki. unfold _build_solr_query, query_terms.
  assert (Htruthy : opt_truthy (Some (wiki_name +:+ ":" +:+ page_ref)) = true)
    by (destruct wiki_name; reflexivity).
  rewrite Htruthy. cbn [from_option Datatypes.id].
  change (wiki_name +:+ ":" +:+ page_ref) with (wiki_name +:+ String ":" page_ref).
  rewrite (partition_found ":" wiki_name page_ref Hwiki).
  destruct (_build_space_filter (_extract_space_from_page_reference page_ref) recursive)
    as [filter|e]; [|reflexivity].
  destruct since_ms as [ms|]; cbn; [destruct (strftime_utc W ms)|]; reflexivity.
Qed.

Lemma root_page_wiki_prefix_witness :
  _build_solr_query (Examples.world (Examples.always 200))
    (Some "xwiki:Help:Macros.WebHome") (Some "news") false None
  = Return ("(type:(" +:+ dq +:+ "DOCUMENT" +:+ dq +:+ ")) AND (hidden:false)"
            +:+ " AND (space:" +:+ dq +:+ "Help:Macros" +:+ dq +:+ ")",
            {[ "wiki" := "xwiki" ]}).
Proof.
  exact (root_page_wiki_prefix (Examples.world (Examples.always 200))
           "xwiki" "Help:Macros.WebHome" (Some "news") false None eq_refl).
Defined.

(** ** Search hits and their page links *)

(** X4. The choice of the page link.  [_load_page_data] takes the [href] of
    a link of the page relation that does not point into the translations,
    and never any other; it finds none exactly when the hit has no such
    link; entries that are no dicts are passed over; and over two lists of
    links one after the other, the first list wins. *)
Theorem page_link_choice (W : World) :
  (forall links : list Py.json,
      match find_page_rest_url W links with
      | Some url =>
          contains "/translations/" url = false
          /\ exists link, In (JDict link) links
                          /\ usable_link W link = true
                          /\ url = link_href W link
      | None =>
          forall link, In (JDict link) links -> usable_link W link = false
      end)
  /\ (forall first second : list Py.json,
         find_page_rest_url W (first ++ second)
         = match find_page_rest_url W first with
           | Some url => Some url
           | None => find_page_rest_url W second
           end).
Proof.
  split.
  - induction links as [|entry links IH]; [intros link []|].
    destruct entry as [| b | n | t | l | link];
      try (cbn [find_page_rest_url];
           destruct (find_page_rest_url W links) as [url|];
           [ destruct IH as (Hurl & link' & Hin & Hok & ->);
             split; [exact Hurl|]; exists link'; split; [now right | auto]
           | intros link' [Hin|Hin]; [discriminate Hin | now apply IH] ]).
    cbn [find_page_rest_url]. fold (link_href W link). fold page_rel.
    destruct (eq_str (dict_get "rel" link) page_rel
              && negb (contains "/translations/" (link_href W link))) eqn:Hok.
    + split.
      * apply andb_true_iff in Hok as [_ Hok]. now apply negb_true_iff in Hok.
      * exists link. split; [now left | split; [exact Hok | reflexivity]].
    + destruct (find_page_rest_url W links) as [url|].
      * destruct IH as (Hurl & link' & Hin & Hok' & ->).
        split; [exact Hurl|]. exists link'. split; [now right | auto].
      * intros link' [Hin|Hin]; [|now apply IH].
        injection Hin as <-. exact Hok.
  - intros first second. induction first as [|entry first IH]; [reflexivity|].
    destruct entry as [| b | n | t | l | link]; cbn [app find_page_rest_url];
      try exact IH.
    destruct (eq_str _ _ && negb _); [reflexivity | exact IH].
Qed.

(** X5. The shapes of the links entry.  A hit that carries its links as a
    list under [links], as a dict under [links] that holds the list under
    [link], or as a list under [link] with no [links] entry is resolved in
    the same way; and a hit with neither entry is dropped without any
    request. *)
Theorem links_entry_shapes (W : World) (self : XWikiClient) (st : NetState) :
  (forall (links : list Py.json) (d1 d2 d3 : list (string * Py.json)) entry rest,
      links = entry :: rest ->
      dict_get "links" d1 = JList links ->
      dict_get "links" d2 = JDict [("link", JList links)] ->
      truthy (dict_get "links" d3) = false ->
      dict_get "link" d3 = JList links ->
      load_page_after_language_filter W self d1 st
      = load_page_after_language_filter W self d2 st
      /\ load_page_after_language_filter W self d1 st
         = load_page_after_language_filter W self d3 st)
  /\ (forall d : list (string * Py.json),
         truthy (dict_get "links" d) = false ->
         truthy (dict_get "link" d) = false ->
         load_page_after_language_filter W self d st = (Return None, st)).
Proof.
  split.
  - intros links d1 d2 d3 entry rest -> H1 H2 H3 H3'.
    unfold load_page_after_language_filter.
    unfold por. rewrite H1, H2, H3, H3'.
    cbn [truthy dict_has assoc String.eqb Ascii.eqb Bool.eqb dict_get from_option
           Datatypes.id].
    split; reflexivity.
  - intros d H1 H2. unfold load_page_after_language_filter, por.
    rewrite H1, H2. reflexivity.
Qed.

Lemma links_entry_shapes_witness :
  load_page_after_language_filter
    (Examples.world (Examples.home_wiki [] 1704067200000)) Examples.client
    [("links", JList [JDict [("rel", JStr page_rel); ("href", JStr Examples.home_rest)]])]
    Examples.idle
  = load_page_after_language_filter
      (Examples.world (Examples.home_wiki [] 1704067200000)) Examples.client
      [("links", JDict [("link", JList [JDict [("rel", JStr page_rel);
                                               ("href", JStr Examples.home_rest)]])])]
      Examples.idle.
Proof.
  apply (proj1 (links_entry_shapes
                  (Examples.world (Examples.home_wiki [] 1704067200000))
                  Examples.client Examples.idle)
           [JDict [("rel", JStr page_rel); ("href", JStr Examples.home_rest)]]
           [("links", JList [JDict [("rel", JStr page_rel);
                                    ("href", JStr Examples.home_rest)]])]
           [("links", JDict [("link", JList [JDict [("rel", JStr page_rel);
                                                    ("href", JStr Examples.home_rest)]])])]
           [("link", JList [JDict [("rel", JStr page_rel);
                                   ("href", JStr Examples.home_rest)]])]
           _ _ eq_refl eq_refl eq_refl eq_refl eq_refl).
Defined.

(** ** The pages of a batch *)

Lemma load_pages_returns (W : World) (self : XWikiClient) (hits : list Py.json) :
  forall (st : NetState) (pages : list XWikiPage),
    fst (load_pages W self hits st) = Return pages ->
    forallb is_dict hits = true
    /\ (length pages <= length (List.filter hit_passes hits))%nat.
Proof.
  induction hits as [|hit hits IH]; intros st pages H.
  - injection H as <-. split; [reflexivity | apply Nat.le_refl].
  - cbn [load_pages] in H. unfold NetM.bind at 1 in H.
    destruct hit as [| b | n | t | l | d]; try discriminate H.
    destruct (_load_page_data W self (JDict d) st) as [[ref|e] st1] eqn:Hhit;
      [|discriminate H].
    unfold NetM.bind at 1 in H.
    destruct (load_pages W self hits st1) as [[refs|e] st2] eqn:Hrest;
      [|discriminate H].
    injection H as <-.
    destruct (IH st1 refs) as [Hdicts Hlen]; [now rewrite Hrest|].
    split; [exact Hdicts|].
    cbn [List.filter]. destruct (hit_passes (JDict d)) eqn:Hpass.
    + destruct ref; cbn [length]; lia.
    + rewrite (load_page_data_dropped W self d st Hpass) in Hhit.
      injection Hhit as <- <-. exact Hlen.
Qed.

Lemma query_pages_hits (W : World) (self : XWikiClient) (wiki : string)
    (root_page tag : option string) (index_recursively : bool)
    (since_ms : option Z) (start number : Z) (st : NetState)
    (pages : list XWikiPage) (raw_count : Z) :
  fst (query_pages W self wiki root_page tag index_recursively since_ms
         start number st) = Return (pages, raw_count) ->
  exists hits : list Py.json,
    raw_count = Z.of_nat (length hits)
    /\ forallb is_dict hits = true
    /\ (length pages <= length (List.filter hit_passes hits))%nat.
Proof.
  unfold query_pages. intros H.
  unfold NetM.bind at 1, NetM.lift at 1 in H.
  destruct (_build_solr_query W root_page tag index_recursively since_ms)
    as [[query extra_params]|e]; [|discriminate H].
  unfold NetM.bind at 1 in H.
  destruct (_request _ _ _ _ _ _ _ _ _ _) as [[response|e] st1]; [|discriminate H].
  unfold NetM.bind at 1, NetM.lift at 1 in H.
  destruct (NetM.json response) as [data|e]; [|discriminate H].
  unfold NetM.bind at 1 in H.
  match type of H with
  | context [load_pages W self ?l st1] => set (hits := l) in *
  end.
  destruct (load_pages W self hits st1) as [[refs|e] st2] eqn:Hload;
    [|discriminate H].
  injection H as <- <-. exists hits. split; [reflexivity|].
  apply (load_pages_returns W self hits st1 refs). now rewrite Hload.
Qed.

(** X6. The counts of a batch.  When [query_pages] returns, the raw count
    is not negative, and there are at most as many pages as raw hits. *)
Theorem query_pages_counts (W : World) (self : XWikiClient) (wiki : string)
    (root_page tag : option string) (index_recursively : bool)
    (since_ms : option Z) (start number : Z) (st : NetState)
    (pages : list XWikiPage) (raw_count : Z) :
  fst (query_pages W self wiki root_page tag index_recursively since_ms
         start number st) = Return (pages, raw_count) ->
  0 <= raw_count /\ Z.of_nat (length pages) <= raw_count.
Proof.
  intros H.
  destruct (query_pages_hits W self wiki root_page tag index_recursively
              since_ms start number st pages raw_count H)
    as (hits & -> & _ & Hlen).
  pose proof (filter_length_le hit_passes hits) as Hle.
  split; lia.
Qed.

Lemma query_pages_counts_witness :
  0 <= 1 /\ Z.of_nat (length [Examples.home_page 1704067200000]) <= 1.
Proof.
  apply (query_pages_counts
           (Examples.world (Examples.home_wiki [Examples.hit JNull] 1704067200000))
           Examples.client "xwiki" None None true None 0 10 Examples.idle).
  vm_compute. reflexivity.
Defined.

(** ** The record of requests *)

Lemma keeps_log_ret {A} (a : A) : keeps_log (ret a).
Proof. intros st. exists []. cbn. now rewrite app_nil_r. Qed.

Lemma keeps_log_raise {A} (e : exn) : keeps_log (@raise A e).
Proof. intros st. exists []. cbn. now rewrite app_nil_r. Qed.

Lemma keeps_log_lift {A} (m : Exc A) : keeps_log (lift m).
Proof. intros st. exists []. cbn. now rewrite app_nil_r. Qed.

Lemma keeps_log_bind {A B} (m : Net A) (k : A -> Net B) :
  keeps_log m -> (forall a, keeps_log (k a)) -> keeps_log (NetM.bind m k).
Proof.
  intros Hm Hk st. unfold NetM.bind. destruct (Hm st) as [more Hmore].
  destruct (m st) as [[a|e] st1]; cbn [snd] in Hmore.
  - destruct (Hk a st1) as [more' Hmore']. exists (more ++ more')%list.
    now rewrite Hmore', Hmore, app_assoc.
  - exists more. exact Hmore.
Qed.

Lemma keeps_log_retry_loop {A} (n : nat) (pause b m : Q) (call : Net A) :
  keeps_log call -> keeps_log (retry_loop n pause b m call).
Proof.
  intros Hcall. revert pause. induction n as [|n IH]; intros pause st.
  - rewrite retry_loop_last. apply Hcall.
  - rewrite retry_loop_step. destruct (Hcall st) as [more Hmore].
    destruct (call st) as [[a|e] st1]; cbn [snd] in *; [now exists more|].
    destruct (non_retryable e); [now exists more|].
    destruct (IH (Qred (Qmin (pause * b) m))
                {| sent := sent st1; slept := (slept st1 ++ [pause])%list |})
      as [more' Hmore'].
    exists (more ++ more')%list. rewrite Hmore'. cbn [sent].
    now rewrite Hmore, app_assoc.
Qed.

Lemma keeps_log_request (W : World) (self : XWikiClient) (method url : string)
    (headers : option (gmap string string))
    (params : option (list (string * Py.json)))
    (allow_status : option (gset Z)) (data json : option Py.json) :
  keeps_log (_request W self method url headers params allow_status data json).
Proof.
  intros st.
  pose proof (request_run W self method url headers params allow_status
                data json st) as Hrun.
  destruct (request_url W self url) as [target|e].
  - destruct Hrun as (k & pauses & _ & _ & ->).
    now exists (repeat (request_of self method target headers params data json) k).
  - destruct Hrun as [_ ->]. exists []. now rewrite app_nil_r.
Qed.

Ltac keeps_log_step :=
  first [ apply keeps_log_ret | apply keeps_log_raise | apply keeps_log_lift
        | apply keeps_log_request
        | apply keeps_log_retry_loop
        | apply keeps_log_bind; [|intros ?] ].

Lemma keeps_log_fetch_page_data (W : World) (self : XWikiClient) (page_url : string) :
  keeps_log (_fetch_page_data W self page_url).
Proof.
  unfold _fetch_page_data, retry_builder. apply keeps_log_retry_loop.
  destruct (negb (nonempty page_url)); repeat keeps_log_step.
Qed.

Lemma keeps_log_get_page_html (W : World) (self : XWikiClient)
    (page_url full_name : Py.json) :
  keeps_log (_get_page_html W self page_url full_name).
Proof.
  unfold _get_page_html, retry_builder. apply keeps_log_retry_loop.
  destruct page_url; repeat keeps_log_step.
Qed.

Lemma keeps_log_load_page_data (W : World) (self : XWikiClient) (document : Py.json) :
  keeps_log (_load_page_data W self document).
Proof.
  destruct document as [| b | n | t | l | d]; try apply keeps_log_raise.
  unfold _load_page_data.
  destruct (language_is_translation _); [apply keeps_log_ret|].
  unfold load_page_after_language_filter.
  destruct (find_page_rest_url W _) as [url|]; [|apply keeps_log_ret].
  destruct (negb (nonempty url)); [apply keeps_log_ret|].
  apply keeps_log_bind; [apply keeps_log_fetch_page_data|intros pageData].
  destruct (negb (truthy pageData)); [apply keeps_log_ret|].
  repeat first [ apply keeps_log_get_page_html | keeps_log_step ].
Qed.

Lemma keeps_log_load_pages (W : World) (self : XWikiClient) (hits : list Py.json) :
  keeps_log (load_pages W self hits).
Proof.
  induction hits as [|hit hits IH]; [apply keeps_log_ret|].
  cbn [load_pages].
  apply keeps_log_bind; [apply keeps_log_load_page_data|intros ref].
  apply keeps_log_bind; [exact IH|intros refs]. apply keeps_log_ret.
Qed.

(** [query_pages] from the search on: the request of the search, then
    steps that only add to the record. *)
Lemma query_pages_search (W : World) (self : XWikiClient) (wiki : string)
    (root_page tag : option string) (index_recursively : bool)
    (since_ms : option Z) (start number : Z) (st : NetState) :
  match _build_solr_query W root_page tag index_recursively since_ms with
  | Raise e =>
      query_pages W self wiki root_page tag index_recursively since_ms
        start number st = (Raise e, st)
  | Return (query, extra_params) =>
      exists rest : Response -> Net (list XWikiPage * Z),
        (forall response, keeps_log (rest response))
        /\ query_pages W self wiki root_page tag index_recursively since_ms
             start number st
           = NetM.bind
               (_request W self "GET" "rest/wikis/query"
                  (Some {[ "Accept" := "application/json" ]})
                  (Some (search_parameters query start number wiki
                           (extra_params !! "wiki")))
                  None None None)
               rest st
  end.
Proof.
  unfold query_pages, NetM.bind at 1, NetM.lift at 1.
  destruct (_build_solr_query W root_page tag index_recursively since_ms)
    as [[query extra_params]|e]; [|reflexivity].
  match goal with
  | |- context [_request W self "GET" "rest/wikis/query" ?h (Some ?p)] =>
      assert (Hp : p = search_parameters query start number wiki
                         (extra_params !! "wiki"))
  end.
  { unfold search_parameters, wikis_parameter.
    destruct (nonempty wiki) eqn:Hw; cbn [opt_truthy].
    - rewrite Hw. reflexivity.
    - destruct (extra_params !! "wiki") as [w|]; cbn [opt_truthy].
      + destruct (nonempty w); [reflexivity | now rewrite app_nil_r].
      + now rewrite app_nil_r. }
  rewrite Hp. clear Hp.
  eexists. split; cycle 1; [reflexivity|].
  intros response. apply keeps_log_bind; [apply keeps_log_lift|].
  intros data. apply keeps_log_bind; [apply keeps_log_load_pages|].
  intros refs. apply keeps_log_ret.
Qed.

(** X7. The search comes first.  When the query cannot be built,
    [query_pages] raises the builder's error and sends nothing.  Otherwise
    the first request it adds to the record is the search: a GET of
    [rest/wikis/query], joined to the base URL, for JSON with the query,
    the offset and the batch size, ordered by date, limited to the
    connector's wiki when it names one and else to the wiki prefix of the
    root page, when that is not empty; what follows stays behind it.
    Where the join to the base URL raises, [query_pages] raises that error
    and sends nothing. *)
Theorem search_request_first (W : World) (self : XWikiClient) (wiki : string)
    (root_page tag : option string) (index_recursively : bool)
    (since_ms : option Z) (start number : Z) (st : NetState) :
  match _build_solr_query W root_page tag index_recursively since_ms with
  | Raise e =>
      query_pages W self wiki root_page tag index_recursively since_ms
        start number st = (Raise e, st)
  | Return (query, extra_params) =>
      match request_url W self "rest/wikis/query" with
      | Return target =>
          exists more : list Request,
            sent (snd (query_pages W self wiki root_page tag index_recursively
                         since_ms start number st))
            = (sent st
               ++ request_of self "GET" target
                    (Some {[ "Accept" := "application/json" ]})
                    (Some (search_parameters query start number wiki
                             (extra_params !! "wiki")))
                    None None
               :: more)%list
      | Raise e =>
          fst (query_pages W self wiki root_page tag index_recursively
                 since_ms start number st) = Raise e
          /\ sent (snd (query_pages W self wiki root_page tag index_recursively
                          since_ms start number st)) = sent st
      end
  end.
Proof.
  pose proof (query_pages_search W self wiki root_page tag index_recursively
                since_ms start number st) as Hsearch.
  destruct (_build_solr_query W root_page tag index_recursively since_ms)
    as [[query extra_params]|e]; [|exact Hsearch].
  destruct Hsearch as (rest & Hrest & ->).
  set (params := search_parameters _ _ _ _ _).
  pose proof (request_run W self "GET" "rest/wikis/query"
                (Some {[ "Accept" := "application/json" ]}) (Some params) None
                None None st) as Hrun.
  unfold NetM.bind.
  destruct (request_url W self "rest/wikis/query") as [target|e].
  - destruct Hrun as (k & pauses & Hk & _ & Hrun).
    destruct (_request _ _ _ _ _ _ _ _ _ st) as [[response|e] st1];
      cbn [snd] in Hrun; subst st1.
    + destruct (Hrest response
                  (after st
                     (request_of self "GET" target
                        (Some {[ "Accept" := "application/json" ]})
                        (Some params) None None) k pauses)) as [more Hmore].
      rewrite Hmore. unfold after. cbn [sent].
      destruct k as [|k]; [lia|]. cbn [repeat].
      exists (repeat (request_of self "GET" target
                        (Some {[ "Accept" := "application/json" ]})
                        (Some params) None None) k ++ more)%list.
      now rewrite <- app_assoc.
    + cbn [snd]. unfold after. cbn [sent].
      destruct k as [|k]; [lia|]. cbn [repeat]. eauto.
  - destruct Hrun as [Hraise Hsent].
    destruct (_request _ _ _ _ _ _ _ _ _ st) as [[response|e'] st1];
      cbn [fst snd] in *; [discriminate Hraise|].
    injection Hraise as Heq. subst e'. split; [reflexivity | exact Hsent].
Qed.

(** ** The attachments of a page *)

(** X8. The attachment list of a page.  Page data that is no dict, or has
    no list under [attachments], has no attachments, without an error.
    Otherwise [_list_attachments] either returns one attachment for every
    entry that is a dict with a name, or raises the error with which
    [XWikiAttachment] refused one of these entries; entries without a name
    and entries that are no dicts never make it fail. *)
Theorem list_attachments_outcome (W : World) (data : Py.json) :
  match attachment_entries data with
  | None => _list_attachments W data = Return []
  | Some entries =>
      match _list_attachments W data with
      | Return attachments =>
          length attachments = length (List.filter named_entry entries)
      | Raise e =>
          exists entry : list (string * Py.json),
            In (JDict entry) entries
            /\ named_entry (JDict entry) = true
            /\ XWikiAttachment_init W
                 (str (repr_container W) (dict_get "name" entry))
                 (dict_get "size" entry) (dict_get "mimeType" entry)
                 (por (dict_get "xwikiAbsoluteUrl" entry)
                      (dict_get "download" entry))
                 (dict_get "version" entry) (dict_get "digest" entry)
               = Raise e
      end
  end.
Proof.
  destruct data as [| b | n | t | l | d]; try reflexivity.
  cbn [attachment_entries _list_attachments].
  destruct d as [|kv d]; [reflexivity|].
  destruct (assoc "attachments" (kv :: d)) as [[| b | n | t | entries | d']|];
    try reflexivity.
  induction entries as [|entry entries IH]; [reflexivity|].
  destruct entry as [| b | n | t | l | entry]; cbn [List.filter named_entry];
    try (destruct (_ entries) as [attachments|e] in IH |- *;
         [exact IH | destruct IH as (entry' & Hin & Hrest);
                     exists entry'; split; [now right | exact Hrest]]).
  destruct (truthy (dict_get "name" entry)) eqn:Hname; cbn [negb].
  - destruct (XWikiAttachment_init W _ _ _ _ _ _) as [attachment|e] eqn:Hinit;
      cbn [exc_bind].
    + destruct (_ entries) as [attachments|e] in IH |- *; cbn [exc_bind].
      * cbn [length]. now rewrite IH.
      * destruct IH as (entry' & Hin & Hrest).
        exists entry'. split; [now right | exact Hrest].
    + exists entry. split; [now left|]. split; [exact Hname | exact Hinit].
  - destruct (_ entries) as [attachments|e] in IH |- *;
      [exact IH | destruct IH as (entry' & Hin & Hrest);
                  exists entry'; split; [now right | exact Hrest]].
Qed.

(** ** The content URL of a page *)

Lemma contains_no_prefix (sub s : string) :
  contains sub s = false -> String.prefix sub s = false.
Proof. destruct s; cbn [contains]; intros H; now apply orb_false_iff in H. Qed.

Lemma contains_tail (sub : string) (c : ascii) (s : string) :
  contains sub (String c s) = false -> contains sub s = false.
Proof. cbn [contains]. intros H. now apply orb_false_iff in H. Qed.

Lemma prefix_append (old rest : string) : String.prefix old (old +:+ rest) = true.
Proof.
  induction old as [|c old IH]; [now destruct rest|].
  simpl. now destruct (ascii_dec c c).
Qed.

Lemma prefix_split (old s : string) :
  String.prefix old s = true -> exists rest, s = old +:+ rest.
Proof.
  revert s. induction old as [|c old IH]; intros s H; [now exists s|].
  destruct s as [|x s]; [discriminate H|]. simpl in H.
  destruct (ascii_dec c x) as [<-|]; [|discriminate H].
  destruct (IH s H) as [rest ->]. now exists rest.
Qed.

Lemma substring_over (m : nat) (p : string) :
  (String.length p <= m)%nat -> substring 0 m p = p.
Proof.
  revert m. induction p as [|c p IH]; intros m H; [now destruct m|].
  destruct m as [|m]; [simpl in H; lia|]. simpl. rewrite IH; [reflexivity|].
  simpl in H. lia.
Qed.

Lemma replace_go_skip (old new a rest : string) :
  replace_go old new (String.length a) (a +:+ rest) = replace_go old new 0 rest.
Proof.
  induction a as [|c a IH]; [|exact IH].
  destruct rest; reflexivity.
Qed.

(** An occurrence at the head of the text is replaced. *)
Lemma replace_head (c : ascii) (a new rest : string) :
  replace (String c a) new (String c a +:+ rest)
  = new +:+ replace (String c a) new rest.
Proof.
  unfold replace. change (String c a +:+ rest) with (String c (a +:+ rest)).
  cbn [replace_go].
  change (String c (a +:+ rest)) with (String c a +:+ rest).
  rewrite prefix_append.
  replace (String.length (String c a) - 1)%nat with (String.length a)
    by (cbn [String.length]; lia).
  now rewrite replace_go_skip.
Qed.

(** Text in which [old] does not occur is left as it is. *)
Lemma replace_absent (old new s : string) :
  contains old s = false -> replace old new s = s.
Proof.
  unfold replace. induction s as [|c s IH]; intros H; [reflexivity|].
  cbn [replace_go]. rewrite (contains_no_prefix _ _ H).
  now rewrite (IH (contains_tail _ _ _ H)).
Qed.

(** The text before the first occurrence is passed over. *)
Lemma replace_past (old new head rest : string) :
  (forall x y, head = x +:+ y -> y <> EmptyString ->
               String.prefix old (y +:+ rest) = false) ->
  replace old new (head +:+ rest) = head +:+ replace old new rest.
Proof.
  unfold replace. induction head as [|c head IH]; intros H; [reflexivity|].
  change (String c head +:+ rest) with (String c (head +:+ rest)).
  cbn [replace_go].
  change (String c (head +:+ rest)) with (String c head +:+ rest).
  rewrite (H EmptyString (String c head) eq_refl); [|discriminate].
  cbn [String.append]. f_equal. apply IH. intros x y -> Hy.
  apply (H (String c x) y eq_refl Hy).
Qed.

Lemma replace_first_head (old new rest : string) :
  old <> EmptyString ->
  replace_first old new (old +:+ rest) = new +:+ rest.
Proof.
  intros Hold. destruct old as [|c a]; [congruence|].
  change (String c a +:+ rest) with (String c (a +:+ rest)).
  cbn [replace_first].
  change (String c (a +:+ rest)) with (String c a +:+ rest).
  rewrite prefix_append, substring_skip, substring_over; [reflexivity|].
  rewrite length_append. lia.
Qed.

Lemma replace_first_absent (old new s : string) :
  contains old s = false -> replace_first old new s = s.
Proof.
  induction s as [|c s IH]; intros H; [reflexivity|].
  cbn [replace_first]. rewrite (contains_no_prefix _ _ H).
  now rewrite (IH (contains_tail _ _ _ H)).
Qed.

Lemma replace_first_past (old new head rest : string) :
  (forall x y, head = x +:+ y -> y <> EmptyString ->
               String.prefix old (y +:+ rest) = false) ->
  replace_first old new (head +:+ rest) = head +:+ replace_first old new rest.
Proof.
  induction head as [|c head IH]; intros H; [reflexivity|].
  change (String c head +:+ rest) with (String c (head +:+ rest)).
  cbn [replace_first].
  change (String c (head +:+ rest)) with (String c head +:+ rest).
  rewrite (H EmptyString (String c head) eq_refl); [|discriminate].
  cbn [String.append]. f_equal. apply IH. intros x y -> Hy.
  apply (H (String c x) y eq_refl Hy).
Qed.

(** Replacing an occurrence by itself changes nothing. *)
Lemma replace_first_same (old s : string) : replace_first old old s = s.
Proof.
  induction s as [|c s IH]; [reflexivity|].
  cbn [replace_first]. destruct (String.prefix old (String c s)) eqn:Hp.
  - destruct (prefix_split _ _ Hp) as [rest E]. rewrite E.
    rewrite substring_skip, substring_over; [reflexivity|].
    rewrite length_append. lia.
  - now rewrite IH.
Qed.

Lemma contains_suffix (sub x y : string) :
  contains sub (x +:+ y) = false -> contains sub y = false.
Proof.
  induction x as [|c x IH]; [auto|].
  intros H. apply IH. exact (contains_tail _ _ _ H).
Qed.

(** Case analysis on the characters of a text against a literal. *)
Ltac no_overlap :=
  repeat
    (cbn [String.prefix String.append] in *;
     try discriminate; try reflexivity;
     match goal with
     | |- context [ascii_dec ?a ?b] =>
         destruct (ascii_dec a b) as [<-|_]; [|reflexivity]
     end;
     match goal with
     | H : context [String.prefix _ ?y] |- _ => is_var y; destruct y
     end).

Lemma early_bin_view (head tail : string) :
  contains "/bin/view" head = false ->
  forall x y, head = x +:+ y -> y <> EmptyString ->
    String.prefix "/bin/view/" (y +:+ "/bin/view/" +:+ tail) = false.
Proof.
  intros H x y -> Hy. apply contains_suffix, contains_no_prefix in H.
  destruct y as [|c y]; [congruence|]. clear Hy. no_overlap.
Qed.

Lemma early_view (head tail : string) :
  contains "/view" head = false ->
  forall x y, head = x +:+ y -> y <> EmptyString ->
    String.prefix "/view/" (y +:+ "/view/" +:+ tail) = false.
Proof.
  intros H x y -> Hy. apply contains_suffix, contains_no_prefix in H.
  destruct y as [|c y]; [congruence|]. clear Hy. no_overlap.
Qed.

(** X9. From the view URL to the content URL, for a view URL that is a
    text and that [urlsplit] takes.  A path with [/bin/view/] at one place,
    whose outcome holds no [/wiki/], becomes the same path with [/bin/get/]
    there; a path with [/wiki/] and no [/bin/view/] gets [/get/] in place
    of its first [/view/]; a path with neither [/bin/view/] nor [/wiki/] is
    kept.  In each case scheme and host are kept and the query and fragment
    of the view URL give way to the fixed query of the content view. *)
Theorem view_url_to_get_url (W : World) (view_url head tail : string)
    (parts : SplitResult) :
  urlsplit W view_url = Return parts ->
  (path parts = head +:+ "/bin/view/" +:+ tail ->
   contains "/bin/view" head = false ->
   contains "/bin/view/" tail = false ->
   contains "/wiki/" (head +:+ "/bin/get/" +:+ tail) = false ->
   resolve_page_content_url W (JStr view_url)
   = Return (scheme parts +:+ "://" +:+ netloc parts
             +:+ (head +:+ "/bin/get/" +:+ tail) +:+ "?" +:+ content_query))
  /\ (path parts = head +:+ "/view/" +:+ tail ->
      contains "/view" head = false ->
      contains "/bin/view/" (path parts) = false ->
      contains "/wiki/" (path parts) = true ->
      resolve_page_content_url W (JStr view_url)
      = Return (scheme parts +:+ "://" +:+ netloc parts
                +:+ (head +:+ "/get/" +:+ tail) +:+ "?" +:+ content_query))
  /\ (contains "/bin/view/" (path parts) = false ->
      contains "/wiki/" (path parts) = false ->
      resolve_page_content_url W (JStr view_url)
      = Return (scheme parts +:+ "://" +:+ netloc parts
                +:+ path parts +:+ "?" +:+ content_query)).
Proof.
  intros Hsplit. unfold resolve_page_content_url. rewrite Hsplit.
  cbn [exc_bind].
  split; [|split].
  - intros -> Hhead Htail Hwiki.
    rewrite (replace_past _ _ head), (replace_head "/"%char "bin/view/"),
      (replace_absent _ _ tail Htail) by now apply early_bin_view.
    now rewrite Hwiki.
  - intros Hpath Hhead Hflat Hwiki.
    rewrite (replace_absent _ _ _ Hflat), Hwiki, replace_first_same, Hpath.
    rewrite (replace_first_past _ _ head), replace_first_head
      by (discriminate || now apply early_view).
    reflexivity.
  - intros Hflat Hwiki. now rewrite (replace_absent _ _ _ Hflat), Hwiki.
Qed.

Lemma view_url_to_get_url_witness :
  resolve_page_content_url (Examples.world (Examples.home_wiki [] 0))
    (JStr "https://wiki.example.org/xwiki/bin/view/Main/WebHome?language=en")
  = Return "https://wiki.example.org/xwiki/bin/get/Main/WebHome?xpage=plain&viewer=content&outputSyntax=html".
Proof.
  apply (proj1 (view_url_to_get_url (Examples.world (Examples.home_wiki [] 0))
                  "https://wiki.example.org/xwiki/bin/view/Main/WebHome?language=en"
                  "/xwiki" "Main/WebHome"
                  {| scheme := "https"; netloc := "wiki.example.org";
                     path := "/xwiki/bin/view/Main/WebHome" |} eq_refl));
    reflexivity.
Defined.

(** ** The storage key of an image *)

Lemma contains_subst_char (d c : ascii) (s : string) :
  d <> "_"%char ->
  contains (String d EmptyString) (subst_char c "_" s)
  = negb (Ascii.eqb d c) && contains (String d EmptyString) s.
Proof.
  intros Hd. induction s as [|x s IH]; [now rewrite andb_false_r|].
  cbn [subst_char]. rewrite contains_char_append, IH, contains_char_cons.
  destruct (Ascii.eqb_spec x c) as [->|Hxc];
    rewrite contains_char_cons, contains_char_nil.
  - destruct (Ascii.eqb_spec "_" d); [congruence|].
    destruct (Ascii.eqb_spec d c), (Ascii.eqb_spec c d); try congruence;
      reflexivity.
  - destruct (Ascii.eqb_spec x d), (Ascii.eqb_spec d c); try congruence;
      reflexivity.
Qed.

Lemma storage_file_id_form (page_ref : XWikiPage) (attachment : XWikiAttachment)
    (page_name : string) :
  full_name page_ref = JStr page_name ->
  _make_storage_file_id page_ref attachment
  = Return ("xwiki-" +:+ sanitized (page_name +:+ "-" +:+ name attachment)).
Proof.
  intros Hname. unfold _make_storage_file_id, sanitized. rewrite Hname.
  rewrite !replace_char. now rewrite !subst_char_append.
Qed.

(** X10. The storage key of an image, for pages whose name is a text.  The
    key holds neither a colon nor a slash.  Two attachments get the same
    key exactly when the page name, a hyphen and the file name, read with
    every colon and slash as an underscore, give the same text: so pages
    and files whose names differ only in these characters, or in where the
    hyphen falls, share a key.  A page whose name is no text has no key:
    the call raises an [AttributeError]. *)
Theorem storage_file_id_collisions :
  (forall (page_ref : XWikiPage) (attachment : XWikiAttachment) (key : string),
      _make_storage_file_id page_ref attachment = Return key ->
      contains ":" key = false /\ contains "/" key = false)
  /\ (forall (p q : XWikiPage) (x y : XWikiAttachment) (p_name q_name : string),
         full_name p = JStr p_name ->
         full_name q = JStr q_name ->
         _make_storage_file_id p x = _make_storage_file_id q y
         <-> sanitized (p_name +:+ "-" +:+ name x)
             = sanitized (q_name +:+ "-" +:+ name y))
  /\ (forall (page_ref : XWikiPage) (attachment : XWikiAttachment),
         match full_name page_ref with
         | JStr _ => exists key, _make_storage_file_id page_ref attachment = Return key
         | other =>
             _make_storage_file_id page_ref attachment
             = Raise (Exn AttributeError
                        ("'" +:+ type_name other
                         +:+ "' object has no attribute 'replace'"))
         end).
Proof.
  split; [|split].
  - intros page_ref attachment key Hkey.
    destruct (full_name page_ref) as [| | |page_name| |] eqn:Hname;
      try (unfold _make_storage_file_id in Hkey; rewrite Hname in Hkey;
           discriminate Hkey).
    rewrite (storage_file_id_form _ _ _ Hname) in Hkey.
    assert (Hclean : forall t : string,
               contains ":" ("xwiki-" +:+ sanitized t) = false
               /\ contains "/" ("xwiki-" +:+ sanitized t) = false).
    { intros t. unfold sanitized.
      split; rewrite contains_char_append, !contains_subst_char by discriminate;
        reflexivity. }
    injection Hkey as <-. apply Hclean.
  - intros p q x y p_name q_name Hp Hq.
    rewrite (storage_file_id_form _ _ _ Hp), (storage_file_id_form _ _ _ Hq).
    split; [|now intros ->].
    intros H. injection H as H. exact H.
  - intros page_ref attachment. unfold _make_storage_file_id.
    destruct (full_name page_ref); eauto.
Qed.

Lemma storage_file_id_collisions_witness :
  _make_storage_file_id (Examples.home_page 0)
    (Examples.attachment "a:b.png" None None)
  = _make_storage_file_id (Examples.home_page 0)
      (Examples.attachment "a/b.png" None None).
Proof.
  apply (proj1 (proj2 storage_file_id_collisions)
           (Examples.home_page 0) (Examples.home_page 0)
           (Examples.attachment "a:b.png" None None)
           (Examples.attachment "a/b.png" None None)
           "Main.WebHome" "Main.WebHome" eq_refl eq_refl).
  reflexivity.
Defined.

(** ** Downloads and payloads of attachments *)

Section AttachmentNetwork.

Context (W : World) (D : Deps).

(** X11. When an attachment is downloaded.  [process_attachment] leaves
    the record of requests as it was exactly when the file type is not
    supported, or the download URL cannot be formed, or the media type
    starts with [image/] and images are off, or the media type does not
    start with [image/] and the declared size is not zero and above the
    threshold.  In every other case it sends a request: a missing size, a
    size of zero and any size of an image do not hold the download back. *)
Theorem download_attempted_iff (client : XWikiClient) (page_ref : XWikiPage)
    (attachment : XWikiAttachment) (allow_images : bool) (st : NetState) :
  let media_type := default EmptyString (mime_type attachment) in
  sent (snd (process_attachment W D client page_ref attachment allow_images st))
  = sent st
  <-> validate_attachment_filetype D attachment = false
      \/ (exists e, attachment_download_url W client attachment = Raise e)
      \/ (startswith "image/" media_type = true /\ allow_images = false)
      \/ (startswith "image/" media_type = false
          /\ exists declared,
               size attachment = Some declared /\ declared <> 0
               /\ XWIKI_ATTACHMENT_SIZE_THRESHOLD D < declared).
Proof.
  intros media_type.
  pose proof (process_attachment_download W D client page_ref attachment
                allow_images st) as Hrun.
  cbv zeta in Hrun. fold media_type in Hrun.
  destruct (validate_attachment_filetype D attachment); cbn [negb orb] in Hrun.
  2:{ rewrite Hrun. split; auto. }
  destruct (attachment_download_url W client attachment) as [download_url|e]
    eqn:Hurl; cbn [orb] in Hrun.
  2:{ rewrite Hrun. split; eauto. }
  pose proof (download_attachment_sends W client attachment download_url Hurl st)
    as Hsends.
  destruct (startswith "image/" media_type).
  - destruct allow_images; cbn [negb] in Hrun; rewrite Hrun.
    + split.
      * intros H. rewrite H in Hsends. lia.
      * intros [H|[[e H]|[[_ H]|[H _]]]]; discriminate H.
    + split; auto.
  - destruct (size attachment) as [declared|];
      cbn [default from_option Datatypes.id] in Hrun.
    + destruct (declared =? 0) eqn:H0; cbn [negb andb] in Hrun.
      * apply Z.eqb_eq in H0. rewrite Hrun. split.
        -- intros H. rewrite H in Hsends. lia.
        -- intros [H|[[e H]|[[H _]|(_ & d & Hd & Hne & _)]]]; try discriminate H.
           injection Hd as <-. contradiction.
      * apply Z.eqb_neq in H0.
        destruct (declared >? XWIKI_ATTACHMENT_SIZE_THRESHOLD D) eqn:Hbig;
          rewrite Hrun.
        -- apply Z.gtb_lt in Hbig. split; [|reflexivity]. intros _.
           right; right; right. split; [reflexivity|]. exists declared. auto.
        -- rewrite Z.gtb_ltb in Hbig. apply Z.ltb_ge in Hbig. split.
           ++ intros H. rewrite H in Hsends. lia.
           ++ intros [H|[[e H]|[[H _]|(_ & d & Hd & _ & Hlt)]]];
                try discriminate H.
              injection Hd as <-. lia.
    + cbn [Z.eqb negb andb] in Hrun. rewrite Hrun. split.
      * intros H. rewrite H in Hsends. lia.
      * intros [H|[[e H]|[[H _]|(_ & d & Hd & _)]]]; discriminate.
Qed.

(** X12. Where a payload comes from.  An image section in the result is
    what the image store returned for the downloaded, non-empty bytes under
    the storage key, the file name, the download URL and the media type as
    declared, which starts with [image/] in lower case and is a valid image
    type; images are then allowed, and the fallback media type is never
    used.  A text in the result is not empty, within the character
    threshold, and is what the extractor returned for the downloaded,
    non-empty bytes of a supported file whose media type does not start
    with [image/] and whose declared size is zero, missing or within the
    size threshold. *)
Theorem attachment_payload_provenance (client : XWikiClient) (page_ref : XWikiPage)
    (attachment : XWikiAttachment) (allow_images : bool) (st : NetState)
    (result : AttachmentProcessingResult D) :
  fst (process_attachment W D client page_ref attachment allow_images st)
  = Return result ->
  (forall section : ImageSection D,
      image_section result = Some section ->
      allow_images = true
      /\ exists (media_type download_url file_id : string)
                (raw_bytes : list Byte.byte),
           mime_type attachment = Some media_type
           /\ startswith "image/" media_type = true
           /\ is_valid_image_type D (lower media_type) = true
           /\ attachment_download_url W client attachment = Return download_url
           /\ _make_storage_file_id page_ref attachment = Return file_id
           /\ raw_bytes <> []
           /\ fst (download_attachment W client attachment st) = Return raw_bytes
           /\ store_image_and_create_section D raw_bytes file_id
                (name attachment) download_url media_type
              = Return section)
  /\ (forall text : string,
         Utils.text result = Some text ->
         text <> EmptyString
         /\ Z.of_nat (String.length text) <= XWIKI_ATTACHMENT_CHAR_COUNT_THRESHOLD D
         /\ validate_attachment_filetype D attachment = true
         /\ startswith "image/" (default EmptyString (mime_type attachment)) = false
         /\ (default 0 (size attachment) = 0
             \/ default 0 (size attachment) <= XWIKI_ATTACHMENT_SIZE_THRESHOLD D)
         /\ exists raw_bytes : list Byte.byte,
              raw_bytes <> []
              /\ fst (download_attachment W client attachment st) = Return raw_bytes
              /\ extract_file_text D raw_bytes (name attachment) = Return text).
Proof.
  intros Hrun.
  destruct (process_attachment_cases W D client page_ref attachment allow_images st)
    as [(e & _ & _ & Hraise) | (result' & st' & Hrun' & _ & Hcases)].
  { rewrite Hraise in Hrun. discriminate Hrun. }
  rewrite Hrun' in Hrun. injection Hrun as <-.
  destruct Hcases as [[reason ->] | [(image & -> & Hallow & Himage)
                                    | (extracted & -> & Htext)]].
  - split; intros ? H; discriminate H.
  - split; [|intros ? H; discriminate H].
    intros section H. injection H as <-. split; [exact Hallow | exact Himage].
  - split; [intros ? H; discriminate H|].
    intros text H. cbn [Utils.text result_text] in H.
    destruct extracted as [|c extracted]; [discriminate H|].
    cbn [nonempty] in H. injection H as <-.
    destruct Htext as (Hlen & Hvalid & Himg & Hsize & _ & Hraw).
    split; [discriminate|]. auto.
Qed.

End AttachmentNetwork.

Lemma attachment_payload_provenance_witness :
  "text" <> EmptyString
  /\ Z.of_nat (String.length "text") <= 200000
  /\ validate_attachment_filetype (Examples.deps Examples.decode)
       (Examples.attachment "notes.txt" (Some 4) (Some "text/plain")) = true
  /\ startswith "image/" "text/plain" = false
  /\ (4 = 0 \/ 4 <= 10485760)
  /\ exists raw_bytes : list Byte.byte,
       raw_bytes <> []
       /\ fst (download_attachment
                 (Examples.world (Examples.file_wiki "notes.txt" "text"))
                 Examples.client
                 (Examples.attachment "notes.txt" (Some 4) (Some "text/plain"))
                 Examples.idle) = Return raw_bytes
       /\ Examples.decode raw_bytes "notes.txt" = Return "text".
Proof.
  apply (proj2 (attachment_payload_provenance
                  (Examples.world (Examples.file_wiki "notes.txt" "text"))
                  (Examples.deps Examples.decode) Examples.client
                  (Examples.home_page 1704067200000)
                  (Examples.attachment "notes.txt" (Some 4) (Some "text/plain"))
                  false Examples.idle
                  (result_text (Examples.deps Examples.decode) (Some "text"))
                  eq_refl) "text" eq_refl).
Defined.

(** ** The documents of a page *)

Section PageTheory.

Context (W : World) (D : Deps) (K : Clock).

(** The loop over the attachments never raises; each section it adds comes
    from one of the attachments. *)
Lemma attachment_sections_run (client : XWikiClient) (page : XWikiPage)
    (allow_images : bool) (attachments : list XWikiAttachment) :
  forall (sections : list (DocSection D)) (st : NetState),
  exists extra : list (DocSection D),
    fst (append_attachment_sections W D client page allow_images attachments
           sections st) = Return (sections ++ extra)%list
    /\ (length extra <= length attachments)%nat
    /\ Forall (fun section =>
                 exists attachment,
                   In attachment attachments
                   /\ section_of_attachment W client allow_images page
                        attachment section) extra.
Proof.
  assert (Hlater : forall (attachment : XWikiAttachment)
                          (attachments : list XWikiAttachment)
                          (extra : list (DocSection D)),
             Forall (fun section =>
                       exists a,
                         In a attachments
                         /\ section_of_attachment W client allow_images page
                              a section) extra ->
             Forall (fun section =>
                       exists a,
                         In a (attachment :: attachments)
                         /\ section_of_attachment W client allow_images page
                              a section) extra).
  { intros attachment rest extra Hall. eapply Forall_impl; [exact Hall|].
    intros section (a & Hin & Hsec). exists a. split; [now right | exact Hsec]. }
  induction attachments as [|attachment attachments IH]; intros sections st.
  - exists []. cbn. rewrite app_nil_r. auto.
  - cbn [append_attachment_sections]. unfold NetM.bind at 1, attempt.
    destruct (process_attachment_cases W D client page attachment allow_images st)
      as [(e & _ & _ & ->) | (result & st' & -> & _ & Hcases)].
    { exists []. rewrite app_nil_r. split; [reflexivity|].
      split; [cbn [length]; lia | constructor]. }
    destruct Hcases as [[reason ->] | [(image & -> & Hallow & Himage)
                                      | (text & -> & Htext)]];
      cbn [Utils.text image_section result_error result_image result_text opt_truthy].
    + destruct (IH sections st') as (extra & -> & Hlen & Hall).
      exists extra. split; [reflexivity|]. split; [cbn [length]; lia|].
      now apply Hlater.
    + destruct (IH (sections ++ [ImageSectionOf D image])%list st')
        as (extra & -> & Hlen & Hall).
      exists (ImageSectionOf D image :: extra). rewrite <- app_assoc.
      split; [reflexivity|]. split; [cbn [length]; lia|].
      constructor; [|now apply Hlater].
      exists attachment. split; [now left|]. split; [exact Hallow|].
      destruct Himage as (media_type & download_url & file_id & raw_bytes
                          & Hmime & Himg & Hvalid & Hurl & Hkey & Hraw & Hget
                          & Hstore).
      exists media_type, download_url, file_id, st, raw_bytes. auto 10.
    + destruct text as [|c text]; cbn [nonempty opt_truthy].
      * destruct (IH sections st') as (extra & -> & Hlen & Hall).
        exists extra. split; [reflexivity|]. split; [cbn [length]; lia|].
        now apply Hlater.
      * cbn [default from_option Datatypes.id].
        destruct Htext as (Hlen' & Hvalid & Himg & Hsize & [download_url Hurl]
                           & raw_bytes & Hraw & Hget & Hx).
        rewrite Hurl. cbn [exc_bind].
        destruct (IH (sections
                      ++ [TextSection D (String c text) (JStr download_url)])%list
                    st')
          as (extra & -> & Hlen & Hall).
        eexists (_ :: extra). rewrite <- app_assoc.
        split; [reflexivity|]. split; [cbn [length]; lia|].
        constructor; [|now apply Hlater].
        exists attachment. split; [now left|].
        split; [discriminate|]. split; [exact Hlen'|]. split; [exact Hvalid|].
        split; [exact Himg|]. split; [eauto|].
        exists st, raw_bytes. auto.
Qed.

Lemma process_xwiki_page_run (client : XWikiClient) (page : XWikiPage)
    (allow_images : bool) (st : NetState) :
  exists (extra : list (DocSection D)) (st' : NetState),
    process_xwiki_page W D K client page allow_images st
    = (match doc_updated K (modified_ms page) with
       | Return updated =>
           Return {| doc_id := id page;
                     source := XWIKI;
                     title := full_name page;
                     semantic_identifier := full_name page;
                     sections :=
                       TextSection D (content page) (page_url page) :: extra;
                     metadata := {[ "name" := full_name page ]};
                     doc_updated_at := updated |}
       | Raise e => Raise e
       end, st')
    /\ (length extra <= length (attachments page))%nat
    /\ Forall (attachment_section W client allow_images page) extra.
Proof.
  unfold process_xwiki_page, NetM.bind, lift. cbv zeta.
  destruct (attachment_sections_run client page allow_images (attachments page)
              [TextSection D (content page) (page_url page)] st)
    as (extra & Hrun & Hlen & Hall).
  destruct (append_attachment_sections W D client page allow_images
              (attachments page) [TextSection D (content page) (page_url page)] st)
    as [[sections|e] st'];
    cbn [fst] in Hrun; [|discriminate Hrun].
  injection Hrun as ->. exists extra, st'.
  destruct (doc_updated K (modified_ms page)); auto.
Qed.

(** X13. The document of a page.  [process_xwiki_page] raises exactly
    when the modification time of the page is no timestamp, with the error
    of the division or of the conversion; no attachment makes it fail.
    Otherwise the document has the id and the name of the page as the page
    holds them, the text of the page as its first section, and after it at
    most one section for each attachment: a text that is not empty with
    the download URL of an attachment of the page, or an image section, and
    that only when images are allowed; each comes from the downloaded bytes
    of that attachment. *)
Theorem page_document_outcome (client : XWikiClient) (page : XWikiPage)
    (allow_images : bool) (st : NetState) :
  match doc_updated K (modified_ms page) with
  | Raise e =>
      fst (process_xwiki_page W D K client page allow_images st) = Raise e
  | Return updated =>
      exists extra : list (DocSection D),
        fst (process_xwiki_page W D K client page allow_images st)
        = Return {| doc_id := id page;
                    source := XWIKI;
                    title := full_name page;
                    semantic_identifier := full_name page;
                    sections :=
                      TextSection D (content page) (page_url page) :: extra;
                    metadata := {[ "name" := full_name page ]};
                    doc_updated_at := updated |}
        /\ (length extra <= length (attachments page))%nat
        /\ Forall (attachment_section W client allow_images page) extra
  end.
Proof.
  destruct (process_xwiki_page_run client page allow_images st)
    as (extra & st' & -> & Hlen & Hall).
  destruct (doc_updated K (modified_ms page)) as [updated|e];
    [|reflexivity].
  exists extra. auto.
Qed.

End PageTheory.

(** ** What a run yields and returns *)

Lemma batch_max_ge (since_ms : option Z) (pages : list XWikiPage) :
  default 0 since_ms <= batch_max since_ms pages.
Proof.
  unfold batch_max. induction pages as [|page pages IH]; cbn [map fold_right]; lia.
Qed.

Section RunOutcomes.

Context (W : World) (D : Deps) (K : Clock).

Lemma successes_length {Doc : Type} (outcomes : list (Exc Doc)) :
  (length (successes outcomes) <= length outcomes)%nat.
Proof.
  induction outcomes as [|[doc|e] outcomes IH]; cbn [successes length]; lia.
Qed.

Lemma yielded_documents (client : XWikiClient) (allow_images : bool)
    (pages : list XWikiPage) :
  forall st : NetState,
    Forall2 (page_document W client allow_images)
      (List.filter (convertible K) pages)
      (successes (page_outcomes
                    (fun page => process_xwiki_page W D K client page allow_images)
                    pages st)).
Proof.
  induction pages as [|page pages IH]; intros st; [constructor|].
  cbn [page_outcomes List.filter].
  destruct (process_xwiki_page_run W D K client page allow_images st)
    as (extra & st' & -> & _ & Hall).
  unfold convertible at 1.
  destruct (doc_updated K (modified_ms page)) as [updated|e];
    cbn [successes]; [|apply IH].
  constructor; [|apply IH]. exists extra. cbn. auto.
Qed.

(** X14. The documents of a run.  A run that gets its batch yields, in
    the order of the batch, one document for each page it reaches whose
    modification time is a timestamp, and none for the others; it reaches
    the pages before the first one whose [modified_ms] counts as true and
    is no number, which is all of them when there is no such page.  Each
    document has the id and the name of its page, the text of the page as
    its first section, and after it sections of the attachments of that
    page only: a text the extractor gave for the downloaded bytes of a
    supported document, linked to its download URL, or, only when the
    connector allows images, the section the image store gave for the
    downloaded bytes of an image of a valid type under its storage key. *)
Theorem run_documents (self : XWikiConnector) (start end_ : float)
    (checkpoint : ref) (s : ConnState) (client : XWikiClient)
    (incoming : XWikiCheckpoint) (since : option Z) (pages : list XWikiPage)
    (raw_count : Z) (n1 : NetState) :
  _client self = Some client ->
  heap s !! checkpoint = Some incoming ->
  effective_since (since_ms incoming) start = Return since ->
  query_pages W client (_wiki self) (_root_page self) (_tag self)
    (_index_recursively self) since (offset incoming) (_batch_size self) (net s)
  = (Return (pages, raw_count), n1) ->
  Forall2 (page_document W client (_allow_images self))
    (List.filter (convertible K) (reached pages))
    (yielded (load_from_checkpoint W D K self start end_ checkpoint s))
  /\ (forallb comparable pages = true -> reached pages = pages).
Proof.
  intros Hclient Hcp Hsince Hquery. unfold load_from_checkpoint, yielded.
  rewrite load_run, Hclient, Hcp, Hsince, Hquery. cbv zeta. cbn [fst].
  split; [apply yielded_documents | apply reached_all].
Qed.

(** X15. What a run keeps true of the cursor.  With [has_more] the offset
    does not go back and goes on by at least the number of documents
    yielded; without it the offset is 0 and fewer documents than the batch
    size were yielded.  A threshold, once set, stays set and never goes
    down.  With a batch size of zero or less every run that returns says
    [has_more]. *)
Theorem cursor_invariants (self : XWikiConnector) (start end_ : float)
    (checkpoint : ref) (s : ConnState) (incoming outgoing : XWikiCheckpoint) :
  heap s !! checkpoint = Some incoming ->
  returned_checkpoint (load_from_checkpoint W D K self start end_ checkpoint s)
  = Return outgoing ->
  let documents := yielded (load_from_checkpoint W D K self start end_ checkpoint s) in
  (has_more outgoing = true ->
   offset incoming <= offset outgoing
   /\ Z.of_nat (length documents) <= offset outgoing - offset incoming)
  /\ (has_more outgoing = false ->
      offset outgoing = 0 /\ Z.of_nat (length documents) < _batch_size self)
  /\ (forall t : Z,
         since_ms incoming = Some t ->
         exists t' : Z, since_ms outgoing = Some t' /\ t <= t')
  /\ (_batch_size self <= 0 -> has_more outgoing = true).
Proof.
  intros Hcp. unfold load_from_checkpoint, yielded. rewrite load_run, Hcp.
  destruct (_client self) as [client|]; [|discriminate].
  destruct (effective_since (since_ms incoming) start) as [since|e] eqn:Hsince;
    [|discriminate].
  destruct (query_pages W client (_wiki self) (_root_page self) (_tag self)
              (_index_recursively self) since (offset incoming) (_batch_size self)
              (net s)) as [[[pages raw_count]|e] n1] eqn:Hquery; [|discriminate].
  cbv zeta.
  destruct (forallb comparable pages) eqn:Hall.
  2:{ destruct (tracked_stuck pages (JInt (default 0 since)) (default 0 since)
                  Hall eq_refl) as (e & -> & _).
      discriminate. }
  destruct (tracked_batch_max since pages Hall) as (v & t' & -> & _).
  rewrite returned_new, (reached_all pages Hall).
  intros H. injection H as <-. cbn [fst].
  destruct (query_pages_hits W client (_wiki self) (_root_page self) (_tag self)
              (_index_recursively self) since (offset incoming) (_batch_size self)
              (net s) pages raw_count)
    as (hits & Hraw & _ & Hpages); [now rewrite Hquery|].
  pose proof (filter_length_le hit_passes hits) as Hhits.
  set (process_page := fun page => process_xwiki_page W D K client page
                                     (_allow_images self)).
  pose proof (successes_length (page_outcomes process_page pages n1)) as Hdocs.
  rewrite page_outcomes_length in Hdocs.
  unfold next_checkpoint.
  destruct (raw_count >=? _batch_size self) eqn:Hfull;
    cbn [has_more offset since_ms].
  - rewrite Z.geb_leb in Hfull. apply Z.leb_le in Hfull.
    split; [intros _; lia|]. split; [discriminate|]. split; [|reflexivity].
    intros t Ht. unfold effective_since in Hsince. rewrite Ht in Hsince.
    injection Hsince as <-. exists t. split; [reflexivity | lia].
  - rewrite Z.geb_leb in Hfull. apply Z.leb_gt in Hfull.
    split; [discriminate|]. split; [intros _; lia|]. split; [|lia].
    intros t Ht. unfold effective_since in Hsince. rewrite Ht in Hsince.
    injection Hsince as <-.
    pose proof (batch_max_ge (Some t) pages) as Hmax.
    cbn [default from_option Datatypes.id] in Hmax.
    destruct (batch_max (Some t) pages >? 0); eauto using Z.le_refl.
Qed.

(** X16. The time window.  [end] plays no role in a run; and once the
    checkpoint has a threshold, [start] plays none either: runs that differ
    only in them send the same requests, yield the same documents and
    return equal checkpoints. *)
Theorem window_ignored (self : XWikiConnector) (checkpoint : ref) (s : ConnState) :
  (forall start end_ end_' : float,
      load_from_checkpoint W D K self start end_ checkpoint s
      = load_from_checkpoint W D K self start end_' checkpoint s)
  /\ (forall (start start' end_ end_' : float) (incoming : XWikiCheckpoint) (t : Z),
         heap s !! checkpoint = Some incoming ->
         since_ms incoming = Some t ->
         load_from_checkpoint W D K self start end_ checkpoint s
         = load_from_checkpoint W D K self start' end_' checkpoint s).
Proof.
  split; [reflexivity|].
  intros start start' end_ end_' incoming t Hcp Ht.
  unfold load_from_checkpoint. rewrite !load_run, Hcp.
  unfold effective_since. now rewrite Ht.
Qed.

(** X17. Why a run fails.  [load_from_checkpoint] raises only for missing
    credentials, for a first run whose [start] times 1000 is infinite or
    no number, with the error of the search, or with a [TypeError] where
    the batch has a page whose [modified_ms] counts as true and is no
    number; what happens while the pages of the batch are processed never
    makes it fail. *)
Theorem run_failure_causes (self : XWikiConnector) (start end_ : float)
    (checkpoint : ref) (s : ConnState) (incoming : XWikiCheckpoint) (e : exn) :
  heap s !! checkpoint = Some incoming ->
  outcome (load_from_checkpoint W D K self start end_ checkpoint s) = Raise e ->
  (_client self = None /\ e = Exn ConnectorMissingCredentialError "xwiki")
  \/ (since_ms incoming = None
      /\ (e = Exn ValueError "cannot convert float NaN to integer"
          \/ e = Exn OverflowError "cannot convert float infinity to integer"))
  \/ (exists (client : XWikiClient) (since : option Z),
        _client self = Some client
        /\ effective_since (since_ms incoming) start = Return since
        /\ fst (query_pages W client (_wiki self) (_root_page self) (_tag self)
                  (_index_recursively self) since (offset incoming)
                  (_batch_size self) (net s)) = Raise e)
  \/ (exists (client : XWikiClient) (since : option Z) (pages : list XWikiPage)
             (raw_count : Z),
        _client self = Some client
        /\ effective_since (since_ms incoming) start = Return since
        /\ fst (query_pages W client (_wiki self) (_root_page self) (_tag self)
                  (_index_recursively self) since (offset incoming)
                  (_batch_size self) (net s)) = Return (pages, raw_count)
        /\ forallb comparable pages = false
        /\ exn_cls e = TypeError).
Proof.
  intros Hcp. unfold load_from_checkpoint, outcome. rewrite load_run, Hcp.
  destruct (_client self) as [client|].
  2:{ intros H. injection H as <-. left. auto. }
  destruct (effective_since (since_ms incoming) start) as [since|e'] eqn:Hsince.
  - destruct (query_pages W client (_wiki self) (_root_page self) (_tag self)
                (_index_recursively self) since (offset incoming) (_batch_size self)
                (net s)) as [[[pages raw_count]|e'] n1] eqn:Hquery.
    + cbv zeta. cbn [fst snd].
      destruct (forallb comparable pages) eqn:Hall.
      * destruct (tracked_batch_max since pages Hall) as (v & t & -> & _).
        discriminate.
      * destruct (tracked_stuck pages (JInt (default 0 since)) (default 0 since)
                    Hall eq_refl) as (e' & -> & Hcls).
        intros H. injection H as <-. right; right; right.
        exists client, since, pages, raw_count. rewrite Hquery. auto 10.
    + intros H. injection H as <-. right; right; left. exists client, since.
      rewrite Hquery. auto.
  - intros H. injection H as <-. right; left.
    unfold effective_since in Hsince.
    destruct (since_ms incoming); [discriminate Hsince|]. split; [reflexivity|].
    destruct (float_truthy start); [|discriminate Hsince].
    unfold int_of_float in Hsince.
    destruct (Prim2SF (start * 1000)%float); cbn in Hsince;
      try discriminate Hsince; injection Hsince as <-; auto.
Qed.

End RunOutcomes.

Lemma settings_query_builds (W : World) (root_page tag : option string)
    (index_recursively : bool) (since_ms : option Z) :
  (exists built, _build_solr_query W root_page tag index_recursively None
                 = Return built) ->
  match _build_solr_query W root_page tag index_recursively since_ms with
  | Return _ => True
  | Raise e => _build_modified_filter W since_ms = Raise e
  end.
Proof.
  intros [built H]. unfold _build_solr_query, query_terms in *.
  destruct (if opt_truthy root_page then _ else _) as [[terms extra]|e];
    [|discriminate H].
  cbn [exc_bind]. destruct since_ms as [ms|]; [|exact I].
  destruct (_build_modified_filter W (Some ms)) as [term|e]; cbn [exc_bind];
    [exact I | reflexivity].
Qed.

(** X18. Validation of the settings.  Without credentials the validation
    fails with the missing-credential error and sends nothing.  Settings
    from which no query can be built fail it with the builder's message,
    again without a request.  And for settings that passed, the query of
    every later batch can be built, unless the timestamp of its threshold
    cannot be formatted. *)
Theorem settings_validation (W : World) (self : XWikiConnector) (st : NetState) :
  (_client self = None ->
   validate_connector_settings W self st = (MissingCredential "xwiki", st))
  /\ (forall (client : XWikiClient) (e : exn),
         _client self = Some client ->
         _build_solr_query W (_root_page self) (_tag self)
           (_index_recursively self) None = Raise e ->
         validate_connector_settings W self st
         = (UnexpectedValidation
              ("Unexpected error while validating XWiki settings: "
               +:+ exn_str e), st))
  /\ (fst (validate_connector_settings W self st) = SettingsValid ->
      is_Some (_client self)
      /\ forall since_ms : option Z,
           match _build_solr_query W (_root_page self) (_tag self)
                   (_index_recursively self) since_ms with
           | Return _ => True
           | Raise e => _build_modified_filter W since_ms = Raise e
           end).
Proof.
  unfold validate_connector_settings. split; [|split].
  - now intros ->.
  - intros client e -> H. unfold query_pages, NetM.bind at 1, lift at 1.
    now rewrite H.
  - destruct (_client self) as [client|]; [|discriminate].
    intros H. split; [eauto|]. intros since_ms.
    apply settings_query_builds.
    unfold query_pages, NetM.bind at 1, lift at 1 in H.
    destruct (_build_solr_query W (_root_page self) (_tag self)
                (_index_recursively self) None) as [built|e]; [eauto|].
    discriminate H.
Qed.

Lemma run_documents_witness :
  Forall2 (page_document
             (Examples.world
                (Examples.home_wiki [Examples.hit (JStr EmptyString);
                                     Examples.hit (JStr "fr")] 1704067200000))
             Examples.client false)
    (List.filter (convertible Examples.clock)
       (reached [Examples.home_page 1704067200000]))
    (yielded
       (load_from_checkpoint
          (Examples.world
             (Examples.home_wiki [Examples.hit (JStr EmptyString);
                                  Examples.hit (JStr "fr")] 1704067200000))
          (Examples.deps Examples.decode) Examples.clock Examples.connector
          5%float 0%float 0%nat Examples.fresh_run)).
Proof.
  refine (proj1 (run_documents
           (Examples.world
              (Examples.home_wiki [Examples.hit (JStr EmptyString);
                                   Examples.hit (JStr "fr")] 1704067200000))
           (Examples.deps Examples.decode) Examples.clock Examples.connector
           5%float 0%float 0%nat Examples.fresh_run Examples.client
           build_dummy_checkpoint (Some 5000)
           [Examples.home_page 1704067200000] 2
           (snd (query_pages
                   (Examples.world
                      (Examples.home_wiki [Examples.hit (JStr EmptyString);
                                           Examples.hit (JStr "fr")] 1704067200000))
                   Examples.client "xwiki" None None true (Some 5000) 0 500
                   Examples.idle)) _ _ _ _)).
  - reflexivity.
  - reflexivity.
  - reflexivity.
  - vm_compute. reflexivity.
Defined.

Lemma cursor_invariants_witness :
  offset {| has_more := false; since_ms := Some 1704067200000; offset := 0 |} = 0
  /\ Z.of_nat
       (length
          (yielded
             (load_from_checkpoint
                (Examples.world
                   (Examples.home_wiki [Examples.hit (JStr EmptyString);
                                        Examples.hit (JStr "fr")] 1704067200000))
                (Examples.deps Examples.decode) Examples.clock Examples.connector
                5%float 0%float 0%nat Examples.fresh_run)))
     < _batch_size Examples.connector.
Proof.
  apply (proj1 (proj2 (cursor_invariants
                         (Examples.world
                            (Examples.home_wiki [Examples.hit (JStr EmptyString);
                                                 Examples.hit (JStr "fr")]
                               1704067200000))
                         (Examples.deps Examples.decode) Examples.clock
                         Examples.connector 5%float 0%float 0%nat Examples.fresh_run
                         build_dummy_checkpoint
                         {| has_more := false; since_ms := Some 1704067200000;
                            offset := 0 |}
                         eq_refl eq_refl))).
  reflexivity.
Defined.

Lemma run_failure_causes_witness :
  (_client (XWikiConnector_init "https://wiki.example.org/" "xwiki" None true None 500)
   = None
   /\ Exn ConnectorMissingCredentialError "xwiki"
      = Exn ConnectorMissingCredentialError "xwiki")
  \/ (since_ms build_dummy_checkpoint = None
      /\ (Exn ConnectorMissingCredentialError "xwiki"
          = Exn ValueError "cannot convert float NaN to integer"
          \/ Exn ConnectorMissingCredentialError "xwiki"
             = Exn OverflowError "cannot convert float infinity to integer"))
  \/ (exists (client : XWikiClient) (since : option Z),
        _client (XWikiConnector_init "https://wiki.example.org/" "xwiki" None true
                   None 500) = Some client
        /\ effective_since (since_ms build_dummy_checkpoint) 5%float = Return since
        /\ fst (query_pages (Examples.world (Examples.home_wiki [] 0)) client
                  "xwiki" None None true since 0 500 Examples.idle)
           = Raise (Exn ConnectorMissingCredentialError "xwiki"))
  \/ (exists (client : XWikiClient) (since : option Z) (pages : list XWikiPage)
             (raw_count : Z),
        _client (XWikiConnector_init "https://wiki.example.org/" "xwiki" None true
                   None 500) = Some client
        /\ effective_since (since_ms build_dummy_checkpoint) 5%float = Return since
        /\ fst (query_pages (Examples.world (Examples.home_wiki [] 0)) client
                  "xwiki" None None true since 0 500 Examples.idle)
           = Return (pages, raw_count)
        /\ forallb comparable pages = false
        /\ exn_cls (Exn ConnectorMissingCredentialError "xwiki") = TypeError).
Proof.
  apply (run_failure_causes (Examples.world (Examples.home_wiki [] 0))
           (Examples.deps Examples.decode) Examples.clock
           (XWikiConnector_init "https://wiki.example.org/" "xwiki" None true None 500)
           5%float 0%float 0%nat Examples.fresh_run build_dummy_checkpoint
           (Exn ConnectorMissingCredentialError "xwiki") eq_refl eq_refl).
Defined.

(** ** Requests, page data and the base URL *)

Lemma retry_loop_outcome {A} (P : Exc A -> Prop) (n : nat) (pause b m : Q)
    (call : Net A) :
  (forall st, P (fst (call st))) ->
  forall st, P (fst (retry_loop n pause b m call st)).
Proof.
  intros Hcall. revert pause. induction n as [|n IH]; intros pause st.
  - rewrite retry_loop_last. apply Hcall.
  - rewrite retry_loop_step. specialize (Hcall st).
    destruct (call st) as [[a|e] st']; [exact Hcall|].
    destruct (non_retryable e); [exact Hcall | apply IH].
Qed.

Lemma request_once_result (W : World) (self : XWikiClient) (method url : string)
    (headers : option (gmap string string))
    (params : option (list (string * Py.json)))
    (allow_status : option (gset Z)) (data json : option Py.json)
    (st : NetState) :
  request_result W self method url headers params allow_status data json
    (fst (_request_once W self method url headers params allow_status data json st)).
Proof.
  destruct (request_url W self url) as [target|e] eqn:Hurl.
  2:{ rewrite (request_once_unjoined W self method url headers params
                 allow_status data json e Hurl).
      cbn [fst request_result]. now left. }
  rewrite (request_once_run W self method url headers params allow_status
             data json target Hurl).
  unfold request_result. rewrite Hurl.
  destruct (wiki_reply W (sent st) _) as [response|e] eqn:Hreply; cbn [fst].
  - destruct (status_code response =? 401) eqn:H401;
      [right; exists target; split; [reflexivity | now left]|].
    apply Z.eqb_neq in H401.
    destruct (unexpected_status allow_status (status_code response)) eqn:Hstatus;
      [right; exists target; split; [reflexivity | right; now left]|].
    split; [exact H401|]. unfold unexpected_status in Hstatus.
    apply andb_false_iff in Hstatus as [Hstatus|Hstatus].
    + apply andb_false_iff in Hstatus as [Hstatus|Hstatus].
      * apply negb_false_iff, Z.eqb_eq in Hstatus. contradiction.
      * apply negb_false_iff, bool_decide_eq_true in Hstatus. now left.
    + apply negb_false_iff, andb_true_iff in Hstatus as [Hlo Hhi].
      apply Z.leb_le in Hlo. apply Z.ltb_lt in Hhi. right. lia.
  - right. exists target. split; [reflexivity|].
    right; right. exists (sent st). exact Hreply.
Qed.

(** X19. What a request ends with.  A reply that [_request] returns never
    has the status 401, also when the caller allows it, and its status is
    one the caller allows or a 2xx.  An error it raises is the error with
    which the join of the URL to the base URL failed, or, for a URL that
    could be formed, the authentication error, the unexpected-response
    error, or an error the session raised for the request at that URL. *)
Theorem request_outcome (W : World) (self : XWikiClient) (method url : string)
    (headers : option (gmap string string))
    (params : option (list (string * Py.json)))
    (allow_status : option (gset Z)) (data json : option Py.json)
    (st : NetState) :
  match fst (_request W self method url headers params allow_status data json st) with
  | Return response =>
      status_code response <> 401
      /\ (status_code response ∈ default (∅ : gset Z) allow_status
          \/ 200 <= status_code response < 300)
  | Raise e =>
      request_url W self url = Raise e
      \/ exists target : string,
           request_url W self url = Return target
           /\ (exn_cls e = XWikiAuthenticationError
               \/ exn_cls e = XWikiUnexpectedResponse
               \/ exists log : list Request,
                    wiki_reply W log
                      (request_of self method target headers params data json)
                    = Raise e)
  end.
Proof.
  unfold _request, retry_builder.
  apply (retry_loop_outcome
           (request_result W self method url headers params allow_status data json)).
  apply request_once_result.
Qed.


Lemma rev_app_append (s acc : string) :
  String.rev_app s acc = String.rev s +:+ acc.
Proof.
  unfold String.rev. revert acc. induction s as [|a s IH]; intros acc; [reflexivity|].
  cbn [String.rev_app]. rewrite (IH (String a acc)), (IH (String a EmptyString)).
  now rewrite append_assoc.
Qed.

Lemma rev_cons (a : ascii) (s : string) :
  String.rev (String a s) = String.rev s +:+ String a EmptyString.
Proof. unfold String.rev at 1. cbn [String.rev_app]. apply rev_app_append. Qed.

Lemma rev_append (a b : string) :
  String.rev (a +:+ b) = String.rev b +:+ String.rev a.
Proof.
  induction a as [|x a IH].
  - cbn [String.append]. now rewrite append_nil_r.
  - change (String x a +:+ b) with (String x (a +:+ b)).
    now rewrite !rev_cons, IH, append_assoc.
Qed.

Lemma rev_involutive (s : string) : String.rev (String.rev s) = s.
Proof.
  induction s as [|a s IH]; [reflexivity|].
  now rewrite rev_cons, rev_append, IH.
Qed.

Lemma rev_repeat_char (c : ascii) (n : nat) :
  String.rev (repeat_char c n) = repeat_char c n.
Proof.
  induction n as [|n IH]; [reflexivity|].
  cbn [repeat_char]. rewrite rev_cons, IH. clear IH.
  induction n as [|n IH]; [reflexivity|].
  cbn [repeat_char String.append]. now rewrite IH.
Qed.

Lemma lstrip_spec (c : ascii) (s : string) :
  exists n : nat,
    s = repeat_char c n +:+ lstrip c s
    /\ forall rest, lstrip c s <> String c rest.
Proof.
  induction s as [|x s (n & Hs & Hrest)].
  - exists 0%nat. split; [reflexivity | discriminate].
  - cbn [lstrip]. destruct (Ascii.eqb_spec x c) as [->|Hx].
    + exists (S n). split; [|exact Hrest].
      cbn [repeat_char String.append]. now rewrite <- Hs.
    + exists 0%nat. split; [reflexivity|]. intros rest H. now injection H.
Qed.

Lemma endswith_rev (c : ascii) (t : string) :
  (forall rest, t <> String c rest) ->
  endswith (String c EmptyString) (String.rev t) = false.
Proof.
  intros Ht. destruct t as [|x t]; [reflexivity|].
  rewrite rev_cons. unfold endswith. rewrite length_append.
  cbn [String.length]. apply andb_false_iff. right.
  replace (String.length (String.rev t) + 1 - 1)%nat
    with (String.length (String.rev t)) by lia.
  rewrite substring_skip. cbn.
  destruct (Ascii.eqb_spec x c) as [->|Hx]; [|reflexivity].
  now destruct (Ht t).
Qed.

(** X21. The base URL of the client.  It is the configured URL without
    its trailing slashes, however many: it does not end with a slash, and
    the configured URL is the base URL followed by slashes only. *)
Theorem client_base_url (configured username password : string) :
  let self := XWikiClient_init configured username password in
  (exists n : nat, configured = base_url self +:+ repeat_char "/" n)
  /\ endswith "/" (base_url self) = false.
Proof.
  cbn [XWikiClient_init base_url session _build_session auth]. unfold rstrip.
  destruct (lstrip_spec "/" (String.rev configured)) as (n & Hs & Hrest).
  split; [|now apply endswith_rev].
  exists n. rewrite <- (rev_involutive configured) at 1.
  rewrite Hs at 1. now rewrite rev_append, rev_repeat_char.
Qed.


(** ** Path encoding *)

Lemma split_on_whole (sep : ascii) (s : string) :
  contains (String sep EmptyString) s = false -> split_on sep s = [s].
Proof.
  induction s as [|c s IH]; [reflexivity|].
  rewrite contains_char_cons. intros H. apply orb_false_iff in H as [Hc Hs].
  cbn [split_on]. now rewrite Hc, (IH Hs).
Qed.

Lemma split_on_append (sep : ascii) (a b : string) :
  contains (String sep EmptyString) a = false ->
  split_on sep (a +:+ String sep b) = a :: split_on sep b.
Proof.
  induction a as [|c a IH].
  - intros _. cbn [String.append split_on]. now rewrite Ascii.eqb_refl.
  - rewrite contains_char_cons. intros H. apply orb_false_iff in H as [Hc Ha].
    change (String c a +:+ String sep b) with (String c (a +:+ String sep b)).
    cbn [split_on]. now rewrite Hc, (IH Ha).
Qed.

Lemma split_on_concat (parts : list string) :
  parts <> [] ->
  Forall (fun part => contains "/" part = false) parts ->
  split_on "/" (String.concat "/" parts) = parts.
Proof.
  induction parts as [|part parts IH]; [congruence|].
  intros _ Hall. inversion Hall as [|? ? Hpart Hparts]; subst.
  destruct parts as [|next parts].
  - cbn [String.concat]. now apply split_on_whole.
  - change (String.concat "/" (part :: next :: parts))
      with (part +:+ String "/" (String.concat "/" (next :: parts))).
    rewrite split_on_append by exact Hpart. f_equal. now apply IH.
Qed.

(** X22. Encoded segments stay apart.  When [quote] never gives a slash,
    as with no safe characters, splitting the encoded path of a list of
    segments that is not empty at its slashes gives back the encoded
    segments, one for each segment, and an encoded page name is one
    segment; when [quote] is also one-to-one, two non-empty lists of spaces
    with the same encoded path are equal. *)
Theorem encoded_segments_apart (quote : string -> string) :
  (forall part : string, contains "/" (quote part) = false) ->
  (forall segments : list string,
      segments <> [] ->
      split_on "/" (_encode_segments quote segments) = map quote segments)
  /\ (forall value : string, split_on "/" (_encoded_page quote value) = [quote value])
  /\ ((forall a b : string, quote a = quote b -> a = b) ->
      forall a b : list string,
        a <> [] -> b <> [] ->
        _encoded_space_path quote a = _encoded_space_path quote b -> a = b).
Proof.
  intros Hquote.
  assert (Hsplit : forall segments : list string,
             segments <> [] ->
             split_on "/" (_encode_segments quote segments) = map quote segments).
  { intros segments Hne. unfold _encode_segments. apply split_on_concat.
    - destruct segments; [congruence | discriminate].
    - apply Forall_map, Forall_forall. intros part _. apply Hquote. }
  split; [exact Hsplit|]. split.
  - intros value. now apply split_on_whole.
  - intros Hinj a b Ha Hb H. unfold _encoded_space_path in H.
    apply (f_equal (split_on "/")) in H. rewrite !Hsplit in H by assumption.
    revert b Hb H. clear Ha. induction a as [|x a IH]; intros [|y b] Hb H;
      try discriminate H; try reflexivity.
    cbn [map] in H. injection H as Hx Hrest. apply Hinj in Hx as ->. f_equal.
    clear Hb. revert b Hrest. clear IH. induction a as [|x' a IH]; intros [|y' b] H;
      try discriminate H; try reflexivity.
    cbn [map] in H. injection H as Hx Hrest. apply Hinj in Hx as ->. f_equal.
    now apply IH.
Qed.

Lemma percent_encode_no_slash (s : string) :
  contains "/" (Examples.percent_encode s) = false.
Proof.
  induction s as [|c s IH]; [reflexivity|].
  cbn [Examples.percent_encode]. rewrite contains_char_append, IH, orb_false_r.
  destruct c as [[] [] [] [] [] [] [] []]; reflexivity.
Qed.

Lemma encoded_segments_apart_witness :
  split_on "/" (_encode_segments Examples.percent_encode ["Main"; "A/B"; "C D"])
  = ["Main"; "A%2FB"; "C%20D"].
Proof.
  apply (proj1 (encoded_segments_apart Examples.percent_encode percent_encode_no_slash)).
  discriminate.
Defined.

(** ** The requests of the client *)

Lemma asks_retry_loop {A} (req : Request) (n : nat) (pause b m : Q) (call : Net A) :
  asks req call -> asks req (retry_loop n pause b m call).
Proof.
  intros Hcall. revert pause. induction n as [|n IH]; intros pause st.
  - rewrite retry_loop_last. apply Hcall.
  - rewrite retry_loop_step. destruct (Hcall st) as (k & pauses & Hk & Hrun).
    destruct (call st) as [[a|e] st1]; cbn [snd] in *; [now exists k, pauses|].
    destruct (non_retryable e); [now exists k, pauses|].
    destruct (IH (Qred (Qmin (pause * b) m))
                {| sent := sent st1; slept := (slept st1 ++ [pause])%list |})
      as (k' & pauses' & Hk' & ->).
    exists (k + k')%nat, ((pauses ++ [pause]) ++ pauses')%list.
    split; [lia|]. subst st1. unfold after. cbn [sent slept].
    now rewrite repeat_app, !app_assoc.
Qed.

Lemma asks_request (W : World) (self : XWikiClient) (method url : string)
    (headers : option (gmap string string))
    (params : option (list (string * Py.json)))
    (allow_status : option (gset Z)) (data json : option Py.json)
    (target : string) :
  request_url W self url = Return target ->
  asks (request_of self method target headers params data json)
    (_request W self method url headers params allow_status data json).
Proof.
  intros Hurl st.
  pose proof (request_run W self method url headers params allow_status
                data json st) as Hrun.
  rewrite Hurl in Hrun. destruct Hrun as (k & pauses & Hk & _ & ->).
  exists k, pauses. split; [lia | reflexivity].
Qed.

Lemma asks_then {A B} (req : Request) (m : Net A) (k : A -> Net B) :
  asks req m -> (forall a st, snd (k a st) = st) -> asks req (NetM.bind m k).
Proof.
  intros Hm Hk st. unfold NetM.bind. destruct (Hm st) as (n & pauses & Hn & Hrun).
  destruct (m st) as [[a|e] st1]; cbn [snd] in Hrun; exists n, pauses;
    (split; [exact Hn|]); [now rewrite Hk | exact Hrun].
Qed.

(** A request whose URL cannot be formed fails with the error of the join,
    whatever follows it, and sends nothing. *)
Lemma unjoined_then {B} (W : World) (self : XWikiClient) (method url : string)
    (headers : option (gmap string string))
    (params : option (list (string * Py.json)))
    (allow_status : option (gset Z)) (data json : option Py.json)
    (k : Response -> Net B) (e : exn) :
  request_url W self url = Raise e ->
  forall st,
    fst (NetM.bind (_request W self method url headers params allow_status
                      data json) k st) = Raise e
    /\ sent (snd (NetM.bind (_request W self method url headers params
                               allow_status data json) k st)) = sent st.
Proof.
  intros Hurl st.
  pose proof (request_run W self method url headers params allow_status
                data json st) as Hrun.
  rewrite Hurl in Hrun. destruct Hrun as [Hraise Hsent]. unfold NetM.bind.
  destruct (_request W self method url headers params allow_status data json st)
    as [[response|e'] st']; cbn [fst snd] in *; [discriminate Hraise|].
  injection Hraise as ->. auto.
Qed.

(** X23. What the client asks for.  [download_attachment] sends one
    request, once or more: a GET at the very URL [attachment_download_url]
    gives for the links of the documents; where that URL cannot be formed
    it sends nothing and raises the error of the join.  [_fetch_page_data]
    for a URL that is not empty sends only GETs of that URL, joined to the
    base URL, for JSON, with the attachments, or fails in the same way.
    [_get_page_html] sends only GETs of the content URL of the page for
    HTML; where the content URL cannot be formed, or cannot be joined, it
    sends nothing and raises that error.  For a page URL that is no text
    the content URL cannot be formed: a list or a dict gives a
    [TypeError], any other value that counts as true an
    [AttributeError], and [None], zero and [False] a [TypeError]. *)
Theorem client_requests (W : World) (self : XWikiClient) :
  (forall attachment : XWikiAttachment,
      match attachment_download_url W self attachment with
      | Return download_url =>
          asks (request_of self "GET" download_url None None None None)
            (download_attachment W self attachment)
      | Raise e =>
          forall st,
            fst (download_attachment W self attachment st) = Raise e
            /\ sent (snd (download_attachment W self attachment st)) = sent st
      end)
  /\ (forall page_url : string,
         page_url <> EmptyString ->
         match request_url W self page_url with
         | Return target =>
             asks (request_of self "GET" target
                     (Some {[ "Accept" := "application/json" ]})
                     (Some [("attachments", JStr "true")]) None None)
               (_fetch_page_data W self page_url)
         | Raise e =>
             forall st,
               fst (_fetch_page_data W self page_url st) = Raise e
               /\ sent (snd (_fetch_page_data W self page_url st)) = sent st
         end)
  /\ (forall (page_url : Py.json) (full_name : Py.json),
         match (let? get_url := resolve_page_content_url W page_url in
                request_url W self get_url) with
         | Return target =>
             asks (request_of self "GET" target
                     (Some {[ "Accept" := "text/html" ]}) None None None)
               (_get_page_html W self page_url full_name)
         | Raise e =>
             forall st,
               fst (_get_page_html W self page_url full_name st) = Raise e
               /\ sent (snd (_get_page_html W self page_url full_name st))
                  = sent st
         end)
  /\ (forall page_url : Py.json,
         match page_url with
         | JStr _ => True
         | JList _ | JDict _ =>
             exists message,
               resolve_page_content_url W page_url
               = Raise (Exn TypeError message)
         | _ =>
             exists message,
               resolve_page_content_url W page_url
               = Raise (Exn (if truthy page_url then AttributeError
                             else TypeError) message)
         end).
Proof.
  split; [|split; [|split]].
  - intros attachment.
    change (attachment_download_url W self attachment)
      with (request_url W self (download_path attachment)).
    unfold download_attachment, retry_builder.
    destruct (request_url W self (download_path attachment))
      as [download_url|e] eqn:Hurl.
    + apply asks_retry_loop.
      apply asks_then; [now apply asks_request | reflexivity].
    + apply retry_loop_fails. now apply unjoined_then.
  - intros page_url Hne. unfold _fetch_page_data, retry_builder.
    destruct page_url as [|c page_url]; [congruence|]. cbn [nonempty negb].
    destruct (request_url W self (String c page_url)) as [target|e] eqn:Hurl.
    + apply asks_retry_loop.
      apply asks_then; [now apply asks_request | reflexivity].
    + apply retry_loop_fails. now apply unjoined_then.
  - intros page_url full_name. unfold _get_page_html, retry_builder.
    destruct (resolve_page_content_url W page_url) as [get_url|e];
      cbn [exc_bind].
    2:{ apply retry_loop_fails. intros st. split; reflexivity. }
    destruct (request_url W self get_url) as [target|e] eqn:Hurl.
    + apply asks_retry_loop. intros st.
      exact (asks_then _
               (_request W self "GET" get_url
                  (Some {[ "Accept" := "text/html" ]}) None None None None)
               (fun response => lift (html_to_text W (NetM.text response)))
               (asks_request W self "GET" get_url
                  (Some {[ "Accept" := "text/html" ]}) None None None None
                  target Hurl)
               (fun response st' => eq_refl) st).
    + apply retry_loop_fails. intros st.
      exact (unjoined_then W self "GET" get_url
               (Some {[ "Accept" := "text/html" ]}) None None None None
               _ e Hurl st).
  - intros [| [] | n | t | l | d]; cbn [resolve_page_content_url split_no_str truthy];
      try exact I; try (eexists; reflexivity).
    destruct (negb (n =? 0)); eexists; reflexivity.
Qed.

Lemma client_requests_witness :
  asks (request_of Examples.client "GET"
          "https://wiki.example.org/bin/download/Main/WebHome/notes.txt"
          None None None None)
    (download_attachment (Examples.world (Examples.file_wiki "notes.txt" "text"))
       Examples.client (Examples.attachment "notes.txt" None None)).
Proof.
  exact (proj1 (client_requests
                  (Examples.world (Examples.file_wiki "notes.txt" "text"))
                  Examples.client)
           (Examples.attachment "notes.txt" None None)).
Defined.

(** A page URL that came as the number 5: the content URL cannot be
    formed. *)
Example page_url_number :
  resolve_page_content_url (Examples.world (Examples.always 200)) (JInt 5)
  = Raise (Exn AttributeError "'int' object has no attribute 'decode'")
  /\ resolve_page_content_url (Examples.world (Examples.always 200)) JNull
     = Raise (Exn TypeError "a bytes-like object is required, not 'str'")
  /\ resolve_page_content_url (Examples.world (Examples.always 200)) (JList [])
     = Raise (Exn TypeError "unhashable type: 'list'").
Proof. repeat split. Qed.

(** ** A connector as built *)

Lemma page_document_no_image {D K} (W : World) (client : XWikiClient)
    (page : XWikiPage) (document : Document D K) :
  page_document W client false page document ->
  Forall no_image (sections D K document).
Proof.
  intros (extra & _ & _ & -> & Hall). constructor; [exact I|].
  eapply Forall_impl; [exact Hall|].
  intros [text link|image] (attachment & _ & H); [exact I|].
  destruct H as [H _]. discriminate H.
Qed.

(** X24. Credentials and images from the start.  A connector as built
    raises the missing-credential error on a run, yields nothing and
    leaves everything as it was; allowing images and loading credentials
    can come in either order; and a connector that got its credentials but
    was never told to allow images yields no document with an image
    section. *)
Theorem images_off_by_default (W : World) (D : Deps) (K : Clock)
    (base_url wiki : string) (root_page : option string)
    (index_recursively : bool) (tag : option string) (batch_size : Z)
    (username password : string) (start end_ : float) (checkpoint : ref)
    (s : ConnState) :
  let fresh :=
    XWikiConnector_init base_url wiki root_page index_recursively tag batch_size in
  load_from_checkpoint W D K fresh start end_ checkpoint s
  = (([], Raise (Exn ConnectorMissingCredentialError "xwiki")), s)
  /\ set_allow_images (load_credentials fresh username password) true
     = load_credentials (set_allow_images fresh true) username password
  /\ Forall (fun document => Forall no_image (sections D K document))
       (yielded (load_from_checkpoint W D K
                   (load_credentials fresh username password)
                   start end_ checkpoint s)).
Proof.
  intros fresh. split; [reflexivity|]. split; [reflexivity|].
  unfold load_from_checkpoint, yielded. rewrite load_run.
  cbn [load_credentials _client _wiki _root_page _tag _index_recursively
         _batch_size _allow_images fresh XWikiConnector_init].
  destruct (heap s !! checkpoint) as [c0|]; [|constructor].
  destruct (effective_since (since_ms c0) start) as [since|e]; [|constructor].
  destruct (query_pages _ _ _ _ _ _ _ _ _ _) as [[[pages raw_count]|e] n1];
    [|constructor].
  cbv zeta. cbn [fst].
  pose proof (yielded_documents W D K
                (XWikiClient_init base_url username password) false
                (reached pages) n1)
    as Hdocs.
  change (_base_url fresh) with base_url.
  set (documents := successes _) in *. clearbody documents.
  set (kept := List.filter _ (reached pages)) in *. clearbody kept.
  induction Hdocs as [|page document kept documents Hdoc _ IH]; constructor;
    [|exact IH].
  exact (page_document_no_image W _ page document Hdoc).
Qed.
